(** * Weather alert system: risk scoring and alert derivation

    A shallow embedding of the decision logic of the backend services
    ([risk_calculator.py], [alert_engine.py], [earthquake_monitor.py],
    [tsunami_monitor.py]) together with the properties stated about it,
    followed by the in-memory stores behind the endpoints ([api/alerts.py],
    [api/preferences.py], [routers/users.py], [cache_service.py]) and the
    parts of [weather_service.py] and [notification_service.py] that
    decide what is reported and pushed.

    Number model.  Python floats are read as exact numbers.  The weather
    services only add, multiply, divide and compare, so they are embedded
    over the rationals [Q] and every definition there computes.  The seismic
    services go through [sin], [cos], [asin] and [sqrt], so they are embedded
    over the reals [R].  Where the code drops the fraction of a float
    product, in the arrival estimate of the tsunami monitor, the last
    digits decide the integer: there each operation is rounded to the
    nearest double ([PyR.fl]).  The total of the heavy-rain detector is
    described for amounts whose additions do not round ([PyFloat]). *)

From Stdlib Require Import ZArith QArith Qround Qabs List String Ascii Bool Lia.
From Stdlib Require Import Sorting.Sorted Sorting.Permutation.
From Stdlib Require Import DecimalString.
From Stdlib Require Import Reals Machin.
From Stdlib Require Import Psatz.
Import ListNotations.

Close Scope R_scope.
Close Scope Q_scope.
Close Scope string_scope.

(** ** Python built-ins shared by the services *)

Module Py.

Local Open Scope Q_scope.

(** [x < y] on floats. *)
Definition Qltb (x y : Q) : bool := negb (Qle_bool y x).
(** [x <= y] on floats. *)
Definition Qleb (x y : Q) : bool := Qle_bool x y.

(** [min(a, b)]: the first argument is kept unless the second is
    strictly smaller. *)
Definition min (a b : Q) : Q := if Qltb b a then b else a.
(** [max(a, b)]: the first argument is kept unless the second is
    strictly greater. *)
Definition max (a b : Q) : Q := if Qltb a b then b else a.

(** Exceptions the modelled code can raise. *)
Inductive exn : Set := ValueError.

(** [max(iterable)]: the running best is replaced by a strictly greater
    item; an empty iterable raises [ValueError]. *)
Fixpoint max_from (best : Q) (l : list Q) : Q :=
  match l with
  | [] => best
  | x :: r => max_from (if Qltb best x then x else best) r
  end.

Definition max_iter (l : list Q) : exn + Q :=
  match l with
  | [] => inl ValueError
  | x :: r => inr (max_from x r)
  end.

(** [min(iterable)], dually. *)
Fixpoint min_from (best : Q) (l : list Q) : Q :=
  match l with
  | [] => best
  | x :: r => min_from (if Qltb x best then x else best) r
  end.

Definition min_iter (l : list Q) : exn + Q :=
  match l with
  | [] => inl ValueError
  | x :: r => inr (min_from x r)
  end.

(** [sum(iterable)], accumulated from 0 left to right. *)
Definition sum (l : list Q) : Q := fold_left Qplus l 0.

(** [l[0]] and [l[-1]] of a list known to be non-empty at the call. *)
Definition first {A} (l : list A) : option A := hd_error l.
Definition last_item {A} (l : list A) : option A :=
  match l with
  | [] => None
  | x :: r => Some (List.last r x)
  end.

(** [str(n)] for integers. *)
Definition str_int (n : Z) : string := NilZero.string_of_int (Z.to_int n).
Definition str_len (n : nat) : string := NilZero.string_of_uint (Nat.to_uint n).

(** Round to the nearest integer, ties to even. *)
Definition round_half_even (x : Q) : Z :=
  let f := Qfloor x in
  let r := x - inject_Z f in
  if Qltb r (1 # 2) then f
  else if Qltb (1 # 2) r then (f + 1)%Z
  else if Z.even f then f else (f + 1)%Z.

Fixpoint zero_pad (width : nat) (s : string) : string :=
  match width with
  | O => s
  | S w => if (String.length s <? S w)%nat
           then zero_pad w (String "0" s) else s
  end.

(** [f"{x:.<digits>f}"]: fixed-point notation, exact value rounded half
    to even at the last kept digit. *)
Definition format_fixed (digits : nat) (x : Q) : string :=
  let scale := (10 ^ Z.of_nat digits)%Z in
  let n := round_half_even (Qabs x * inject_Z scale) in
  let sign := if Qltb x 0 then "-"%string else ""%string in
  let int_part := str_int (n / scale) in
  match digits with
  | O => (sign ++ int_part)%string
  | S _ =>
      (sign ++ int_part ++ "."
       ++ zero_pad digits (str_int (n mod scale)))%string
  end.

(** [sorted(l, key=...)] is a stable sort.  [before y x] says that the
    key of [y] sorts strictly before the key of [x]; an item is placed
    after every item already sorted before it, and in front of the
    others, so items with equal keys keep their input order. *)
Section Sorted.
Context {A : Type} (before : A -> A -> bool).

Fixpoint insert (x : A) (l : list A) : list A :=
  match l with
  | [] => [x]
  | y :: r => if before y x then y :: insert x r else x :: y :: r
  end.

Definition sorted (l : list A) : list A := fold_right insert [] l.
End Sorted.

End Py.

(** ** [risk_calculator.py] *)

Module RiskCalculator.

Import Py.
Local Open Scope Q_scope.

Definition calculate_temperature_risk (temp : Q) : Q :=
  if Qleb 15 temp && Qleb temp 25 then 0
  else if Qltb 25 temp then min 100 (((temp - 25) / 20) * 100)
  else min 100 (((15 - temp) / 20) * 100).

Definition calculate_precipitation_risk (precip_mm : Q) : Q :=
  min 100 ((precip_mm / 100) * 100).

Definition calculate_wind_risk (wind_speed_kmh : Q) : Q :=
  if Qltb wind_speed_kmh 30 then (wind_speed_kmh / 30) * 30
  else if Qltb wind_speed_kmh 60 then 30 + ((wind_speed_kmh - 30) / 30) * 40
  else min 100 (70 + ((wind_speed_kmh - 60) / 40) * 30).

Definition calculate_humidity_risk (humidity temp : Q) : Q :=
  if Qltb temp 25 || Qltb humidity 60 then 0
  else min 100 (((humidity - 60) / 40) * 100).

Definition calculate_visibility_risk (visibility_km : Q) : Q :=
  if Qleb 10 visibility_km then 0
  else min 100 (((10 - visibility_km) / 10) * 100).

Definition calculate_risk_score
    (temperature precipitation wind_speed humidity visibility : Q) : Q :=
  let temp_risk := calculate_temperature_risk temperature in
  let precip_risk := calculate_precipitation_risk precipitation in
  let wind_risk := calculate_wind_risk wind_speed in
  let humidity_risk := calculate_humidity_risk humidity temperature in
  let visibility_risk := calculate_visibility_risk visibility in
  let risk_score :=
    temp_risk * 0.30 + precip_risk * 0.25 + wind_risk * 0.25
    + humidity_risk * 0.10 + visibility_risk * 0.10 in
  min 100 (max 0 risk_score).

Definition get_risk_level (score : Q) : string :=
  if Qleb score 20 then "LOW"%string
  else if Qleb score 40 then "MODERATE"%string
  else if Qleb score 60 then "MEDIUM"%string
  else if Qleb score 80 then "HIGH"%string
  else "SEVERE"%string.

End RiskCalculator.

(** ** [models/alert.py], [models/user.py], [models/weather.py] *)

Module Models.

Local Open Scope string_scope.

Inductive AlertType : Set :=
  HEATWAVE | HEAVY_RAIN | STORM | COLD_WAVE | HIGH_HUMIDITY.

Inductive Severity : Set := LOW | MODERATE | HIGH | SEVERE.

Inductive UserType : Set :=
  STUDENT | FARMER | TRAVELLER | DELIVERY_WORKER | GENERAL.

(** [UserType(value)]: look-up of an enum member by value; any other
    string raises [ValueError]. *)
Definition UserType_of_value (value : string) : Py.exn + UserType :=
  if String.eqb value "STUDENT" then inr STUDENT
  else if String.eqb value "FARMER" then inr FARMER
  else if String.eqb value "TRAVELLER" then inr TRAVELLER
  else if String.eqb value "DELIVERY_WORKER" then inr DELIVERY_WORKER
  else if String.eqb value "GENERAL" then inr GENERAL
  else inl Py.ValueError.

(** A naive [datetime]; only its calendar fields are read. *)
Record datetime : Set := mk_datetime {
  year : Z; month : Z; day : Z; hour : Z; minute : Z; second : Z
}.

Record CustomThresholds : Set := mk_thresholds {
  heatwave_temp : Q;
  heavy_rain_amount : Q;
  high_wind_speed : Q;
  cold_wave_temp : Q;
  high_humidity : Q
}.

(** [CustomThresholds()], every field at its default. *)
Definition default_thresholds : CustomThresholds :=
  mk_thresholds 35.0 50.0 60.0 5.0 85.0.

Record HourlyForecast : Set := mk_forecast {
  timestamp : datetime;
  temperature : Q;
  feels_like : Q;
  condition : string;
  icon : string;
  precipitation : Q;
  humidity : Z;
  wind_speed : Q
}.

Record Alert : Set := mk_alert {
  id : string;
  type : AlertType;
  severity : Severity;
  title : string;
  message : string;
  recommendations : list string;
  start_time : option datetime;
  end_time : option datetime;
  created_at : datetime;
  acknowledged : bool
}.

Definition with_recommendations (a : Alert) (r : list string) : Alert :=
  mk_alert (id a) (type a) (severity a) (title a) (message a) r
           (start_time a) (end_time a) (created_at a) (acknowledged a).

End Models.

(** ** The surroundings of a call

    [uuid.uuid4()] and [datetime.now()] read the process environment.  A
    [World] holds the values they are going to return, in call order, and
    how many have been consumed. *)

Module Env.

Import Models.

Record World : Type := mk_world {
  uuid4_hex : nat -> string;
  uuids_drawn : nat;
  clock : nat -> datetime;
  clock_reads : nat
}.

Inductive outcome (A : Type) : Type :=
| Returns (a : A) (w : World)
| Raises (e : Py.exn).
Arguments Returns {A} a w.
Arguments Raises {A} e.

Definition M (A : Type) : Type := World -> outcome A.

Definition ret {A} (a : A) : M A := fun w => Returns a w.

Definition bind {A B} (m : M A) (k : A -> M B) : M B :=
  fun w => match m w with
           | Returns a w' => k a w'
           | Raises e => Raises e
           end.

(** A pure computation that may raise. *)
Definition lift {A} (r : Py.exn + A) : M A :=
  fun w => match r with
           | inr a => Returns a w
           | inl e => Raises e
           end.

(** [uuid.uuid4().hex] *)
Definition uuid4 : M string :=
  fun w => Returns (uuid4_hex w (uuids_drawn w))
                   (mk_world (uuid4_hex w) (S (uuids_drawn w))
                             (clock w) (clock_reads w)).

(** [datetime.now()] *)
Definition datetime_now : M datetime :=
  fun w => Returns (clock w (clock_reads w))
                   (mk_world (uuid4_hex w) (uuids_drawn w)
                             (clock w) (S (clock_reads w))).

(** What the caller observes: the value returned or the exception. *)
Definition result {A} (o : outcome A) : Py.exn + A :=
  match o with
  | Returns a _ => inr a
  | Raises e => inl e
  end.

End Env.

Declare Scope py_scope.
Delimit Scope py_scope with py.
Notation "x <- m ;; k" := (Env.bind m (fun x => k))
  (at level 61, m at next level, right associativity) : py_scope.

(** ** [alert_engine.py] *)

Module AlertEngine.

Import Py Models Env.
Local Open Scope string_scope.
Local Open Scope Q_scope.
Local Open Scope py_scope.

Definition degree : string :=
  String (ascii_of_nat 194) (String (ascii_of_nat 176) "").

Definition _get_heatwave_severity (temp : Q) : Severity :=
  if Qltb 42 temp then SEVERE
  else if Qltb 38 temp then HIGH
  else MODERATE.

Definition _get_rain_severity (precipitation : Q) : Severity :=
  if Qltb 150 precipitation then SEVERE
  else if Qltb 100 precipitation then HIGH
  else MODERATE.

Definition _get_wind_severity (wind_speed : Q) : Severity :=
  if Qltb 100 wind_speed then SEVERE
  else if Qltb 80 wind_speed then HIGH
  else MODERATE.

Definition _get_cold_severity (temp : Q) : Severity :=
  if Qltb temp (-5) then SEVERE
  else if Qltb temp 0 then HIGH
  else MODERATE.

(** [Alert(id=f"alert_{uuid.uuid4().hex[:8]}", ...)]: the id is drawn
    first, then a [start_time] of [datetime.now()] where the call site
    asks for one, and [created_at] takes its default
    [datetime.now()] when the object is built. *)
Definition new_alert_id : M string :=
  h <- uuid4 ;; ret ("alert_" ++ substring 0 8 h)%string.

Definition build_alert (alert_id : string) (ty : AlertType)
    (sev : Severity) (ttl msg : string) (recs : list string)
    (st en : option datetime) : M Alert :=
  created <- datetime_now ;;
  ret (mk_alert alert_id ty sev ttl msg recs st en created false).

Definition heatwave_recommendations : list string :=
  [ "Avoid outdoor activities during peak hours (12 PM - 4 PM)";
    "Stay hydrated and drink plenty of water";
    "Use sunscreen and wear protective clothing";
    "Check on elderly and vulnerable individuals" ]%string.

Definition heatwave_candidate (threshold : Q) (item : HourlyForecast)
  : bool :=
  Qltb threshold (temperature item)
  && ((10 <=? hour (timestamp item))%Z && (hour (timestamp item) <=? 18)%Z).

Definition _check_heatwave (forecast : list HourlyForecast)
    (threshold : Q) : M (option Alert) :=
  let high_temp_hours :=
    filter (heatwave_candidate threshold) (firstn 24 forecast) in
  if (3 <=? List.length high_temp_hours)%nat then
    max_temp <- lift (max_iter (map temperature high_temp_hours)) ;;
    let severity := _get_heatwave_severity max_temp in
    alert_id <- new_alert_id ;;
    alert <- build_alert alert_id HEATWAVE severity
      "Heatwave Alert"
      ("Temperature expected to reach " ++ format_fixed 1 max_temp
       ++ degree ++ "C for " ++ str_len (List.length high_temp_hours)
       ++ " hours")%string
      heatwave_recommendations
      (option_map timestamp (first high_temp_hours))
      (option_map timestamp (last_item high_temp_hours)) ;;
    ret (Some alert)
  else ret None.

Definition heavy_rain_recommendations : list string :=
  [ "Carry an umbrella or raincoat";
    "Allow extra time for commute";
    "Avoid flood-prone areas";
    "Check weather updates regularly" ]%string.

Definition _check_heavy_rain (forecast : list HourlyForecast)
    (threshold : Q) : M (option Alert) :=
  let total_precipitation := sum (map precipitation (firstn 8 forecast)) in
  max_intensity <- lift (max_iter (map precipitation (firstn 8 forecast))) ;;
  if Qltb threshold total_precipitation || Qltb 10 max_intensity then
    let severity := _get_rain_severity total_precipitation in
    let rainy_periods :=
      filter (fun item => Qltb 0 (precipitation item))
             (firstn 8 forecast) in
    alert_id <- new_alert_id ;;
    alert <- build_alert alert_id HEAVY_RAIN severity
      "Heavy Rain Alert"
      ("Expected rainfall: " ++ format_fixed 1 total_precipitation
       ++ "mm in next 24 hours")%string
      heavy_rain_recommendations
      (option_map timestamp (first rainy_periods))
      (option_map timestamp (last_item rainy_periods)) ;;
    ret (Some alert)
  else ret None.

Definition storm_recommendations : list string :=
  [ "Stay indoors if possible";
    "Secure loose objects outdoors";
    "Avoid areas with trees and power lines";
    "Postpone outdoor activities" ]%string.

(** The first component of a [high_wind_periods] entry: the literal
    ["current"] or a forecast timestamp. *)
Definition wind_period : Set := (string + datetime) * Q.

Definition _check_storm (forecast : list HourlyForecast)
    (current_wind threshold : Q) : M (option Alert) :=
  let high_wind_periods : list wind_period :=
    ((if Qltb threshold current_wind
      then [(inl "current"%string, current_wind)] else [])
     ++ map (fun item => (inr (timestamp item), wind_speed item))
            (filter (fun item => Qltb threshold (wind_speed item))
                    (firstn 8 forecast)))%list in
  match high_wind_periods with
  | _ :: _ =>
      max_wind <- lift (max_iter (map snd high_wind_periods)) ;;
      let severity := _get_wind_severity max_wind in
      alert_id <- new_alert_id ;;
      now <- datetime_now ;;
      alert <- build_alert alert_id STORM severity
        "High Wind / Storm Alert"
        ("Wind speeds expected to reach " ++ format_fixed 1 max_wind
         ++ " km/h")%string
        storm_recommendations
        (Some now) None ;;
      ret (Some alert)
  | [] => ret None
  end.

Definition cold_wave_recommendations : list string :=
  [ "Wear warm clothing in layers";
    "Protect exposed skin";
    "Check heating systems";
    "Be aware of frost and ice" ]%string.

Definition _check_cold_wave (forecast : list HourlyForecast)
    (threshold : Q) : M (option Alert) :=
  let cold_hours :=
    filter (fun item => Qltb (temperature item) threshold)
           (firstn 24 forecast) in
  if (3 <=? List.length cold_hours)%nat then
    min_temp <- lift (min_iter (map temperature cold_hours)) ;;
    let severity := _get_cold_severity min_temp in
    alert_id <- new_alert_id ;;
    alert <- build_alert alert_id COLD_WAVE severity
      "Cold Wave Alert"
      ("Temperature expected to drop to " ++ format_fixed 1 min_temp
       ++ degree ++ "C for " ++ str_len (List.length cold_hours)
       ++ " hours")%string
      cold_wave_recommendations
      (option_map timestamp (first cold_hours))
      (option_map timestamp (last_item cold_hours)) ;;
    ret (Some alert)
  else ret None.

Definition high_humidity_recommendations : list string :=
  [ "Stay in air-conditioned spaces";
    "Drink plenty of fluids";
    "Limit strenuous outdoor activities";
    "Watch for signs of heat exhaustion" ]%string.

Definition _check_high_humidity (temperature humidity threshold : Q)
  : M (option Alert) :=
  if Qltb threshold humidity then
    let heat_index := temperature + (humidity - 60) * 0.1 in
    alert_id <- new_alert_id ;;
    now <- datetime_now ;;
    alert <- build_alert alert_id HIGH_HUMIDITY MODERATE
      "High Humidity Alert"
      ("Humidity at " ++ format_fixed 0 humidity
       ++ "% with temperature " ++ format_fixed 1 temperature
       ++ degree ++ "C")%string
      high_humidity_recommendations
      (Some now) None ;;
    ret (Some alert)
  else ret None.

(** The [user_recommendations] table: a dict of dicts, [None] where a
    key is absent. *)
Definition user_recommendations (u : UserType)
  : option (AlertType -> option (list string)) :=
  Some (fun t =>
    match u, t with
    | STUDENT, HEATWAVE =>
        Some ["Plan indoor study sessions"; "Carry water bottle to school"]
    | STUDENT, HEAVY_RAIN =>
        Some ["Allow extra time for commute";
              "Keep books and electronics protected"]
    | STUDENT, STORM =>
        Some ["Stay in school building if weather worsens";
              "Inform parents about weather"]
    | STUDENT, COLD_WAVE => None
    | STUDENT, HIGH_HUMIDITY =>
        Some ["Stay in air-conditioned classrooms";
              "Carry extra water to school"]
    | FARMER, HEATWAVE =>
        Some ["Work during early morning or late evening";
              "Ensure worker hydration"]
    | FARMER, HEAVY_RAIN =>
        Some ["Protect crops and equipment"; "Check drainage systems";
              "Delay harvesting"]
    | FARMER, STORM =>
        Some ["Secure farm equipment"; "Protect livestock";
              "Check barn structures"]
    | FARMER, COLD_WAVE =>
        Some ["Protect sensitive crops"; "Ensure livestock shelter";
              "Check irrigation systems"]
    | FARMER, HIGH_HUMIDITY =>
        Some ["Monitor crop health for fungal diseases";
              "Ensure proper ventilation in storage"]
    | TRAVELLER, HEATWAVE =>
        Some ["Plan indoor activities"; "Carry sufficient water";
              "Avoid peak sun hours"]
    | TRAVELLER, HEAVY_RAIN =>
        Some ["Check road conditions"; "Avoid flood-prone routes";
              "Have alternate plans"]
    | TRAVELLER, STORM =>
        Some ["Postpone travel if possible"; "Seek shelter";
              "Avoid coastal areas"]
    | TRAVELLER, COLD_WAVE => None
    | TRAVELLER, HIGH_HUMIDITY =>
        Some ["Plan indoor sightseeing";
              "Stay hydrated during outdoor activities"]
    | DELIVERY_WORKER, HEATWAVE =>
        Some ["Schedule deliveries for cooler hours";
              "Keep vehicle AC functional"]
    | DELIVERY_WORKER, HEAVY_RAIN =>
        Some ["Use waterproof packaging"; "Plan safer routes"]
    | DELIVERY_WORKER, STORM =>
        Some ["Delay deliveries if unsafe"; "Stay in touch with dispatch"]
    | DELIVERY_WORKER, COLD_WAVE => None
    | DELIVERY_WORKER, HIGH_HUMIDITY =>
        Some ["Take frequent breaks in AC"; "Keep extra water in vehicle"]
    | GENERAL, HEATWAVE =>
        Some ["Stay indoors during peak hours"; "Drink plenty of water"]
    | GENERAL, HEAVY_RAIN =>
        Some ["Carry umbrella"; "Avoid unnecessary travel"]
    | GENERAL, STORM => Some ["Stay indoors"; "Secure outdoor items"]
    | GENERAL, COLD_WAVE =>
        Some ["Wear warm clothing"; "Keep heating systems ready"]
    | GENERAL, HIGH_HUMIDITY =>
        Some ["Use air conditioning if available"; "Stay hydrated"]
    end%string).

(** One turn of the loop in [_personalize_alerts]:
    [alert.recommendations.extend(...)] when both keys are present. *)
Definition personalize_one (user_type_enum : UserType) (alert : Alert)
  : Alert :=
  match user_recommendations user_type_enum with
  | Some by_type =>
      match by_type (type alert) with
      | Some extra =>
          with_recommendations alert (recommendations alert ++ extra)%list
      | None => alert
      end
  | None => alert
  end.

(** [try: ... except ValueError: pass], then [return alerts]. *)
Definition _personalize_alerts (alerts : list Alert) (user_type : string)
  : list Alert :=
  match UserType_of_value user_type with
  | inr user_type_enum => map (personalize_one user_type_enum) alerts
  | inl ValueError => alerts
  end.

(** [severity_order.get(a.severity, 0)] *)
Definition severity_order (s : Severity) : Z :=
  match s with
  | SEVERE => 4
  | HIGH => 3
  | MODERATE => 2
  | LOW => 1
  end.

(** [sorted(alerts, key=..., reverse=True)]: descending and stable. *)
Definition _prioritize_alerts (alerts : list Alert) : list Alert :=
  sorted (fun y x => (severity_order (severity x)
                      <? severity_order (severity y))%Z) alerts.

Definition append_if {A} (o : option A) (l : list A) : list A :=
  match o with
  | Some a => (l ++ [a])%list
  | None => l
  end.

Definition check_alerts (hourly_forecast : list HourlyForecast)
    (current_temp current_humidity current_wind : Q)
    (user_type : string) (custom_thresholds : option CustomThresholds)
  : M (list Alert) :=
  let alerts := [] in
  let thresholds :=
    match custom_thresholds with
    | Some t => t
    | None => default_thresholds
    end in
  heatwave_alert <-
    _check_heatwave hourly_forecast (heatwave_temp thresholds) ;;
  let alerts := append_if heatwave_alert alerts in
  heavy_rain_alert <-
    _check_heavy_rain hourly_forecast (heavy_rain_amount thresholds) ;;
  let alerts := append_if heavy_rain_alert alerts in
  storm_alert <-
    _check_storm hourly_forecast current_wind (high_wind_speed thresholds) ;;
  let alerts := append_if storm_alert alerts in
  cold_wave_alert <-
    _check_cold_wave hourly_forecast (cold_wave_temp thresholds) ;;
  let alerts := append_if cold_wave_alert alerts in
  humidity_alert <-
    _check_high_humidity current_temp current_humidity
                         (high_humidity thresholds) ;;
  let alerts := append_if humidity_alert alerts in
  let personalized_alerts := _personalize_alerts alerts user_type in
  ret (_prioritize_alerts personalized_alerts).

End AlertEngine.

(** ** Python built-ins over the reals *)

Module PyR.

Local Open Scope R_scope.

Definition Rltb (x y : R) : bool := if Rlt_dec x y then true else false.
Definition Rleb (x y : R) : bool := if Rle_dec x y then true else false.

(** [max(a, b)] *)
Definition max (a b : R) : R := if Rltb a b then b else a.

(** [math.radians(x)] *)
Definition radians (x : R) : R := x * (PI / 180).

(** Nearest integer, ties to even. *)
Definition round_half_even (x : R) : Z :=
  let f := Int_part x in
  let r := x - IZR f in
  if Rltb r (1 / 2) then f
  else if Rltb (1 / 2) r then (f + 1)%Z
  else if Z.even f then f else (f + 1)%Z.


(** [round(x, ndigits)] *)
Definition round_ndigits (x : R) (ndigits : nat) : R :=
  IZR (round_half_even (x * 10 ^ ndigits)) / 10 ^ ndigits.


(** The power of two at or below [|x|]: [2^binade <= |x| < 2^(binade+1)]. *)
Definition binade (x : R) : Z := Int_part (ln (Rabs x) / ln 2).

(** The result of a float operation whose exact value is [x]: the nearest
    double.  A double has 53 significant bits, the smallest step is
    [2^-1074], and a tie goes to the even significand.  Values beyond the
    largest double, which Python turns into [inf], are outside the
    model. *)
Definition fl (x : R) : R :=
  let q := Z.max (binade x - 52) (-1074) in
  IZR (round_half_even (x / powerRZ 2 q)) * powerRZ 2 q.

(** [f"{x:.0f}"] *)
Definition format_fixed0 (x : R) : string :=
  ((if Rltb x 0 then "-" else "")
   ++ Py.str_int (round_half_even (Rabs x)))%string.

End PyR.

(** ** [earthquake_monitor.py] *)

Module EarthquakeMonitor.

Import PyR.
Local Open Scope string_scope.
Local Open Scope R_scope.

(** An entry of the list returned by [fetch_earthquakes]. *)
Record earthquake : Type := mk_earthquake {
  eq_id : string;
  eq_magnitude : R;
  eq_place : string;
  eq_time : Z;
  eq_updated : Z;
  eq_longitude : R;
  eq_latitude : R;
  eq_depth_km : option R;
  eq_felt_reports : option Z;
  eq_tsunami : Z;
  eq_url : string;
  eq_detail_url : string;
  eq_type : string
}.

Record location : Type := mk_location {
  description : string;
  lat : R;
  lon : R
}.

Record metadata : Type := mk_metadata {
  magnitude : R;
  depth_km : option R;
  felt_reports : option Z;
  tsunami_potential : bool
}.

(** The alert dict built by [get_earthquakes_near_location]. *)
Record alert : Type := mk_alert {
  id : string;
  type : string;
  severity : string;
  title : string;
  message : string;
  user_message : string;
  alert_location : location;
  distance_km : R;
  event_time : string;
  alert_metadata : metadata;
  source : string;
  source_url : string;
  user_type : string
}.

Definition calculate_distance (lat1 lon1 lat2 lon2 : R) : R :=
  let lat1 := radians lat1 in
  let lon1 := radians lon1 in
  let lat2 := radians lat2 in
  let lon2 := radians lon2 in
  let dlat := lat2 - lat1 in
  let dlon := lon2 - lon1 in
  let a := sin (dlat / 2) ^ 2 + cos lat1 * cos lat2 * sin (dlon / 2) ^ 2 in
  let c := 2 * asin (sqrt a) in
  let r := 6371 in
  c * r.

Definition get_impact_radius (magnitude : R) : R :=
  if Rleb 8.0 magnitude then 1000
  else if Rleb 7.0 magnitude then 500
  else if Rleb 6.0 magnitude then 200
  else if Rleb 5.0 magnitude then 100
  else 50.

Definition get_severity (magnitude distance_km : R) : string :=
  let impact_radius := get_impact_radius magnitude in
  if Rleb 7.0 magnitude && Rltb distance_km 100 then "critical"
  else if Rleb 6.0 magnitude && Rltb distance_km 50 then "critical"
  else if Rleb 6.5 magnitude && Rltb distance_km 200 then "warning"
  else if Rleb 5.5 magnitude && Rltb distance_km 100 then "warning"
  else if Rltb distance_km impact_radius then "warning"
  else "info".

(** The inner dicts of [user_advice]; [.get(severity, "")]. *)
Definition advice_by_severity (critical warning info : string)
    (severity : string) : string :=
  if String.eqb severity "critical" then critical
  else if String.eqb severity "warning" then warning
  else if String.eqb severity "info" then info
  else "".

Definition general_advice : string -> string :=
  advice_by_severity
    " DROP, COVER, and HOLD ON! Get under sturdy furniture. Stay away from windows and outside walls. Do not run outside."
    " Be prepared for aftershocks. Have emergency supplies ready. Check on neighbors."
    " Stay informed through official channels. Review your emergency preparedness plan.".

(** [user_advice.get(user_type, user_advice["GENERAL"])] *)
Definition user_advice (user_type : string) : string -> string :=
  if String.eqb user_type "STUDENT" then
    advice_by_severity
      " TAKE COVER NOW! Drop, Cover, and Hold On. Stay away from windows. Follow your school's earthquake drill procedures."
      " Stay alert. If you feel shaking, drop under a desk and hold on. Inform teachers and stay calm."
      " Be aware of this seismic activity. Review earthquake safety procedures with your school."
  else if String.eqb user_type "FARMER" then
    advice_by_severity
      " Secure livestock immediately. Move away from structures and equipment. Check for gas leaks and structural damage after shaking stops."
      " Monitor your animals for unusual behavior. Secure heavy equipment. Be prepared for aftershocks."
      " Check farm structures for any damage. Ensure water sources are not contaminated."
  else if String.eqb user_type "TRAVELLER" then
    advice_by_severity
      " Seek shelter immediately in a sturdy building. Stay away from coastal areas if near the ocean (tsunami risk). Do not use elevators."
      " Avoid traveling to the affected area. Check with local authorities. Have an emergency plan ready."
      " Monitor local news for updates. Be aware of potential travel disruptions in the region."
  else if String.eqb user_type "DELIVERY_WORKER" then
    advice_by_severity
      " Stop your vehicle safely away from buildings, bridges, and power lines. Stay inside until shaking stops."
      " Avoid routes near the affected area. Check road conditions before proceeding. Stay in communication with dispatch."
      " Be aware of potential road damage or closures in the affected region."
  else general_advice.

Section Flow.

(** [str] of a float inside an f-string (shortest round-trip
    notation) and [datetime.fromtimestamp(t).isoformat()] (local time
    zone) are left to the surroundings. *)
Context (float_repr : R -> string)
        (fromtimestamp_isoformat : R -> string).

Definition generate_user_message (magnitude distance_km : R)
    (place user_type severity : string) : string :=
  let base_msg :=
    "Magnitude " ++ float_repr magnitude ++ " earthquake occurred "
    ++ format_fixed0 distance_km ++ "km away near " ++ place ++ "." in
  let advice := user_advice user_type severity in
  base_msg ++ advice.

(** The body of the loop of [get_earthquakes_near_location] once
    [distance] is known: the alert, or nothing when out of range. *)
Definition earthquake_alert (user_type : string) (max_distance_km : R)
    (eq : earthquake) (distance : R) : option alert :=
  let impact_radius := get_impact_radius (eq_magnitude eq) in
  if Rleb distance (max impact_radius max_distance_km) then
    let severity := get_severity (eq_magnitude eq) distance in
    let user_message :=
      generate_user_message (eq_magnitude eq) distance (eq_place eq)
                            user_type severity in
    Some (mk_alert
      ("eq_" ++ eq_id eq)
      "earthquake"
      severity
      ("Magnitude " ++ float_repr (eq_magnitude eq) ++ " Earthquake")
      ("Earthquake detected " ++ format_fixed0 distance
       ++ "km from your location")
      user_message
      (mk_location (eq_place eq) (eq_latitude eq) (eq_longitude eq))
      (round_ndigits distance 1)
      (fromtimestamp_isoformat (IZR (eq_time eq) / 1000))
      (mk_metadata (eq_magnitude eq) (eq_depth_km eq)
                   (eq_felt_reports eq)
                   (negb (eq_tsunami eq =? 0)%Z))
      "USGS"
      (eq_url eq)
      user_type)
  else None.


End Flow.

End EarthquakeMonitor.

(** ** [tsunami_monitor.py] *)

Module TsunamiMonitor.

Import PyR.
Local Open Scope string_scope.
Local Open Scope R_scope.


Record metadata : Type := mk_metadata {
  trigger_magnitude : R;
  depth_km : option R;
  estimated_arrival_minutes : option Z;
  tsunami_speed_kmh : Z;
  is_coastal_area : bool
}.

Record alert : Type := mk_alert {
  id : string;
  type : string;
  severity : string;
  title : string;
  message : string;
  user_message : string;
  alert_location : EarthquakeMonitor.location;
  distance_km : R;
  event_time : string;
  alert_metadata : metadata;
  source : string;
  source_url : string;
  user_type : string
}.


Definition is_coastal_location (lat lon : R) : bool := true.

Definition calculate_tsunami_severity (magnitude distance_km : R)
    (is_coastal : bool) : string :=
  if negb is_coastal then "info"
  else if Rleb 8.0 magnitude && Rltb distance_km 500 then "critical"
  else if Rleb 7.5 magnitude && Rltb distance_km 300 then "critical"
  else if Rleb 7.0 magnitude && Rltb distance_km 800 then "warning"
  else if Rleb 6.5 magnitude && Rltb distance_km 500 then "warning"
  else "info".

(** [user_advice.get(user_type, user_advice["GENERAL"])] *)
Definition user_advice (user_type : string) : string :=
  if String.eqb user_type "STUDENT" then
    " If at school, follow evacuation procedures. Move to upper floors or inland immediately."
  else if String.eqb user_type "FARMER" then
    " Secure livestock and move to higher ground. Do not attempt to save equipment - prioritize safety."
  else if String.eqb user_type "TRAVELLER" then
    " Leave coastal hotels immediately. Head inland or to high ground. Do not use elevators."
  else if String.eqb user_type "DELIVERY_WORKER" then
    " Abandon deliveries. Drive inland immediately. Alert dispatch of your location."
  else
    " Take tsunami warnings seriously. Move quickly but calmly to safety.".

(** The text that announces the arrival estimate. *)
Definition arrival_sentence (minutes : Z) : string :=
  " Tsunami waves may arrive in approximately " ++ Py.str_int minutes
  ++ " minutes.".

Section Flow.

Context (float_repr : R -> string)
        (fromtimestamp_isoformat : R -> string).

(** [if estimated_arrival_minutes:] holds for an integer other than
    0, and fails for [None] and for 0. *)
Definition truthy (estimated_arrival_minutes : option Z) : bool :=
  match estimated_arrival_minutes with
  | Some minutes => negb (minutes =? 0)%Z
  | None => false
  end.

Definition generate_tsunami_message (magnitude distance_km : R)
    (location user_type severity : string)
    (estimated_arrival_minutes : option Z) : string :=
  let base_msg :=
    if truthy estimated_arrival_minutes then
      "TSUNAMI WARNING: Magnitude " ++ float_repr magnitude
      ++ " earthquake near " ++ location ++ "."
      ++ match estimated_arrival_minutes with
         | Some minutes => arrival_sentence minutes
         | None => ""
         end
    else
      "TSUNAMI WARNING: Magnitude " ++ float_repr magnitude
      ++ " earthquake near " ++ location ++ " ("
      ++ format_fixed0 distance_km
      ++ "km away). Tsunami waves possible." in
  let action :=
    if String.eqb severity "critical" then
      " EVACUATE IMMEDIATELY to higher ground (at least 30m above sea level or 3km inland). Do not wait for official evacuation orders."
    else if String.eqb severity "warning" then
      " Move to higher ground as a precaution. Stay away from beaches and coastal areas. Monitor official channels."
    else
      " Stay informed through official channels. Be prepared to evacuate if warning is upgraded." in
  let specific_advice := user_advice user_type in
  base_msg ++ action ++ specific_advice.


(** [severity_order.get(x["severity"], 0)] *)
Definition severity_order (severity : string) : Z :=
  if String.eqb severity "critical" then 3
  else if String.eqb severity "warning" then 2
  else if String.eqb severity "info" then 1
  else 0.



End Flow.

End TsunamiMonitor.

(** ** Vocabulary of the properties *)

(** Order by an integer key, greatest first, and by [tie] inside a key. *)
Definition key_then_tie {A : Type} (key : A -> Z) (tie : A -> A -> Prop)
    (a b : A) : Prop :=
  (key b < key a)%Z \/ (key a = key b /\ tie a b).

Section AlertVocabulary.

Import Py Models Env AlertEngine.
Local Open Scope Q_scope.

(** [m] returns, whatever the surroundings, a value satisfying [P]. *)
Definition returns {A} (m : M A) (P : A -> Prop) : Prop :=
  forall w, exists a w', m w = Returns a w' /\ P a.

(** [m] raises [e], whatever the surroundings. *)
Definition raises {A} (m : M A) (e : Py.exn) : Prop :=
  forall w, m w = Raises e.

(** Two computations end the same way in any two surroundings: both
    raise the same exception, or both return, values related by [R]. *)
Definition agree {A} (R : A -> A -> Prop) (m1 m2 : M A) : Prop :=
  forall w1 w2,
    match m1 w1, m2 w2 with
    | Returns a1 _, Returns a2 _ => R a1 a2
    | Raises e1, Raises e2 => e1 = e2
    | _, _ => False
    end.

(** The recommendations every alert of a type starts with. *)
Definition base_recommendations (t : AlertType) : list string :=
  match t with
  | HEATWAVE => heatwave_recommendations
  | HEAVY_RAIN => heavy_rain_recommendations
  | STORM => storm_recommendations
  | COLD_WAVE => cold_wave_recommendations
  | HIGH_HUMIDITY => high_humidity_recommendations
  end.

(** Position of a detector in the evaluation order of [check_alerts]. *)
Definition detector_index (t : AlertType) : nat :=
  match t with
  | HEATWAVE => 0
  | HEAVY_RAIN => 1
  | STORM => 2
  | COLD_WAVE => 3
  | HIGH_HUMIDITY => 4
  end.

(** An alert as a detector of type [ty] leaves it. *)
Definition fresh_alert (ty : AlertType) (a : Alert) : Prop :=
  type a = ty /\
  In (severity a) [MODERATE; HIGH; SEVERE] /\
  recommendations a = base_recommendations ty.

Definition detects (ty : AlertType) (o : option Alert) : Prop :=
  forall a, o = Some a -> fresh_alert ty a.

(** The heatwave detector, in full. *)
Definition heatwave_outcome (forecast : list HourlyForecast) (threshold : Q)
    (o : option Alert) : Prop :=
  let qualifying :=
    filter (heatwave_candidate threshold) (firstn 24 forecast) in
  if (3 <=? List.length qualifying)%nat then
    exists a p1 rest,
      qualifying = p1 :: rest /\
      o = Some a /\
      type a = HEATWAVE /\
      severity a =
        _get_heatwave_severity
          (max_from (temperature p1) (map temperature rest)) /\
      recommendations a = heatwave_recommendations /\
      start_time a = Some (timestamp p1) /\
      end_time a = Some (timestamp (List.last rest p1))
  else o = None.

(** The entry of the recommendation table for a user type given as a
    string: empty when the string names no user type, or when the table has
    no entry for the pair. *)
Definition personalized_recommendations (user_type : string)
    (t : AlertType) : list string :=
  match UserType_of_value user_type with
  | inr u =>
      match user_recommendations u with
      | Some by_type =>
          match by_type t with
          | Some extra => extra
          | None => []
          end
      | None => []
      end
  | inl _ => []
  end.

Definition defined_user_types : list string :=
  ["STUDENT"; "FARMER"; "TRAVELLER"; "DELIVERY_WORKER"; "GENERAL"]%string.

Definition personalize (user_type : string) (a : Alert) : Alert :=
  with_recommendations a
    (recommendations a ++ personalized_recommendations user_type (type a)).

Definition detector_order (a b : Alert) : Prop :=
  (detector_index (type a) < detector_index (type b))%nat.

Definition unpersonalized (a : Alert) : Prop :=
  In (severity a) [MODERATE; HIGH; SEVERE] /\
  recommendations a = base_recommendations (type a).

(** The list [alerts] of [check_alerts] when the detectors are done. *)
Definition detection (pre : list Alert) : Prop :=
  StronglySorted detector_order pre /\ Forall unpersonalized pre.

Definition assembled (user_type : string) (alerts : list Alert) : Prop :=
  exists pre,
    detection pre /\
    alerts = _prioritize_alerts (map (personalize user_type) pre).

(** An alert without the fields filled from [uuid4()] and
    [datetime.now()]: the id, [created_at], and the [start_time] of STORM
    and HIGH_HUMIDITY alerts. *)
Definition input_determined (a : Alert) :=
  (type a, severity a, title a, message a, recommendations a,
   match type a with
   | STORM | HIGH_HUMIDITY => None
   | _ => start_time a
   end,
   end_time a, acknowledged a).

Definition same_but_environment (a1 a2 : Alert) : Prop :=
  input_determined a1 = input_determined a2.

Definition option_rel {A} (R : A -> A -> Prop) (o1 o2 : option A) : Prop :=
  match o1, o2 with
  | Some a1, Some a2 => R a1 a2
  | None, None => True
  | _, _ => False
  end.

End AlertVocabulary.

Section SeismicVocabulary.

Import PyR EarthquakeMonitor.
Local Open Scope R_scope.

Definition critical_range (magnitude distance : R) : Prop :=
  (7.0 <= magnitude /\ distance < 100)
  \/ (6.0 <= magnitude /\ distance < 50).

Definition warning_range (magnitude distance : R) : Prop :=
  (6.5 <= magnitude /\ distance < 200)
  \/ (5.5 <= magnitude /\ distance < 100)
  \/ distance < get_impact_radius magnitude.




End SeismicVocabulary.

(** ** Sample inputs *)

Module Examples.

Import Models Env.

(** Surroundings that differ only in what [uuid4] is going to return. *)
Definition world_a : World :=
  mk_world (fun n => "3f2a91c07be44d0f9a6c5d1e8b7f0a12"%string) 0
           (fun n => mk_datetime 2024 6 1 9 0 (Z.of_nat n)) 0.

Definition world_b : World :=
  mk_world (fun n => "c4d5e6f7a8b94c0d8e1f2a3b4c5d6e7f"%string) 0
           (fun n => mk_datetime 2024 6 1 9 0 (Z.of_nat n)) 0.

Definition hourly_point (h : Z) (temp precip wind : Q) : HourlyForecast :=
  mk_forecast (mk_datetime 2024 6 1 h 0 0) temp temp
              "Clear"%string "01d"%string precip 40 wind.

(** One point per hour of a day, 30 degrees except 40 at 11, 13 and 15
    o'clock, dry and calm. *)
Definition heatwave_day : list HourlyForecast :=
  map (fun h =>
         hourly_point h
           (if (h =? 11)%Z || (h =? 13)%Z || (h =? 15)%Z then 40 else 30)
           0 10)
      (map Z.of_nat (seq 0 24)).

(** A day that sets off four detectors: a moderate heatwave, heavy rain
    of 130 mm, wind of 90 km/h and, with the current humidity, a humidity
    alert. *)
Definition mixed_day : list HourlyForecast :=
  [ hourly_point 10 36 60 10;
    hourly_point 11 37 0 90;
    hourly_point 12 36 70 0;
    hourly_point 13 20 0 0 ].

Definition thresholds_35_60 : CustomThresholds :=
  mk_thresholds 35 50 60 5 85.

(** Stand-ins for the two renderings the seismic services take from
    their surroundings: a float shown with one decimal digit, and a
    timestamp shown as its whole seconds. *)
Definition sample_float_repr (x : R) : string :=
  (Py.str_int (Int_part x) ++ "."
   ++ Py.str_int (Int_part (10 * frac_part x)))%string.

Definition sample_isoformat (t : R) : string := Py.str_int (Int_part t).

(** A magnitude 8.0 event with the tsunami flag set, on the equator at
    the given longitude. *)
Definition equator_quake (longitude : R) : EarthquakeMonitor.earthquake :=
  EarthquakeMonitor.mk_earthquake
    "us7000sample"%string 8.0%R "off the coast"%string
    1717232400000 1717232460000 longitude 0%R (Some 10%R) None 1
    "https://earthquake.usgs.gov/earthquakes/eventpage/us7000sample"%string
    "https://earthquake.usgs.gov/fdsnws/event/1/query?eventid=us7000sample"%string
    "earthquake"%string.

(** What [check_alerts] returns on [mixed_day] for a student, for a
    farmer, and for a string that names no user type. *)
Definition run_mixed_day (user_type : string) : Py.exn + list Alert :=
  result (AlertEngine.check_alerts mixed_day 30 90 10 user_type None
                                   world_a).

Definition mixed_day_student : list Alert :=
  Eval vm_compute in
    match run_mixed_day "STUDENT" with inr l => l | inl _ => [] end.

Definition mixed_day_farmer : list Alert :=
  Eval vm_compute in
    match run_mixed_day "FARMER" with inr l => l | inl _ => [] end.

Definition mixed_day_pilot : list Alert :=
  Eval vm_compute in
    match run_mixed_day "PILOT" with inr l => l | inl _ => [] end.

End Examples.

(** ** Further vocabulary: ranks of the risk levels *)

(** The five risk levels in increasing order. *)
Definition risk_level_rank (level : string) : Z :=
  if String.eqb level "LOW" then 1
  else if String.eqb level "MODERATE" then 2
  else if String.eqb level "MEDIUM" then 3
  else if String.eqb level "HIGH" then 4
  else if String.eqb level "SEVERE" then 5
  else 0.

(** ** Python lists and dictionaries of the in-memory stores *)

Module PyStore.

(** [l[-n:]] for any integer [n]: the start index [-n] counts from the
    end when it is negative and is clipped to the list. *)
Definition last_slice {A} (n : Z) (l : list A) : list A :=
  let len := Z.of_nat (List.length l) in
  let start := if (0 <? n)%Z then Z.max (len - n) 0 else Z.min (- n) len in
  skipn (Z.to_nat start) l.

(** [x in l] on a list of strings. *)
Definition mem (x : string) (l : list string) : bool :=
  existsb (fun y => String.eqb y x) l.

(** [l.remove(x)], called where [x in l] holds: the first occurrence
    goes. *)
Fixpoint remove (x : string) (l : list string) : list string :=
  match l with
  | [] => []
  | y :: r => if String.eqb y x then r else y :: remove x r
  end.

Section Dict.

Context {V : Type}.

(** A [dict] with string keys, in insertion order. *)
Definition dict : Type := list (string * V).

(** [d.get(k)] *)
Fixpoint get (d : dict) (k : string) : option V :=
  match d with
  | [] => None
  | (k', v) :: r => if String.eqb k' k then Some v else get r k
  end.

(** [k in d] *)
Definition contains (d : dict) (k : string) : bool :=
  match get d k with
  | Some _ => true
  | None => false
  end.

(** [d.get(k, default)] *)
Definition get_default (d : dict) (k : string) (default : V) : V :=
  match get d k with
  | Some v => v
  | None => default
  end.

(** [d[k] = v]: an existing key keeps its place. *)
Fixpoint set (d : dict) (k : string) (v : V) : dict :=
  match d with
  | [] => [(k, v)]
  | (k', v') :: r =>
      if String.eqb k' k then (k', v) :: r else (k', v') :: set r k v
  end.

(** [del d[k]], called where [k in d] holds. *)
Definition del (d : dict) (k : string) : dict :=
  filter (fun kv => negb (String.eqb (fst kv) k)) d.

End Dict.

Arguments dict V : clear implicits.

End PyStore.

(** ** [api/alerts.py] *)

(** The fields of [WeatherData] that the alert endpoint reads. *)
Module WeatherData.

Record CurrentWeather : Set := mk_current {
  temperature : Q;
  humidity : Z;
  wind_speed : Q
}.

Record t : Set := mk_weather_data {
  current : CurrentWeather;
  risk_score : Q;
  risk_level : string
}.

End WeatherData.

Module AlertsApi.

Import Models Env PyStore.

Record HTTPException : Set := mk_http_exception {
  status_code : Z;
  detail : string
}.

Record AlertCheckResponse : Set := mk_response {
  alerts : list Alert;
  risk_score : Q;
  risk_level : string
}.

(** The object [alert] with [alert.acknowledged = True]. *)
Definition acknowledge (alert : Alert) : Alert :=
  mk_alert (id alert) (type alert) (severity alert) (title alert)
           (message alert) (recommendations alert) (start_time alert)
           (end_time alert) (created_at alert) true.

Section CheckAlerts.

(** What the awaited calls and the construction of [CustomThresholds]
    from the request may raise, and [str(e)] for these exceptions and for
    those of the engine. *)
Context {E : Type} (str_raised : E -> string) (str : Py.exn -> string).

Definition failed_to_check (reason : string) : HTTPException :=
  mk_http_exception 500 ("Failed to check alerts: " ++ reason)%string.

(** The endpoint [check_alerts].  The two awaited calls are taken by their
    outcome; [request_custom_thresholds] is [None] when the request field
    is falsy and otherwise the outcome of building [CustomThresholds]
    from it.  The module-level list [alert_history] is passed in and out;
    it holds each alert object once, so an update of an object is an
    update at its position.  [w] is the environment in which the engine
    runs. *)
Definition check_alerts
    (get_current_weather : E + WeatherData.t)
    (get_hourly_forecast : E + list HourlyForecast)
    (request_custom_thresholds : option (E + CustomThresholds))
    (user_type : string)
    (alert_history : list Alert) (w : World)
  : (HTTPException + AlertCheckResponse) * list Alert :=
  match get_current_weather with
  | inl e => (inl (failed_to_check (str_raised e)), alert_history)
  | inr current_weather =>
  match get_hourly_forecast with
  | inl e => (inl (failed_to_check (str_raised e)), alert_history)
  | inr hourly_forecast =>
  match
    match request_custom_thresholds with
    | None => inr None
    | Some (inl e) => inl e
    | Some (inr thresholds) => inr (Some thresholds)
    end
  with
  | inl e => (inl (failed_to_check (str_raised e)), alert_history)
  | inr custom_thresholds =>
  match
    result
      (AlertEngine.check_alerts
         hourly_forecast
         (WeatherData.temperature (WeatherData.current current_weather))
         (inject_Z
            (WeatherData.humidity (WeatherData.current current_weather)))
         (WeatherData.wind_speed (WeatherData.current current_weather))
         user_type custom_thresholds w)
  with
  | inl e => (inl (failed_to_check (str e)), alert_history)
  | inr alerts =>
      let alert_history := (alert_history ++ alerts)%list in
      let alert_history :=
        if (100 <? List.length alert_history)%nat
        then last_slice 100 alert_history
        else alert_history in
      (inr (mk_response alerts
                        (WeatherData.risk_score current_weather)
                        (WeatherData.risk_level current_weather)),
       alert_history)
  end end end end.

End CheckAlerts.

(** The endpoint [get_alert_history]: [alert_history[-limit:][::-1]]. *)
Definition get_alert_history (limit : Z) (alert_history : list Alert)
  : list Alert :=
  rev (last_slice limit alert_history).

(** The loop of [dismiss_alert]: the history after the first alert with
    the given id is acknowledged, [None] when the loop ends without a
    match. *)
Fixpoint dismiss_first (alert_id : string) (alert_history : list Alert)
  : option (list Alert) :=
  match alert_history with
  | [] => None
  | alert :: rest =>
      if String.eqb (id alert) alert_id
      then Some (acknowledge alert :: rest)
      else option_map (cons alert) (dismiss_first alert_id rest)
  end.

(** The endpoint [dismiss_alert]; its success response is the pair of
    [success] and [message]. *)
Definition dismiss_alert (alert_id : string) (alert_history : list Alert)
  : (HTTPException + bool * string) * list Alert :=
  match dismiss_first alert_id alert_history with
  | Some alert_history' =>
      (inr (true, "Alert dismissed"%string), alert_history')
  | None =>
      (inl (mk_http_exception 404 "Alert not found"), alert_history)
  end.

End AlertsApi.

(** ** [api/preferences.py] *)

Module PreferencesApi.

Import Models PyStore.

Record UserPreferences : Set := mk_preferences {
  user_id : string;
  user_type : UserType;
  custom_thresholds : CustomThresholds;
  notification_enabled : bool;
  temperature_unit : string
}.

Record PreferencesResponse : Set := mk_response {
  success : bool;
  message : string
}.

(** [user_preferences_store] *)
Definition store : Type := dict UserPreferences.

(** Storing under a string key raises nothing, so the handler of
    [save_preferences] is never entered. *)
Definition save_preferences (preferences : UserPreferences)
    (user_preferences_store : store) : PreferencesResponse * store :=
  (mk_response true "Preferences saved successfully",
   set user_preferences_store (user_id preferences) preferences).

Definition default_preferences (user_id : string) : UserPreferences :=
  mk_preferences user_id STUDENT default_thresholds true "celsius".

Definition get_preferences (user_id : string)
    (user_preferences_store : store) : UserPreferences :=
  match get user_preferences_store user_id with
  | Some preferences => preferences
  | None => default_preferences user_id
  end.

Definition delete_preferences (user_id : string)
    (user_preferences_store : store)
  : (AlertsApi.HTTPException + PreferencesResponse) * store :=
  if contains user_preferences_store user_id
  then (inr (mk_response true "Preferences deleted"),
        del user_preferences_store user_id)
  else (inl (AlertsApi.mk_http_exception 404 "User preferences not found"),
        user_preferences_store).

(** A request to the store, and the store after a sequence of them,
    starting from the empty one. *)
Inductive request : Set :=
| Save (preferences : UserPreferences)
| Delete (user_id : string).

Definition serve (user_preferences_store : store) (r : request) : store :=
  match r with
  | Save preferences =>
      snd (save_preferences preferences user_preferences_store)
  | Delete user_id => snd (delete_preferences user_id user_preferences_store)
  end.

Definition store_after (requests : list request) : store :=
  fold_left serve requests [].

End PreferencesApi.

(** ** [routers/users.py] *)

Module UsersRouter.

Import PyStore.

Record registered : Set := mk_registered {
  success : bool;
  message : string;
  token_count : nat
}.

(** [device_tokens] *)
Definition store : Type := dict (list string).

(** After the first test the key is present, so [device_tokens[user_id]]
    is the stored list, read here with [get_default]; an [append] to it is
    written back under the same key.  Nothing in the body raises. *)
Definition register_device_token (user_id token : string)
    (device_tokens : store) : registered * store :=
  let device_tokens :=
    if negb (contains device_tokens user_id)
    then set device_tokens user_id []
    else device_tokens in
  let device_tokens :=
    if negb (mem token (get_default device_tokens user_id []))
    then set device_tokens user_id
             (get_default device_tokens user_id [] ++ [token])%list
    else device_tokens in
  (mk_registered true "Device token registered successfully"
                 (List.length (get_default device_tokens user_id [])),
   device_tokens).

(** [get_user_tokens]: the tokens and their count. *)
Definition get_user_tokens (user_id : string) (device_tokens : store)
  : list string * nat :=
  let tokens := get_default device_tokens user_id [] in
  (tokens, List.length tokens).

(** [remove_device_token]: the [success] flag and the store. *)
Definition remove_device_token (user_id token : string)
    (device_tokens : store) : bool * store :=
  if contains device_tokens user_id
     && mem token (get_default device_tokens user_id [])
  then (true,
        set device_tokens user_id
            (remove token (get_default device_tokens user_id [])))
  else (false, device_tokens).

Inductive request : Set :=
| Register (user_id token : string)
| Remove (user_id token : string).

Definition serve (device_tokens : store) (r : request) : store :=
  match r with
  | Register user_id token =>
      snd (register_device_token user_id token device_tokens)
  | Remove user_id token =>
      snd (remove_device_token user_id token device_tokens)
  end.

Definition store_after (requests : list request) : store :=
  fold_left serve requests [].

End UsersRouter.

(** ** [cache_service.py]

    A [datetime] is read as its number of microseconds since
    0001-01-01T00:00:00; [datetime_max] is the first instant after the
    last representable one, 9999-12-31T23:59:59.999999. *)

Module CacheService.

Import PyStore.

Definition datetime_max : Z := 3652059 * 86400 * 1000000.

Inductive OverflowError : Set := overflow_error.

Section Cache.

Context {V : Type}.

(** [self._cache]: the value and its expiry. *)
Definition cache : Type := dict (V * Z).

(** [get], with the reading [now] of the clock: the value returned and
    the cache left behind. *)
Definition get (key : string) (now : Z) (_cache : cache)
  : option V * cache :=
  match PyStore.get _cache key with
  | None => (None, _cache)
  | Some (value, expiry) =>
      if (expiry <? now)%Z then (None, del _cache key)
      else (Some value, _cache)
  end.

(** [set], with the reading [now] of the clock.  [timedelta(seconds=ttl)]
    and the addition raise [OverflowError] when the expiry leaves the range
    of [datetime]; with [now] in that range the two coincide. *)
Definition set (key : string) (value : V) (ttl : Z) (now : Z)
    (_cache : cache) : OverflowError + cache :=
  let expiry := (now + ttl * 1000000)%Z in
  if (0 <=? expiry)%Z && (expiry <? datetime_max)%Z
  then inr (PyStore.set _cache key (value, expiry))
  else inl overflow_error.

Definition invalidate (key : string) (_cache : cache) : cache :=
  if contains _cache key then del _cache key else _cache.

Definition clear (_cache : cache) : cache := [].

End Cache.

Arguments cache V : clear implicits.

End CacheService.

(** ** [weather_service.py]: the risk of the current weather *)

Module WeatherService.

Import Py RiskCalculator.
Local Open Scope Q_scope.

(** [round(x, 2)] *)
Definition round2 (x : Q) : Q := inject_Z (round_half_even (x * 100)) / 100.

(** The end of [_normalize_current_weather]: the pair of [risk_score] and
    [risk_level] stored in the result, from the fields of the validated
    [current] reading. *)
Definition current_risk (temperature wind_speed : Q) (humidity : Z)
    (visibility : Q) : Q * string :=
  let risk_score :=
    calculate_risk_score temperature 0 wind_speed (inject_Z humidity)
                         visibility in
  let risk_level := get_risk_level risk_score in
  (round2 risk_score, risk_level).

End WeatherService.

(** ** [notification_service.py]: which alerts are pushed *)

Module NotificationService.

Import PyStore.

(** The keys of an alert that the service reads with [alert.get], [None]
    for a key that is absent. *)
Record alert : Set := mk_alert {
  id : option string;
  type : option string;
  severity : option string;
  title : option string;
  message : option string
}.

(** An entry of [notification_history]; it has exactly these five
    keys. *)
Record notification : Set := mk_notification {
  n_timestamp : string;
  n_type : option string;
  n_severity : option string;
  n_title : option string;
  n_message : option string
}.

(** [n.get("alert_id")]: the entries have no such key. *)
Definition get_alert_id (n : notification) : option string := None.

Definition option_eqb (a b : option string) : bool :=
  match a, b with
  | Some x, Some y => String.eqb x y
  | None, None => true
  | _, _ => false
  end.

(** [severity not in ["critical", "warning"]] *)
Definition not_pushed (severity : option string) : bool :=
  negb (option_eqb severity (Some "critical"%string)
        || option_eqb severity (Some "warning"%string)).

(** [_log_notification], with the text of [datetime.now().isoformat()]. *)
Definition _log_notification (now_isoformat : string) (a : alert)
    (notification_history : list notification) : list notification :=
  (notification_history
   ++ [mk_notification now_isoformat (type a) (severity a) (title a)
                       (message a)])%list.

Definition should_send_notification (a : alert)
    (notification_history : list notification) : bool :=
  let severity := severity a in
  if not_pushed severity then false
  else
    let alert_id := id a in
    let recent_ids :=
      map get_alert_id (last_slice 10 notification_history) in
    if existsb (option_eqb alert_id) recent_ids then false
    else true.

End NotificationService.

(** ** Python floats that add up without rounding *)

Module PyFloat.

Import Py.
Local Open Scope Q_scope.

(** The power of two at or below [|x|]. *)
Definition binade (x : Q) : Z :=
  let k := (Z.log2 (Z.abs (Qnum x)) - Z.log2 (Z.pos (Qden x)))%Z in
  if Qltb (Qabs x) (2 ^ k) then (k - 1)%Z else k.

(** The nearest double: 53 significant bits, a smallest step of
    [2^-1074], ties to the even significand. *)
Definition fl (x : Q) : Q :=
  let q := Z.max (binade x - 52) (-1074) in
  inject_Z (round_half_even (x / 2 ^ q)) * 2 ^ q.

Definition is_double (x : Q) : bool := Qeq_bool (fl x) x.

(** The sum from left to right with every addition rounded.  This is
    [sum()] on floats up to CPython 3.11; from 3.12 on [sum()] also carries
    the rounding errors along.  The two agree, and give the exact sum,
    when no addition rounds. *)
Definition fsum (l : list Q) : Q := fold_left (fun a x => fl (a + x)) l 0.

(** Every item is a double and no addition of the running sum rounds. *)
Fixpoint exact_from (a : Q) (l : list Q) : bool :=
  match l with
  | [] => true
  | x :: r =>
      is_double x && Qeq_bool (fl (a + x)) (a + x)
      && exact_from (fl (a + x)) r
  end.

Definition exact_sum (l : list Q) : bool := exact_from 0 l.

End PyFloat.

(** * Properties *)

Section PyFacts.

Import Py.
Local Open Scope Q_scope.

Lemma Qltb_lt (x y : Q) : Qltb x y = true <-> x < y.
Proof.
  unfold Qltb. rewrite negb_true_iff.
  destruct (Qle_bool y x) eqn:E.
  - apply Qle_bool_iff in E. split; [discriminate | intro; lra].
  - split; [intros _ | reflexivity].
    apply Qnot_le_lt. intro H. apply Qle_bool_iff in H. congruence.
Qed.

Lemma Qltb_ge (x y : Q) : Qltb x y = false <-> y <= x.
Proof.
  unfold Qltb. rewrite negb_false_iff. apply Qle_bool_iff.
Qed.

Lemma Qleb_le (x y : Q) : Qleb x y = true <-> x <= y.
Proof. apply Qle_bool_iff. Qed.

Lemma Qleb_gt (x y : Q) : Qleb x y = false <-> y < x.
Proof.
  unfold Qleb. destruct (Qle_bool x y) eqn:E.
  - apply Qle_bool_iff in E. split; [discriminate | intro; lra].
  - split; [intros _ | reflexivity].
    apply Qnot_le_lt. intro H. apply Qle_bool_iff in H. congruence.
Qed.

End PyFacts.

(** Case analysis on every float comparison in sight, innermost first,
    leaving the propositional form of each outcome in the context. *)
Ltac q_atomic t :=
  lazymatch t with
  | context [Py.Qltb _ _] => fail
  | context [Py.Qleb _ _] => fail
  | _ => idtac
  end.

(** [lra] on [Q] wants products by constants: divisions by literals are
    turned into multiplications. *)
Ltac q_norm :=
  unfold Qdiv in *;
  repeat match goal with
  | |- context [Qinv (Qmake ?n ?d)] =>
      let v := eval compute in (Qinv (Qmake n d)) in
      change (Qinv (Qmake n d)) with v in *
  end.

Ltac q_cases :=
  repeat match goal with
  | |- context [Py.Qltb ?x ?y] =>
      q_atomic x; q_atomic y;
      let E := fresh "E" in
      destruct (Py.Qltb x y) eqn:E;
      [apply Qltb_lt in E | apply Qltb_ge in E];
      cbn [orb andb negb]
  | |- context [Py.Qleb ?x ?y] =>
      q_atomic x; q_atomic y;
      let E := fresh "E" in
      destruct (Py.Qleb x y) eqn:E;
      [apply Qleb_le in E | apply Qleb_gt in E];
      cbn [orb andb negb]
  end.

Section RiskCalculatorFacts.

Import Py RiskCalculator.
Local Open Scope Q_scope.

Lemma min_100_mono (x y : Q) : x <= y -> min 100 x <= min 100 y.
Proof. intro H. unfold min. q_cases; q_norm; lra. Qed.

Lemma clamp_mono (x y : Q) :
  x <= y -> min 100 (max 0 x) <= min 100 (max 0 y).
Proof. intro H. unfold min, max. q_cases; q_norm; lra. Qed.

Lemma clamp_range (x : Q) : 0 <= min 100 (max 0 x) <= 100.
Proof. unfold min, max. q_cases; q_norm; lra. Qed.

Lemma calculate_precipitation_risk_mono (p p' : Q) :
  p <= p' ->
  calculate_precipitation_risk p <= calculate_precipitation_risk p'.
Proof.
  intro H. unfold calculate_precipitation_risk.
  apply min_100_mono. q_norm. lra.
Qed.

Lemma calculate_wind_risk_mono (w w' : Q) :
  w <= w' -> calculate_wind_risk w <= calculate_wind_risk w'.
Proof.
  intro H. unfold calculate_wind_risk, min. q_cases; q_norm; lra.
Qed.

Lemma calculate_humidity_risk_mono (t h h' : Q) :
  h <= h' -> calculate_humidity_risk h t <= calculate_humidity_risk h' t.
Proof.
  intro H. unfold calculate_humidity_risk, min. q_cases; q_norm; lra.
Qed.

End RiskCalculatorFacts.

(** C2. For all inputs the risk score lies in [0,100]; with the other
    inputs fixed it is non-decreasing in precipitation, in wind speed and,
    when the temperature is above 25 degrees, in humidity. *)
Theorem calculate_risk_score_bounded_monotone :
  forall t p w h v : Q,
    (0 <= RiskCalculator.calculate_risk_score t p w h v <= 100)%Q /\
    (forall p' : Q, (p <= p')%Q ->
       (RiskCalculator.calculate_risk_score t p w h v
        <= RiskCalculator.calculate_risk_score t p' w h v)%Q) /\
    (forall w' : Q, (w <= w')%Q ->
       (RiskCalculator.calculate_risk_score t p w h v
        <= RiskCalculator.calculate_risk_score t p w' h v)%Q) /\
    (forall h' : Q, (25 < t)%Q -> (h <= h')%Q ->
       (RiskCalculator.calculate_risk_score t p w h v
        <= RiskCalculator.calculate_risk_score t p w h' v)%Q).
Proof.
  intros t p w h v. unfold RiskCalculator.calculate_risk_score.
  split; [apply clamp_range | ].
  split; [ | split].
  - intros p' Hp. apply clamp_mono.
    pose proof (calculate_precipitation_risk_mono p p' Hp). lra.
  - intros w' Hw. apply clamp_mono.
    pose proof (calculate_wind_risk_mono w w' Hw). lra.
  - intros h' _ Hh. apply clamp_mono.
    pose proof (calculate_humidity_risk_mono t h h' Hh). lra.
Qed.

Lemma calculate_risk_score_bounded_monotone_witness :
  (0 <= RiskCalculator.calculate_risk_score 30 10 20 70 5 <= 100)%Q /\
  (RiskCalculator.calculate_risk_score 30 10 20 70 5
   <= RiskCalculator.calculate_risk_score 30 40 20 70 5)%Q /\
  (RiskCalculator.calculate_risk_score 30 10 20 70 5
   <= RiskCalculator.calculate_risk_score 30 10 45 70 5)%Q /\
  (RiskCalculator.calculate_risk_score 30 10 20 70 5
   <= RiskCalculator.calculate_risk_score 30 10 20 90 5)%Q.
Proof.
  destruct (calculate_risk_score_bounded_monotone 30 10 20 70 5)
    as (Hr & Hp & Hw & Hh).
  split; [exact Hr | ].
  split; [apply Hp; vm_compute; discriminate | ].
  split; [apply Hw; vm_compute; discriminate | ].
  apply Hh; vm_compute; [reflexivity | discriminate].
Defined.

(** ** Stable sorting *)

Section SortedFacts.

Context {A : Type} (before : A -> A -> bool).

Lemma insert_perm (x : A) (l : list A) :
  Permutation (Py.insert before x l) (x :: l).
Proof.
  induction l as [| y r IH]; simpl.
  - apply Permutation_refl.
  - destruct (before y x).
    + apply perm_trans with (y :: x :: r).
      * apply perm_skip, IH.
      * apply perm_swap.
    + apply Permutation_refl.
Qed.

Lemma sorted_perm (l : list A) : Permutation (Py.sorted before l) l.
Proof.
  induction l as [| x r IH]; simpl.
  - apply perm_nil.
  - apply perm_trans with (x :: Py.sorted before r).
    + apply insert_perm.
    + apply perm_skip, IH.
Qed.

Lemma sorted_In (l : list A) (a : A) :
  In a (Py.sorted before l) <-> In a l.
Proof.
  split; apply Permutation_in;
    [apply sorted_perm | apply Permutation_sym, sorted_perm].
Qed.

Lemma sorted_Forall (P : A -> Prop) (l : list A) :
  Forall P l -> Forall P (Py.sorted before l).
Proof.
  intro H. apply Forall_forall. intros a Ha.
  apply (proj1 (sorted_In l a)) in Ha.
  revert a Ha. apply Forall_forall, H.
Qed.

Lemma sorted_length (l : list A) :
  List.length (Py.sorted before l) = List.length l.
Proof. apply Permutation_length, sorted_perm. Qed.

End SortedFacts.

(** Sorting on an integer key, greatest first, as [_prioritize_alerts]
    does.  [tie] is any relation the input is already sorted by; the
    output is ordered by the key, and by [tie] inside a key. *)
Section SortedByKeyDescending.

Context {A : Type} (key : A -> Z) (tie : A -> A -> Prop).

Let before (y x : A) : bool := (key x <? key y)%Z.

Lemma insert_key_then_tie (x : A) (l : list A) :
  StronglySorted (key_then_tie key tie) l ->
  Forall (tie x) l ->
  StronglySorted (key_then_tie key tie) (Py.insert before x l).
Proof.
  induction l as [| y r IH]; intros Hs Ht; simpl.
  - repeat constructor.
  - apply StronglySorted_inv in Hs. destruct Hs as [Hr Hy].
    apply Forall_cons_iff in Ht. destruct Ht as [Hxy Hxr].
    unfold before at 1. destruct (key x <? key y)%Z eqn:E.
    + apply Z.ltb_lt in E. constructor.
      * apply IH; assumption.
      * apply Forall_forall. intros z Hz.
        apply (Permutation_in _ (insert_perm before x r)) in Hz.
        destruct Hz as [<- | Hz].
        -- left. exact E.
        -- revert z Hz. apply Forall_forall, Hy.
    + apply Z.ltb_ge in E. constructor.
      * constructor; assumption.
      * constructor.
        -- unfold key_then_tie.
           destruct (Z.eq_dec (key x) (key y)) as [Heq | Hne];
             [right; split; assumption | left; lia].
        -- apply Forall_forall. intros z Hz.
           pose proof (proj1 (Forall_forall _ _) Hy z Hz) as Hyz.
           pose proof (proj1 (Forall_forall _ _) Hxr z Hz) as Hxz.
           unfold key_then_tie in *.
           destruct (Z.eq_dec (key x) (key z)) as [Heq | Hne];
             [right; split; assumption | left; lia].
Qed.

Lemma sorted_key_then_tie (l : list A) :
  StronglySorted tie l ->
  StronglySorted (key_then_tie key tie) (Py.sorted before l).
Proof.
  induction l as [| x r IH]; intro Hs; simpl.
  - constructor.
  - apply StronglySorted_inv in Hs. destruct Hs as [Hr Hx].
    apply insert_key_then_tie.
    + apply IH, Hr.
    + apply sorted_Forall, Hx.
Qed.

End SortedByKeyDescending.

(** ** Reasoning about calls that read the surroundings *)

Section EnvLogic.

Import Env.

Lemma returns_ret {A} (a : A) (P : A -> Prop) : P a -> returns (ret a) P.
Proof. intros H w. exists a, w. split; [reflexivity | exact H]. Qed.

Lemma returns_bind {A B} (m : M A) (k : A -> M B)
    (P : A -> Prop) (Q : B -> Prop) :
  returns m P -> (forall a, P a -> returns (k a) Q) ->
  returns (bind m k) Q.
Proof.
  intros Hm Hk w. destruct (Hm w) as (a & w' & E & Ha).
  destruct (Hk a Ha w') as (b & w'' & E' & Hb).
  exists b, w''. unfold bind. rewrite E. split; assumption.
Qed.

Lemma returns_weaken {A} (m : M A) (P Q : A -> Prop) :
  returns m P -> (forall a, P a -> Q a) -> returns m Q.
Proof.
  intros Hm HPQ w. destruct (Hm w) as (a & w' & E & Ha).
  exists a, w'. split; [exact E | apply HPQ, Ha].
Qed.

Lemma returns_lift {A} (a : A) (P : A -> Prop) :
  P a -> returns (lift (inr a)) P.
Proof. intros H w. exists a, w. split; [reflexivity | exact H]. Qed.

Lemma returns_uuid4 : returns uuid4 (fun _ => True).
Proof. intro w. eexists _, _. split; [reflexivity | exact I]. Qed.

Lemma returns_datetime_now : returns datetime_now (fun _ => True).
Proof. intro w. eexists _, _. split; [reflexivity | exact I]. Qed.

Lemma returns_result {A} (m : M A) (P : A -> Prop) (w : World) (a : A) :
  returns m P -> result (m w) = inr a -> P a.
Proof.
  intros Hm E. destruct (Hm w) as (a' & w' & E' & Ha).
  rewrite E' in E. simpl in E. congruence.
Qed.

Lemma raises_bind_l {A B} (m : M A) (k : A -> M B) (e : Py.exn) :
  raises m e -> raises (bind m k) e.
Proof. intros H w. unfold bind. rewrite H. reflexivity. Qed.

Lemma raises_bind_r {A B} (m : M A) (k : A -> M B) (P : A -> Prop)
    (e : Py.exn) :
  returns m P -> (forall a, P a -> raises (k a) e) -> raises (bind m k) e.
Proof.
  intros Hm Hk w. destruct (Hm w) as (a & w' & E & Ha).
  unfold bind. rewrite E. apply Hk, Ha.
Qed.

Lemma agree_ret {A} (R : A -> A -> Prop) (a1 a2 : A) :
  R a1 a2 -> agree R (ret a1) (ret a2).
Proof. intros H w1 w2. exact H. Qed.

Lemma agree_bind {A B} (R : A -> A -> Prop) (S : B -> B -> Prop)
    (m1 m2 : M A) (k1 k2 : A -> M B) :
  agree R m1 m2 ->
  (forall a1 a2, R a1 a2 -> agree S (k1 a1) (k2 a2)) ->
  agree S (bind m1 k1) (bind m2 k2).
Proof.
  intros Hm Hk w1 w2. unfold bind. specialize (Hm w1 w2).
  destruct (m1 w1) as [a1 w1' | e1], (m2 w2) as [a2 w2' | e2];
    try contradiction.
  - apply Hk, Hm.
  - exact Hm.
Qed.

Lemma agree_lift {A} (r : Py.exn + A) : agree eq (lift r) (lift r).
Proof. intros w1 w2. destruct r; reflexivity. Qed.

Lemma agree_uuid4 : agree (fun _ _ => True) uuid4 uuid4.
Proof. intros w1 w2. exact I. Qed.

Lemma agree_datetime_now : agree (fun _ _ => True) datetime_now datetime_now.
Proof. intros w1 w2. exact I. Qed.

Lemma agree_result {A} (R : A -> A -> Prop) (m1 m2 : M A)
    (w1 w2 : World) :
  agree R m1 m2 ->
  match result (m1 w1), result (m2 w2) with
  | inr a1, inr a2 => R a1 a2
  | inl e1, inl e2 => e1 = e2
  | _, _ => False
  end.
Proof.
  intro H. specialize (H w1 w2).
  destruct (m1 w1), (m2 w2); simpl; exact H.
Qed.

End EnvLogic.

(** ** The detectors of the alert engine *)

Section DetectorFacts.

Import Py Models Env AlertEngine.
Local Open Scope Q_scope.

Lemma max_from_In (best : Q) (l : list Q) : In (max_from best l) (best :: l).
Proof.
  revert best. induction l as [| x r IH]; intro best; simpl.
  - left. reflexivity.
  - destruct (IH (if Qltb best x then x else best)) as [H | H].
    + destruct (Qltb best x); [right; left | left]; exact H.
    + right. right. exact H.
Qed.

Lemma max_from_ge_best (best : Q) (l : list Q) : best <= max_from best l.
Proof.
  revert best. induction l as [| x r IH]; intro best; simpl.
  - lra.
  - specialize (IH (if Qltb best x then x else best)).
    destruct (Qltb best x) eqn:E; [apply Qltb_lt in E | ]; lra.
Qed.

Lemma max_from_upper (best : Q) (l : list Q) :
  Forall (fun x => x <= max_from best l) (best :: l).
Proof.
  revert best. induction l as [| x r IH]; intro best; simpl.
  - repeat constructor. lra.
  - specialize (IH (if Qltb best x then x else best)).
    apply Forall_cons_iff in IH. destruct IH as [Hb Hr].
    destruct (Qltb best x) eqn:E;
      [apply Qltb_lt in E | apply Qltb_ge in E];
      repeat constructor; try assumption; lra.
Qed.

Lemma _get_heatwave_severity_range (t : Q) :
  In (_get_heatwave_severity t) [MODERATE; HIGH; SEVERE].
Proof.
  unfold _get_heatwave_severity.
  destruct (Qltb 42 t), (Qltb 38 t); simpl; tauto.
Qed.

Lemma _get_rain_severity_range (p : Q) :
  In (_get_rain_severity p) [MODERATE; HIGH; SEVERE].
Proof.
  unfold _get_rain_severity.
  destruct (Qltb 150 p), (Qltb 100 p); simpl; tauto.
Qed.

Lemma _get_wind_severity_range (v : Q) :
  In (_get_wind_severity v) [MODERATE; HIGH; SEVERE].
Proof.
  unfold _get_wind_severity.
  destruct (Qltb 100 v), (Qltb 80 v); simpl; tauto.
Qed.

Lemma _get_cold_severity_range (t : Q) :
  In (_get_cold_severity t) [MODERATE; HIGH; SEVERE].
Proof.
  unfold _get_cold_severity.
  destruct (Qltb t (-5)), (Qltb t 0); simpl; tauto.
Qed.

Lemma _check_heatwave_returns (forecast : list HourlyForecast)
    (threshold : Q) :
  returns (_check_heatwave forecast threshold)
          (heatwave_outcome forecast threshold).
Proof.
  intro w. unfold _check_heatwave, heatwave_outcome.
  destruct (filter (heatwave_candidate threshold) (firstn 24 forecast))
    as [| p1 rest] eqn:Eq.
  - exists None, w. split; reflexivity.
  - destruct (3 <=? List.length (p1 :: rest))%nat.
    + eexists _, _. split; [reflexivity | ].
      eexists _, p1, rest. repeat split.
    + exists None, w. split; reflexivity.
Qed.

Lemma heatwave_outcome_detects (forecast : list HourlyForecast)
    (threshold : Q) (o : option Alert) :
  heatwave_outcome forecast threshold o -> detects HEATWAVE o.
Proof.
  unfold heatwave_outcome. intros H a ->.
  destruct (3 <=? _)%nat; [ | discriminate].
  destruct H as (a' & p1 & rest & _ & [= <-] & Ht & Hs & Hr & _).
  repeat split; try assumption.
  rewrite Hs. apply _get_heatwave_severity_range.
Qed.

Lemma _check_heavy_rain_returns (forecast : list HourlyForecast)
    (threshold : Q) :
  forecast <> [] ->
  returns (_check_heavy_rain forecast threshold) (detects HEAVY_RAIN).
Proof.
  intros Hne w. unfold _check_heavy_rain.
  destruct (firstn 8 forecast) as [| p l] eqn:El.
  { destruct forecast; [contradiction | discriminate]. }
  unfold bind at 1. cbn [map max_iter lift].
  match goal with |- context [if ?c then _ else _] => destruct c end.
  - eexists _, _. split; [reflexivity | ].
    intros a [= <-]. repeat split. apply _get_rain_severity_range.
  - exists None, w. split; [reflexivity | ]. intros a [=].
Qed.

Lemma _check_heavy_rain_raises (threshold : Q) :
  raises (_check_heavy_rain [] threshold) ValueError.
Proof. intro w. reflexivity. Qed.

Lemma _check_storm_returns (forecast : list HourlyForecast)
    (current_wind threshold : Q) :
  returns (_check_storm forecast current_wind threshold) (detects STORM).
Proof.
  intro w. unfold _check_storm.
  destruct ((if Qltb threshold current_wind
             then [(inl "current"%string, current_wind)] else [])
            ++ map (fun item => (inr (timestamp item), wind_speed item))
                 (filter (fun item => Qltb threshold (wind_speed item))
                         (firstn 8 forecast)))%list as [| hp rest].
  - exists None, w. split; [reflexivity | ]. intros a [=].
  - eexists _, _. split; [reflexivity | ].
    intros a [= <-]. repeat split. apply _get_wind_severity_range.
Qed.

Lemma _check_cold_wave_returns (forecast : list HourlyForecast)
    (threshold : Q) :
  returns (_check_cold_wave forecast threshold) (detects COLD_WAVE).
Proof.
  intro w. unfold _check_cold_wave.
  destruct (filter (fun item => Qltb (temperature item) threshold)
                   (firstn 24 forecast)) as [| p1 rest].
  - exists None, w. split; [reflexivity | ]. intros a [=].
  - destruct (3 <=? List.length (p1 :: rest))%nat.
    + eexists _, _. split; [reflexivity | ].
      intros a [= <-]. repeat split. apply _get_cold_severity_range.
    + exists None, w. split; [reflexivity | ]. intros a [=].
Qed.

Lemma _check_high_humidity_returns (temperature humidity threshold : Q) :
  returns (_check_high_humidity temperature humidity threshold)
          (detects HIGH_HUMIDITY).
Proof.
  intro w. unfold _check_high_humidity.
  destruct (Qltb threshold humidity).
  - eexists _, _. split; [reflexivity | ].
    intros a [= <-]. repeat split. simpl. tauto.
  - exists None, w. split; [reflexivity | ]. intros a [=].
Qed.

End DetectorFacts.

(** ** Personalization and the assembly of [check_alerts] *)

Section CheckAlertsFacts.

Import Py Models Env AlertEngine.

Lemma UserType_of_value_undefined (user_type : string) :
  ~ In user_type defined_user_types ->
  UserType_of_value user_type = inl ValueError.
Proof.
  intro H. unfold UserType_of_value.
  repeat match goal with
  | |- context [String.eqb ?s ?c] =>
      destruct (String.eqb_spec s c) as [-> | _];
      [exfalso; apply H; simpl; tauto | ]
  end.
  reflexivity.
Qed.

Lemma UserType_of_value_defined (user_type : string) :
  In user_type defined_user_types ->
  exists u, UserType_of_value user_type = inr u.
Proof.
  simpl. intros [<- | [<- | [<- | [<- | [<- | []]]]]];
    eexists; reflexivity.
Qed.

Lemma with_recommendations_same (a : Alert) :
  with_recommendations a (recommendations a) = a.
Proof. destruct a. reflexivity. Qed.

Lemma _personalize_alerts_map (alerts : list Alert) (user_type : string) :
  _personalize_alerts alerts user_type = map (personalize user_type) alerts.
Proof.
  unfold _personalize_alerts, personalize, personalized_recommendations.
  destruct (UserType_of_value user_type) as [[] | u].
  - induction alerts as [| a r IH]; simpl; [reflexivity | ].
    rewrite <- IH, app_nil_r, with_recommendations_same. reflexivity.
  - apply map_ext. intro a. unfold personalize_one.
    destruct (user_recommendations u) as [by_type | ].
    + destruct (by_type (type a)); [reflexivity | ].
      rewrite app_nil_r, with_recommendations_same. reflexivity.
    + rewrite app_nil_r, with_recommendations_same. reflexivity.
Qed.

Lemma _personalize_alerts_undefined (alerts : list Alert)
    (user_type : string) :
  UserType_of_value user_type = inl ValueError ->
  _personalize_alerts alerts user_type = alerts.
Proof. intro H. unfold _personalize_alerts. rewrite H. reflexivity. Qed.

Lemma detection_collect (o1 o2 o3 o4 o5 : option Alert) :
  detects HEATWAVE o1 -> detects HEAVY_RAIN o2 -> detects STORM o3 ->
  detects COLD_WAVE o4 -> detects HIGH_HUMIDITY o5 ->
  detection
    (append_if o5 (append_if o4 (append_if o3 (append_if o2
       (append_if o1 []))))).
Proof.
  intros H1 H2 H3 H4 H5.
  assert (G : forall ty o, detects ty o ->
              match o with
              | Some a => type a = ty /\ unpersonalized a
              | None => True
              end).
  { intros ty [a | ] H; [ | exact I].
    destruct (H a eq_refl) as (Ht & Hs & Hr).
    unfold unpersonalized. rewrite Ht. auto. }
  apply G in H1, H2, H3, H4, H5.
  destruct o1 as [a1 | ], o2 as [a2 | ], o3 as [a3 | ], o4 as [a4 | ],
           o5 as [a5 | ];
    repeat match goal with H : _ /\ _ |- _ => destruct H end;
    simpl; split;
    repeat (constructor; try assumption);
    unfold detector_order;
    repeat match goal with H : type _ = _ |- _ => rewrite H end;
    simpl; lia.
Qed.

Lemma check_alerts_returns (hourly_forecast : list HourlyForecast)
    (current_temp current_humidity current_wind : Q) (user_type : string)
    (custom_thresholds : option CustomThresholds) :
  hourly_forecast <> [] ->
  returns (check_alerts hourly_forecast current_temp current_humidity
                        current_wind user_type custom_thresholds)
          (assembled user_type).
Proof.
  intro Hne. unfold check_alerts.
  eapply returns_bind.
  { eapply returns_weaken;
      [apply _check_heatwave_returns | apply heatwave_outcome_detects]. }
  intros o1 H1.
  eapply returns_bind; [apply _check_heavy_rain_returns, Hne | ].
  intros o2 H2.
  eapply returns_bind; [apply _check_storm_returns | ].
  intros o3 H3.
  eapply returns_bind; [apply _check_cold_wave_returns | ].
  intros o4 H4.
  eapply returns_bind; [apply _check_high_humidity_returns | ].
  intros o5 H5.
  apply returns_ret. eexists. split.
  - apply detection_collect; eassumption.
  - rewrite _personalize_alerts_map. reflexivity.
Qed.

Lemma check_alerts_raises (current_temp current_humidity current_wind : Q)
    (user_type : string) (custom_thresholds : option CustomThresholds) :
  raises (check_alerts [] current_temp current_humidity current_wind
                       user_type custom_thresholds)
         ValueError.
Proof. intro w. reflexivity. Qed.

Lemma check_alerts_result (hourly_forecast : list HourlyForecast)
    (current_temp current_humidity current_wind : Q) (user_type : string)
    (custom_thresholds : option CustomThresholds) (w : World)
    (alerts : list Alert) :
  result (check_alerts hourly_forecast current_temp current_humidity
                       current_wind user_type custom_thresholds w)
  = inr alerts ->
  hourly_forecast <> [] /\ assembled user_type alerts.
Proof.
  intro E. destruct hourly_forecast as [| p rest].
  - rewrite check_alerts_raises in E. discriminate.
  - split; [discriminate | ].
    eapply returns_result; [ | exact E].
    apply check_alerts_returns. discriminate.
Qed.

Lemma personalize_type (user_type : string) (a : Alert) :
  type (personalize user_type a) = type a.
Proof. reflexivity. Qed.

Lemma personalize_severity (user_type : string) (a : Alert) :
  severity (personalize user_type a) = severity a.
Proof. reflexivity. Qed.

Lemma StronglySorted_map {A B : Type} (f : A -> B) (R : B -> B -> Prop)
    (l : list A) :
  StronglySorted (fun x y => R (f x) (f y)) l -> StronglySorted R (map f l).
Proof.
  induction 1 as [| x r Hr IH Hx]; simpl; constructor.
  - exact IH.
  - apply Forall_map. exact Hx.
Qed.

Lemma StronglySorted_weaken {A : Type} (R S : A -> A -> Prop) (l : list A) :
  (forall x y, R x y -> S x y) -> StronglySorted R l -> StronglySorted S l.
Proof.
  intros HRS. induction 1 as [| x r Hr IH Hx]; constructor.
  - exact IH.
  - revert Hx. apply Forall_impl. intro y. apply HRS.
Qed.

End CheckAlertsFacts.

(** ** The sample runs *)

Section SampleRuns.

Import Models Examples.

Lemma run_mixed_day_student :
  run_mixed_day "STUDENT" = inr mixed_day_student.
Proof. vm_compute. reflexivity. Qed.

Lemma run_mixed_day_farmer :
  run_mixed_day "FARMER" = inr mixed_day_farmer.
Proof. vm_compute. reflexivity. Qed.

Lemma run_mixed_day_pilot :
  run_mixed_day "PILOT" = inr mixed_day_pilot.
Proof. vm_compute. reflexivity. Qed.

End SampleRuns.

(** ** The claims on the alert engine *)

Section AlertEngineClaims.

Import Py Models Env AlertEngine.

(** C1 (the code departs from the claim). On an empty forecast with a
    current wind of 120 km/h against a threshold of 60, [check_alerts]
    does not return the single STORM alert: the heavy-rain detector takes
    [max] of an empty sequence and the [ValueError] leaves [check_alerts].
    The storm detector on its own yields the STORM alert of severity
    SEVERE, and the heatwave and cold-wave detectors yield nothing. *)
Theorem check_alerts_empty_forecast_raises :
  forall (current_temp current_humidity : Q) (user_type : string)
         (w : World),
    result (check_alerts [] current_temp current_humidity 120 user_type
                         (Some Examples.thresholds_35_60) w)
    = inl ValueError /\
    result (_check_heavy_rain [] 50 w) = inl ValueError /\
    result (_check_heatwave [] 35 w) = inr None /\
    result (_check_cold_wave [] 5 w) = inr None /\
    exists a, result (_check_storm [] 120 60 w) = inr (Some a) /\
              type a = STORM /\ severity a = SEVERE.
Proof.
  intros ct ch ut w. repeat split.
  eexists. split; [reflexivity | ]. split; reflexivity.
Qed.

Lemma heatwave_candidate_iff (threshold : Q) (p : HourlyForecast) :
  heatwave_candidate threshold p = true <->
  (threshold < temperature p)%Q /\
  (10 <= hour (timestamp p) <= 18)%Z.
Proof.
  unfold heatwave_candidate.
  rewrite !andb_true_iff, Qltb_lt, !Z.leb_le. tauto.
Qed.

Lemma _get_heatwave_severity_cases (t : Q) :
  ((42 < t)%Q -> _get_heatwave_severity t = SEVERE) /\
  ((38 < t)%Q -> (t <= 42)%Q -> _get_heatwave_severity t = HIGH) /\
  ((t <= 38)%Q -> _get_heatwave_severity t = MODERATE).
Proof.
  unfold _get_heatwave_severity.
  repeat split; intros; q_cases; try reflexivity; lra.
Qed.

(** C5. Among the first 24 forecast points the heatwave detector keeps
    those whose temperature exceeds the threshold and whose hour lies in
    [10,18].  It yields an alert exactly when at least three are kept;
    the severity is SEVERE when the greatest kept temperature exceeds 42,
    HIGH when it exceeds 38, MODERATE otherwise, and the alert runs from
    the timestamp of the first kept point to that of the last.  When the
    kept points are three points at 40 degrees the alert is HIGH and
    spans them, and on a 24-point day with 40 degrees at 11, 13 and 15
    o'clock and a threshold of 35, [check_alerts] returns that alert
    alone. *)
Theorem check_heatwave_spec :
  forall (forecast : list HourlyForecast) (threshold : Q) (w : World),
    let qualifying :=
      filter (heatwave_candidate threshold) (firstn 24 forecast) in
    (forall p, In p qualifying <->
               In p (firstn 24 forecast) /\
               (threshold < temperature p)%Q /\
               (10 <= hour (timestamp p) <= 18)%Z) /\
    ((List.length qualifying < 3)%nat ->
       result (_check_heatwave forecast threshold w) = inr None) /\
    ((3 <= List.length qualifying)%nat ->
       exists a first_p max_temp,
         result (_check_heatwave forecast threshold w) = inr (Some a) /\
         type a = HEATWAVE /\
         hd_error qualifying = Some first_p /\
         In max_temp (map temperature qualifying) /\
         Forall (fun t => (t <= max_temp)%Q) (map temperature qualifying) /\
         ((42 < max_temp)%Q -> severity a = SEVERE) /\
         ((38 < max_temp)%Q -> (max_temp <= 42)%Q -> severity a = HIGH) /\
         ((max_temp <= 38)%Q -> severity a = MODERATE) /\
         start_time a = Some (timestamp first_p) /\
         end_time a = Some (timestamp (List.last qualifying first_p))) /\
    (forall p1 p2 p3,
       qualifying = [p1; p2; p3] ->
       (temperature p1 == 40)%Q -> (temperature p2 == 40)%Q ->
       (temperature p3 == 40)%Q ->
       exists a,
         result (_check_heatwave forecast threshold w) = inr (Some a) /\
         type a = HEATWAVE /\ severity a = HIGH /\
         start_time a = Some (timestamp p1) /\
         end_time a = Some (timestamp p3)) /\
    (exists a,
       result (check_alerts Examples.heatwave_day 30 50 10 "GENERAL"
                            (Some Examples.thresholds_35_60) w)
       = inr [a] /\
       type a = HEATWAVE /\ severity a = HIGH /\
       start_time a = Some (mk_datetime 2024 6 1 11 0 0) /\
       end_time a = Some (mk_datetime 2024 6 1 15 0 0)).
Proof.
  intros forecast threshold w qualifying.
  destruct (_check_heatwave_returns forecast threshold w)
    as (o & w' & Erun & Hout).
  unfold heatwave_outcome in Hout. fold qualifying in Hout.
  assert (Eres : result (_check_heatwave forecast threshold w) = inr o)
    by (rewrite Erun; reflexivity).
  split; [ | split; [ | split; [ | split]]].
  - intro p. unfold qualifying.
    rewrite filter_In, heatwave_candidate_iff. tauto.
  - intro Hlt. apply Nat.leb_gt in Hlt. rewrite Hlt in Hout.
    rewrite Eres, Hout. reflexivity.
  - intro Hge. apply Nat.leb_le in Hge. rewrite Hge in Hout.
    destruct Hout as (a & p1 & rest & Eq & -> & Ht & Hs & _ & Hst & Hen).
    exists a, p1, (max_from (temperature p1) (map temperature rest)).
    rewrite Eq. cbn [map hd_error].
    destruct (_get_heatwave_severity_cases
                (max_from (temperature p1) (map temperature rest)))
      as (Hsev & Hhigh & Hmod).
    rewrite Hs.
    repeat split; try assumption.
    + apply max_from_In.
    + apply max_from_upper.
    + rewrite Hen. destruct rest; reflexivity.
  - intros p1 p2 p3 Eq H1 H2 H3. rewrite Eq in Hout. simpl in Hout.
    destruct Hout as (a & q1 & rest & [= <- <-] & -> & Ht & Hs & _ & Hst & Hen).
    exists a. repeat split; try assumption.
    rewrite Hs.
    pose proof (max_from_In (temperature p1) (map temperature [p2; p3]))
      as Hin.
    set (m := max_from (temperature p1) (map temperature [p2; p3])) in *.
    change (In m [temperature p1; temperature p2; temperature p3]) in Hin.
    assert (Hm : (m == 40)%Q).
    { destruct Hin as [E | [E | [E | []]]]; rewrite <- E; assumption. }
    destruct (_get_heatwave_severity_cases m) as (_ & Hhigh & _).
    apply Hhigh; lra.
  - eexists. split; [vm_compute; reflexivity | ].
    repeat split.
Qed.

Lemma check_heatwave_spec_witness :
  exists a,
    result (_check_heatwave Examples.heatwave_day 35 Examples.world_a)
    = inr (Some a) /\
    type a = HEATWAVE /\ severity a = HIGH /\
    start_time a = Some (mk_datetime 2024 6 1 11 0 0) /\
    end_time a = Some (mk_datetime 2024 6 1 15 0 0).
Proof.
  destruct (check_heatwave_spec Examples.heatwave_day 35 Examples.world_a)
    as (_ & _ & _ & H & _).
  apply (H (Examples.hourly_point 11 40 0 10)
           (Examples.hourly_point 13 40 0 10)
           (Examples.hourly_point 15 40 0 10));
    vm_compute; reflexivity.
Defined.

(** C10. Every alert returned by [check_alerts] is MODERATE, HIGH or
    SEVERE: no detector assigns LOW, although LOW is a member of the
    enumeration and has rank 1 in the priority table. *)
Theorem check_alerts_never_low :
  forall (hourly_forecast : list HourlyForecast)
         (current_temp current_humidity current_wind : Q)
         (user_type : string) (custom_thresholds : option CustomThresholds)
         (w : World) (alerts : list Alert),
    result (check_alerts hourly_forecast current_temp current_humidity
                         current_wind user_type custom_thresholds w)
    = inr alerts ->
    Forall (fun a => (severity a = MODERATE \/ severity a = HIGH
                      \/ severity a = SEVERE)
                     /\ severity a <> LOW) alerts /\
    severity_order LOW = 1%Z.
Proof.
  intros f ct ch cw ut th w alerts E.
  apply check_alerts_result in E.
  destruct E as (_ & pre & (_ & Hpre) & ->).
  split; [ | reflexivity].
  unfold _prioritize_alerts. apply sorted_Forall, Forall_map.
  revert Hpre. apply Forall_impl. intros a (Hs & _).
  rewrite personalize_severity. simpl in Hs.
  destruct Hs as [<- | [<- | [<- | []]]];
    (split; [tauto | discriminate]).
Qed.

Lemma check_alerts_never_low_witness :
  List.length Examples.mixed_day_student = 4%nat /\
  Forall (fun a => (severity a = MODERATE \/ severity a = HIGH
                    \/ severity a = SEVERE)
                   /\ severity a <> LOW) Examples.mixed_day_student.
Proof.
  split; [reflexivity | ].
  apply (check_alerts_never_low Examples.mixed_day 30 90 10 "STUDENT" None
           Examples.world_a Examples.mixed_day_student
           run_mixed_day_student).
Defined.

(** C7. The list returned by [check_alerts] is in non-increasing order of
    severity rank (SEVERE 4, HIGH 3, MODERATE 2, LOW 1), and alerts of
    equal severity come in the order in which the detectors run:
    heatwave, heavy rain, storm, cold wave, high humidity. *)
Theorem check_alerts_prioritized :
  forall (hourly_forecast : list HourlyForecast)
         (current_temp current_humidity current_wind : Q)
         (user_type : string) (custom_thresholds : option CustomThresholds)
         (w : World) (alerts : list Alert),
    result (check_alerts hourly_forecast current_temp current_humidity
                         current_wind user_type custom_thresholds w)
    = inr alerts ->
    StronglySorted
      (fun a b => (severity_order (severity b)
                   <= severity_order (severity a))%Z) alerts /\
    StronglySorted
      (fun a b => severity a = severity b ->
                  (detector_index (type a) < detector_index (type b))%nat)
      alerts /\
    map severity_order [SEVERE; HIGH; MODERATE; LOW] = [4; 3; 2; 1]%Z /\
    map detector_index
        [HEATWAVE; HEAVY_RAIN; STORM; COLD_WAVE; HIGH_HUMIDITY]
    = [0; 1; 2; 3; 4]%nat.
Proof.
  intros f ct ch cw ut th w alerts E.
  apply check_alerts_result in E.
  destruct E as (_ & pre & (Hord & _) & ->).
  assert (Hsorted :
    StronglySorted
      (key_then_tie (fun a => severity_order (severity a)) detector_order)
      (_prioritize_alerts (map (personalize ut) pre))).
  { unfold _prioritize_alerts.
    apply (sorted_key_then_tie (fun a => severity_order (severity a))).
    apply StronglySorted_map. exact Hord. }
  split; [ | split; [ | split; reflexivity]].
  - revert Hsorted. apply StronglySorted_weaken.
    intros x y [H | [H _]]; lia.
  - revert Hsorted. apply StronglySorted_weaken.
    intros x y [H | [_ H]] Heq; [rewrite Heq in H; lia | exact H].
Qed.

Lemma check_alerts_prioritized_witness :
  map (fun a => (type a, severity a)) Examples.mixed_day_student
  = [(HEAVY_RAIN, HIGH); (STORM, HIGH);
     (HEATWAVE, MODERATE); (HIGH_HUMIDITY, MODERATE)] /\
  StronglySorted
    (fun a b => (severity_order (severity b)
                 <= severity_order (severity a))%Z)
    Examples.mixed_day_student /\
  StronglySorted
    (fun a b => severity a = severity b ->
                (detector_index (type a) < detector_index (type b))%nat)
    Examples.mixed_day_student.
Proof.
  split; [reflexivity | ].
  destruct (check_alerts_prioritized Examples.mixed_day 30 90 10 "STUDENT"
              None Examples.world_a Examples.mixed_day_student
              run_mixed_day_student) as (H1 & H2 & _).
  split; [exact H1 | exact H2].
Defined.

(** C8 (the code departs from the claim on an empty forecast). A user type
    outside the five defined values is no cause of an exception:
    personalization returns the alerts as they are.  Yet on an empty
    forecast [check_alerts] raises [ValueError] for every user type,
    defined or not, from the heavy-rain detector and before any
    personalization.  On every other forecast it returns, and any
    exception it raises means the forecast was empty.  For a user type
    outside the five defined values every returned alert then carries
    exactly the base recommendations of its type.  For a defined user type
    the list of the (user type, alert type) pair, when the table has one,
    follows the base recommendations once, so the count is the base count
    plus the personalized count.  The five defined values are those of
    the enumeration; under HEATWAVE, HEAVY_RAIN, STORM, COLD_WAVE and
    HIGH_HUMIDITY the table holds 2, 2, 2, 0, 2 recommendations for
    STUDENT, 2, 3, 3, 3, 2 for FARMER, 3, 3, 3, 0, 2 for TRAVELLER,
    2, 2, 2, 0, 2 for DELIVERY_WORKER and 2 each for GENERAL. *)
Theorem check_alerts_personalization :
  forall (hourly_forecast : list HourlyForecast)
         (current_temp current_humidity current_wind : Q)
         (user_type : string) (custom_thresholds : option CustomThresholds),
    raises (check_alerts [] current_temp current_humidity current_wind
                         user_type custom_thresholds)
           ValueError /\
    (~ In user_type defined_user_types ->
       forall alerts, _personalize_alerts alerts user_type = alerts) /\
    (hourly_forecast <> [] ->
       returns (check_alerts hourly_forecast current_temp current_humidity
                             current_wind user_type custom_thresholds)
         (Forall (fun a =>
            recommendations a
            = (base_recommendations (type a)
               ++ personalized_recommendations user_type (type a))%list /\
            List.length (recommendations a)
            = (List.length (base_recommendations (type a))
               + List.length
                   (personalized_recommendations user_type (type a)))%nat))) /\
    (~ In user_type defined_user_types ->
       hourly_forecast <> [] ->
       returns (check_alerts hourly_forecast current_temp current_humidity
                             current_wind user_type custom_thresholds)
         (Forall (fun a =>
            recommendations a = base_recommendations (type a)))) /\
    (forall w e,
       result (check_alerts hourly_forecast current_temp current_humidity
                            current_wind user_type custom_thresholds w)
       = inl e ->
       hourly_forecast = []) /\
    map UserType_of_value defined_user_types
    = [inr STUDENT; inr FARMER; inr TRAVELLER; inr DELIVERY_WORKER;
       inr GENERAL] /\
    map (fun u =>
           map (fun t => List.length (personalized_recommendations u t))
               [HEATWAVE; HEAVY_RAIN; STORM; COLD_WAVE; HIGH_HUMIDITY])
        defined_user_types
    = [[2; 2; 2; 0; 2]; [2; 3; 3; 3; 2]; [3; 3; 3; 0; 2]; [2; 2; 2; 0; 2];
       [2; 2; 2; 2; 2]]%nat.
Proof.
  intros f ct ch cw ut th.
  assert (Hgen : f <> [] ->
    returns (check_alerts f ct ch cw ut th)
      (Forall (fun a =>
         recommendations a
         = (base_recommendations (type a)
            ++ personalized_recommendations ut (type a))%list))).
  { intro Hne. eapply returns_weaken; [apply check_alerts_returns, Hne | ].
    intros alerts (pre & (_ & Hpre) & ->).
    unfold _prioritize_alerts. apply sorted_Forall, Forall_map.
    revert Hpre. apply Forall_impl. intros a (_ & Hr).
    unfold personalize. simpl. rewrite Hr. reflexivity. }
  split; [apply check_alerts_raises | ].
  split; [ | split; [ | split; [ | split; [ | split; reflexivity]]]].
  - intros Hun alerts.
    apply _personalize_alerts_undefined, UserType_of_value_undefined, Hun.
  - intro Hne. eapply returns_weaken; [apply Hgen, Hne | ].
    intros alerts. apply Forall_impl. intros a Hr.
    split; [exact Hr | ]. rewrite Hr. apply length_app.
  - intros Hun Hne. eapply returns_weaken; [apply Hgen, Hne | ].
    intros alerts. apply Forall_impl. intros a Hr.
    rewrite Hr. unfold personalized_recommendations.
    rewrite (UserType_of_value_undefined ut Hun). apply app_nil_r.
  - intros w e E. destruct f as [| p rest]; [reflexivity | ].
    destruct (check_alerts_returns (p :: rest) ct ch cw ut th
                ltac:(discriminate) w) as (a & w' & Erun & _).
    rewrite Erun in E. discriminate.
Qed.

Lemma check_alerts_personalization_witness :
  (forall alerts, _personalize_alerts alerts "PILOT" = alerts) /\
  Forall (fun a => recommendations a = base_recommendations (type a))
         Examples.mixed_day_pilot /\
  map (fun a => (type a, List.length (recommendations a)))
      Examples.mixed_day_farmer
  = [(HEAVY_RAIN, 7); (STORM, 7); (HEATWAVE, 6); (HIGH_HUMIDITY, 6)]%nat /\
  Forall (fun a =>
    List.length (recommendations a)
    = (List.length (base_recommendations (type a))
       + List.length (personalized_recommendations "FARMER" (type a)))%nat)
    Examples.mixed_day_farmer /\
  check_alerts [] 20 50 10 "PILOT" None Examples.world_a
  = Raises ValueError.
Proof.
  assert (Hpilot : ~ In "PILOT"%string defined_user_types).
  { simpl. intros [H | [H | [H | [H | [H | []]]]]]; discriminate. }
  assert (Hday : Examples.mixed_day <> []) by discriminate.
  destruct (check_alerts_personalization Examples.mixed_day 30 90 10
              "PILOT" None) as (_ & H1 & _ & H3 & _).
  destruct (check_alerts_personalization Examples.mixed_day 20 50 10
              "PILOT" None) as (H0 & _).
  destruct (check_alerts_personalization Examples.mixed_day 30 90 10
              "FARMER" None) as (_ & _ & H2 & _).
  split; [apply H1, Hpilot | ].
  split; [ | split; [reflexivity | split; [ | exact (H0 Examples.world_a)]]].
  - eapply returns_result;
      [apply H3; assumption | apply run_mixed_day_pilot].
  - assert (H : Forall (fun a =>
      recommendations a
      = (base_recommendations (type a)
         ++ personalized_recommendations "FARMER" (type a))%list /\
      List.length (recommendations a)
      = (List.length (base_recommendations (type a))
         + List.length (personalized_recommendations "FARMER" (type a)))%nat)
      Examples.mixed_day_farmer).
    { eapply returns_result;
        [apply H2; assumption | apply run_mixed_day_farmer]. }
    revert H. apply Forall_impl. intros a [_ Hl]. exact Hl.
Defined.

End AlertEngineClaims.

(** ** What [check_alerts] takes from its inputs alone *)

Section Determinism.

Import Py Models Env AlertEngine.

Lemma _check_heatwave_agree (forecast : list HourlyForecast) (threshold : Q) :
  agree (option_rel same_but_environment)
        (_check_heatwave forecast threshold)
        (_check_heatwave forecast threshold).
Proof.
  intros w1 w2. unfold _check_heatwave.
  destruct (filter (heatwave_candidate threshold) (firstn 24 forecast))
    as [| p1 rest].
  - exact I.
  - destruct (3 <=? List.length (p1 :: rest))%nat; [exact eq_refl | exact I].
Qed.

Lemma _check_heavy_rain_agree (forecast : list HourlyForecast)
    (threshold : Q) :
  agree (option_rel same_but_environment)
        (_check_heavy_rain forecast threshold)
        (_check_heavy_rain forecast threshold).
Proof.
  unfold _check_heavy_rain.
  eapply agree_bind; [apply agree_lift | ].
  intros max_intensity ? <-.
  match goal with |- context [if ?c then _ else _] => destruct c end;
    intros w1 w2; [exact eq_refl | exact I].
Qed.

Lemma _check_storm_agree (forecast : list HourlyForecast)
    (current_wind threshold : Q) :
  agree (option_rel same_but_environment)
        (_check_storm forecast current_wind threshold)
        (_check_storm forecast current_wind threshold).
Proof.
  intros w1 w2. unfold _check_storm.
  match goal with |- context [match ?l with [] => _ | _ :: _ => _ end] =>
    destruct l end; [exact I | exact eq_refl].
Qed.

Lemma _check_cold_wave_agree (forecast : list HourlyForecast)
    (threshold : Q) :
  agree (option_rel same_but_environment)
        (_check_cold_wave forecast threshold)
        (_check_cold_wave forecast threshold).
Proof.
  intros w1 w2. unfold _check_cold_wave.
  destruct (filter (fun item => Qltb (temperature item) threshold)
                   (firstn 24 forecast)) as [| p1 rest].
  - exact I.
  - destruct (3 <=? List.length (p1 :: rest))%nat; [exact eq_refl | exact I].
Qed.

Lemma _check_high_humidity_agree (temperature humidity threshold : Q) :
  agree (option_rel same_but_environment)
        (_check_high_humidity temperature humidity threshold)
        (_check_high_humidity temperature humidity threshold).
Proof.
  intros w1 w2. unfold _check_high_humidity.
  destruct (Qltb threshold humidity); [exact eq_refl | exact I].
Qed.

Lemma append_if_Forall2 {A} (R : A -> A -> Prop) (o1 o2 : option A)
    (l1 l2 : list A) :
  option_rel R o1 o2 -> Forall2 R l1 l2 ->
  Forall2 R (append_if o1 l1) (append_if o2 l2).
Proof.
  intros Ho Hl. destruct o1 as [a1 | ], o2 as [a2 | ]; simpl in *;
    try contradiction; [ | exact Hl].
  apply Forall2_app; [exact Hl | ]. constructor; [exact Ho | constructor].
Qed.

Lemma personalize_same (user_type : string) (a1 a2 : Alert) :
  same_but_environment a1 a2 ->
  same_but_environment (personalize user_type a1) (personalize user_type a2).
Proof.
  unfold same_but_environment, input_determined, personalize. simpl.
  intros [= Ht Hs Hti Hm Hr Hst Hen Hack].
  rewrite Ht in *. rewrite Hs, Hti, Hm, Hr, Hst, Hen, Hack. reflexivity.
Qed.

Lemma insert_Forall2 {A} (R : A -> A -> Prop) (before : A -> A -> bool)
    (x1 x2 : A) (l1 l2 : list A) :
  (forall y1 y2 z1 z2, R y1 y2 -> R z1 z2 -> before y1 z1 = before y2 z2) ->
  R x1 x2 -> Forall2 R l1 l2 ->
  Forall2 R (Py.insert before x1 l1) (Py.insert before x2 l2).
Proof.
  intros Hb Hx Hl. induction Hl as [| y1 y2 r1 r2 Hy Hr IH]; simpl.
  - constructor; [exact Hx | constructor].
  - rewrite (Hb y1 y2 x1 x2 Hy Hx). destruct (before y2 x2).
    + constructor; assumption.
    + constructor; [exact Hx | constructor; assumption].
Qed.

Lemma sorted_Forall2 {A} (R : A -> A -> Prop) (before : A -> A -> bool)
    (l1 l2 : list A) :
  (forall y1 y2 z1 z2, R y1 y2 -> R z1 z2 -> before y1 z1 = before y2 z2) ->
  Forall2 R l1 l2 ->
  Forall2 R (Py.sorted before l1) (Py.sorted before l2).
Proof.
  intros Hb Hl. induction Hl as [| x1 x2 r1 r2 Hx Hr IH]; simpl.
  - constructor.
  - apply insert_Forall2; assumption.
Qed.

Lemma check_alerts_agree (hourly_forecast : list HourlyForecast)
    (current_temp current_humidity current_wind : Q) (user_type : string)
    (custom_thresholds : option CustomThresholds) :
  agree (Forall2 same_but_environment)
        (check_alerts hourly_forecast current_temp current_humidity
                      current_wind user_type custom_thresholds)
        (check_alerts hourly_forecast current_temp current_humidity
                      current_wind user_type custom_thresholds).
Proof.
  unfold check_alerts.
  eapply agree_bind; [apply _check_heatwave_agree | intros o1 o1' H1].
  eapply agree_bind; [apply _check_heavy_rain_agree | intros o2 o2' H2].
  eapply agree_bind; [apply _check_storm_agree | intros o3 o3' H3].
  eapply agree_bind; [apply _check_cold_wave_agree | intros o4 o4' H4].
  eapply agree_bind; [apply _check_high_humidity_agree | intros o5 o5' H5].
  apply agree_ret. rewrite !_personalize_alerts_map.
  unfold _prioritize_alerts. apply sorted_Forall2.
  - intros y1 y2 z1 z2 Hy Hz.
    unfold same_but_environment, input_determined in Hy, Hz.
    injection Hy as _ Hy _ _ _ _ _ _. injection Hz as _ Hz _ _ _ _ _ _.
    rewrite Hy, Hz. reflexivity.
  - assert (Hl : Forall2 same_but_environment
                   (append_if o5 (append_if o4 (append_if o3 (append_if o2
                      (append_if o1 [])))))
                   (append_if o5' (append_if o4' (append_if o3'
                      (append_if o2' (append_if o1' [])))))).
    { repeat (apply append_if_Forall2; [assumption | ]). constructor. }
    induction Hl as [| a1 a2 r1 r2 Ha Hr IH]; simpl; constructor.
    + apply personalize_same, Ha.
    + exact IH.
Qed.

(** C4 (as stated). Two calls with the same inputs do not return the
    same list: the ids come from [uuid.uuid4()]. *)
Lemma check_alerts_not_a_function_of_inputs :
  ~ (forall (hourly_forecast : list HourlyForecast)
            (current_temp current_humidity current_wind : Q)
            (user_type : string)
            (custom_thresholds : option CustomThresholds)
            (w1 w2 : World),
       result (check_alerts hourly_forecast current_temp current_humidity
                            current_wind user_type custom_thresholds w1)
       = result (check_alerts hourly_forecast current_temp current_humidity
                              current_wind user_type custom_thresholds w2)).
Proof.
  intro H.
  specialize (H Examples.mixed_day 30%Q 90%Q 10%Q "STUDENT"%string None
                Examples.world_a Examples.world_b).
  apply (f_equal (fun r => match r with
                           | inr (a :: _) => id a
                           | _ => ""%string
                           end)) in H.
  vm_compute in H. discriminate H.
Qed.

(** C4 (amended). Two calls of [check_alerts] with the same forecast,
    current readings, user type and thresholds end the same way, raising
    the same exception or returning lists of the same length whose alerts
    agree, position by position, in type, severity, title, message,
    recommendations, end time, acknowledged flag and, for heatwave,
    heavy-rain and cold-wave alerts, start time.  The id, [created_at]
    and the start time of storm and humidity alerts are read from
    [uuid4()] and [datetime.now()]. *)
Theorem check_alerts_deterministic_but_environment :
  forall (hourly_forecast : list HourlyForecast)
         (current_temp current_humidity current_wind : Q)
         (user_type : string) (custom_thresholds : option CustomThresholds)
         (w1 w2 : World),
    match
      result (check_alerts hourly_forecast current_temp current_humidity
                           current_wind user_type custom_thresholds w1),
      result (check_alerts hourly_forecast current_temp current_humidity
                           current_wind user_type custom_thresholds w2)
    with
    | inr alerts1, inr alerts2 =>
        Forall2 same_but_environment alerts1 alerts2
    | inl e1, inl e2 => e1 = e2
    | _, _ => False
    end.
Proof.
  intros f ct ch cw ut th w1 w2.
  apply agree_result, check_alerts_agree.
Qed.

End Determinism.

(** ** Facts on the real-number built-ins *)

Section PyRFacts.

Import PyR.
Local Open Scope R_scope.

Lemma Rltb_lt (x y : R) : Rltb x y = true <-> x < y.
Proof.
  unfold Rltb. destruct (Rlt_dec x y); split; auto; discriminate.
Qed.

Lemma Rltb_ge (x y : R) : Rltb x y = false <-> y <= x.
Proof.
  unfold Rltb. destruct (Rlt_dec x y); split; auto; try discriminate; lra.
Qed.

Lemma Rleb_le (x y : R) : Rleb x y = true <-> x <= y.
Proof.
  unfold Rleb. destruct (Rle_dec x y); split; auto; discriminate.
Qed.

Lemma Rleb_gt (x y : R) : Rleb x y = false <-> y < x.
Proof.
  unfold Rleb. destruct (Rle_dec x y); split; auto; try discriminate; lra.
Qed.











Lemma asin_nonneg (y : R) : 0 <= y -> 0 <= asin y.
Proof.
  intro Hy. unfold asin. pose proof PI_RGT_0 as Hpi.
  destruct (Rle_dec y (-1)); [lra | ].
  destruct (Rle_dec 1 y); [lra | ].
  assert (Hs : 0 < sqrt (1 - y²)).
  { apply sqrt_lt_R0. unfold Rsqr. nra. }
  destruct (Req_dec y 0) as [-> | Hne].
  - replace (0 / sqrt (1 - 0²)) with 0 by (unfold Rdiv; ring).
    rewrite atan_0. lra.
  - rewrite <- atan_0. left. apply atan_increasing.
    apply Rdiv_lt_0_compat; lra.
Qed.

End PyRFacts.

(** Case analysis on every real comparison in sight. *)
Ltac r_cases :=
  repeat match goal with
  | |- context [PyR.Rltb ?x ?y] =>
      let E := fresh "E" in
      destruct (PyR.Rltb x y) eqn:E;
      [apply Rltb_lt in E | apply Rltb_ge in E];
      cbn [orb andb negb]
  | |- context [PyR.Rleb ?x ?y] =>
      let E := fresh "E" in
      destruct (PyR.Rleb x y) eqn:E;
      [apply Rleb_le in E | apply Rleb_gt in E];
      cbn [orb andb negb]
  end.

(** ** Rounding to doubles *)




Section DoubleFacts.

Import PyR.
Local Open Scope R_scope.



















End DoubleFacts.

(** ** The earthquake monitor *)

Section EarthquakeFacts.

Import PyR EarthquakeMonitor.
Local Open Scope R_scope.

Lemma get_severity_cases (magnitude distance : R) :
  (critical_range magnitude distance
   /\ get_severity magnitude distance = "critical"%string)
  \/ (~ critical_range magnitude distance
      /\ warning_range magnitude distance
      /\ get_severity magnitude distance = "warning"%string)
  \/ (~ critical_range magnitude distance
      /\ ~ warning_range magnitude distance
      /\ get_severity magnitude distance = "info"%string).
Proof.
  unfold get_severity, critical_range, warning_range.
  set (radius := get_impact_radius magnitude).
  r_cases;
    first
      [ left; split; [ | reflexivity];
        solve [left; split; lra | right; split; lra]
      | right; left; split; [ | split; [ | reflexivity]];
        [ intros [[? ?] | [? ?]]; lra
        | solve [left; split; lra | right; left; split; lra
                | right; right; lra] ]
      | right; right; split; [ | split; [ | reflexivity]];
        [ intros [[? ?] | [? ?]]; lra
        | intros [[? ?] | [[? ?] | ?]]; lra ] ].
Qed.

(** C6. An earthquake of magnitude m at distance d is "critical" exactly
    when (m >= 7.0 and d < 100) or (m >= 6.0 and d < 50); failing that it
    is "warning" exactly when (m >= 6.5 and d < 200) or (m >= 5.5 and
    d < 100) or d < impact_radius(m); failing both it is "info".  The
    alert built for an event in range carries this severity.  Magnitude
    7.2 at 80 km is "critical", at 150 km "warning". *)
Theorem get_severity_spec :
  forall magnitude distance : R,
    let critical :=
      (7.0 <= magnitude /\ distance < 100)
      \/ (6.0 <= magnitude /\ distance < 50) in
    let warning :=
      (6.5 <= magnitude /\ distance < 200)
      \/ (5.5 <= magnitude /\ distance < 100)
      \/ distance < get_impact_radius magnitude in
    (get_severity magnitude distance = "critical"%string <-> critical) /\
    (get_severity magnitude distance = "warning"%string
     <-> ~ critical /\ warning) /\
    (get_severity magnitude distance = "info"%string
     <-> ~ critical /\ ~ warning) /\
    (forall float_repr fromtimestamp_isoformat user_type max_distance_km eq,
       option_map severity
         (earthquake_alert float_repr fromtimestamp_isoformat user_type
                           max_distance_km eq distance)
       = if Rleb distance
                 (max (get_impact_radius (eq_magnitude eq)) max_distance_km)
         then Some (get_severity (eq_magnitude eq) distance)
         else None) /\
    get_severity 7.2 80 = "critical"%string /\
    get_severity 7.2 150 = "warning"%string.
Proof.
  intros magnitude distance critical warning.
  change critical with (critical_range magnitude distance).
  change warning with (warning_range magnitude distance).
  clear critical warning.
  split; [ | split; [ | split; [ | split; [ | split]]]].
  - destruct (get_severity_cases magnitude distance)
      as [[Hc E] | [(Hc & Hw & E) | (Hc & Hw & E)]];
      rewrite E; split; intro H;
      try reflexivity; try discriminate H; tauto.
  - destruct (get_severity_cases magnitude distance)
      as [[Hc E] | [(Hc & Hw & E) | (Hc & Hw & E)]];
      rewrite E; split; intro H;
      try reflexivity; try discriminate H; tauto.
  - destruct (get_severity_cases magnitude distance)
      as [[Hc E] | [(Hc & Hw & E) | (Hc & Hw & E)]];
      rewrite E; split; intro H;
      try reflexivity; try discriminate H; tauto.
  - intros fr iso ut maxd eq. unfold earthquake_alert.
    destruct (Rleb distance _); reflexivity.
  - destruct (get_severity_cases 7.2 80)
      as [[Hc E] | [(Hc & _) | (Hc & _)]]; [exact E | | ];
      exfalso; apply Hc; left; split; lra.
  - destruct (get_severity_cases 7.2 150)
      as [[Hc _] | [(_ & _ & E) | (_ & Hw & _)]]; [ | exact E | ].
    + exfalso. destruct Hc as [[? ?] | [? ?]]; lra.
    + exfalso. apply Hw. left. split; lra.
Qed.

End EarthquakeFacts.

(** ** Distances and the two seismic flows *)

Section SeismicFlowFacts.

Import PyR.
Local Open Scope R_scope.

Lemma calculate_distance_nonneg (lat1 lon1 lat2 lon2 : R) :
  0 <= EarthquakeMonitor.calculate_distance lat1 lon1 lat2 lon2.
Proof.
  unfold EarthquakeMonitor.calculate_distance.
  match goal with |- 0 <= 2 * asin (sqrt ?a) * 6371 =>
    pose proof (asin_nonneg (sqrt a) (sqrt_pos a)) end.
  nra.
Qed.

(** Along the equator, from longitude 0, the distance is the arc. *)
Lemma calculate_distance_equator (lon2 : R) :
  0 <= lon2 <= 180 ->
  EarthquakeMonitor.calculate_distance 0 0 0 lon2 = radians lon2 * 6371.
Proof.
  intros [H0 H180]. pose proof PI_RGT_0 as Hpi.
  unfold EarthquakeMonitor.calculate_distance.
  replace (radians 0) with 0 by (unfold radians; ring).
  replace ((0 - 0) / 2) with 0 by field.
  rewrite sin_0, cos_0.
  set (y := (radians lon2 - 0) / 2).
  assert (Hy : 0 <= y <= PI / 2).
  { unfold y, radians. split; [nra | ].
    assert (lon2 * (PI / 180) <= PI) by nra. lra. }
  replace (0 ^ 2 + 1 * 1 * sin y ^ 2) with (sin y ^ 2) by ring.
  rewrite sqrt_pow2 by (apply sin_ge_0; lra).
  rewrite asin_sin by lra.
  unfold y. field.
Qed.




End SeismicFlowFacts.

(** ** The claims on the seismic flows *)

Section SeismicClaims.

Import PyR.
Local Open Scope R_scope.



















End SeismicClaims.

(** * Further properties *)

(** [q_norm] for the hypotheses as well. *)
Ltac q_norm_all :=
  unfold Qdiv in *;
  repeat match goal with
  | |- context [Qinv (Qmake ?n ?d)] =>
      let v := eval compute in (Qinv (Qmake n d)) in
      change (Qinv (Qmake n d)) with v in *
  | _ : context [Qinv (Qmake ?n ?d)] |- _ =>
      let v := eval compute in (Qinv (Qmake n d)) in
      change (Qinv (Qmake n d)) with v in *
  end.

(** ** The risk calculator *)

Section RiskCalculatorMore.

Import Py RiskCalculator.
Local Open Scope Q_scope.

(** X1. The temperature risk lies in [0,100]; it is 0 exactly in the
    comfort band from 15 to 25 degrees and 100 exactly at 45 degrees and
    above or at -5 degrees and below. *)
Theorem calculate_temperature_risk_profile :
  forall temp : Q,
    0 <= calculate_temperature_risk temp <= 100 /\
    (calculate_temperature_risk temp == 0 <-> 15 <= temp <= 25) /\
    (calculate_temperature_risk temp == 100 <-> temp <= -5 \/ 45 <= temp).
Proof.
  intro temp. unfold calculate_temperature_risk, min.
  q_cases; q_norm_all;
    (split; [lra | split; split; intro H;
       try lra;
       try (destruct H; lra);
       try (destruct (Qlt_le_dec temp 0); [left | right]; lra)]).
Qed.

(** X2. With non-negative precipitation and wind speed every sub-score
    lies in [0,100] and the closing clamp cuts nothing: the risk score is
    the weighted sum with weights 0.30, 0.25, 0.25, 0.10, 0.10. *)
Theorem calculate_risk_score_weighted_sum :
  forall temperature precipitation wind_speed humidity visibility : Q,
    0 <= precipitation -> 0 <= wind_speed ->
    0 <= calculate_precipitation_risk precipitation <= 100 /\
    0 <= calculate_wind_risk wind_speed <= 100 /\
    0 <= calculate_humidity_risk humidity temperature <= 100 /\
    0 <= calculate_visibility_risk visibility <= 100 /\
    calculate_risk_score temperature precipitation wind_speed humidity
                         visibility
    == calculate_temperature_risk temperature * 0.30
       + calculate_precipitation_risk precipitation * 0.25
       + calculate_wind_risk wind_speed * 0.25
       + calculate_humidity_risk humidity temperature * 0.10
       + calculate_visibility_risk visibility * 0.10.
Proof.
  intros t p w h v Hp Hw.
  destruct (calculate_temperature_risk_profile t) as (Ht & _).
  assert (Hpr : 0 <= calculate_precipitation_risk p <= 100).
  { unfold calculate_precipitation_risk, min. q_cases; q_norm_all; lra. }
  assert (Hwr : 0 <= calculate_wind_risk w <= 100).
  { unfold calculate_wind_risk, min. q_cases; q_norm_all; lra. }
  assert (Hhr : 0 <= calculate_humidity_risk h t <= 100).
  { unfold calculate_humidity_risk, min. q_cases; q_norm_all; lra. }
  assert (Hvr : 0 <= calculate_visibility_risk v <= 100).
  { unfold calculate_visibility_risk, min. q_cases; q_norm_all; lra. }
  repeat (split; [assumption | ]).
  unfold calculate_risk_score.
  set (tr := calculate_temperature_risk t) in *.
  set (pr := calculate_precipitation_risk p) in *.
  set (wr := calculate_wind_risk w) in *.
  set (hr := calculate_humidity_risk h t) in *.
  set (vr := calculate_visibility_risk v) in *.
  unfold min, max. q_cases; lra.
Qed.

Lemma calculate_risk_score_weighted_sum_witness :
  calculate_risk_score 30 10 20 70 5
  == calculate_temperature_risk 30 * 0.30
     + calculate_precipitation_risk 10 * 0.25
     + calculate_wind_risk 20 * 0.25
     + calculate_humidity_risk 70 30 * 0.10
     + calculate_visibility_risk 5 * 0.10.
Proof.
  apply (calculate_risk_score_weighted_sum 30 10 20 70 5);
    vm_compute; discriminate.
Defined.

Lemma get_risk_level_cases (score : Q) :
  (score <= 20 /\ get_risk_level score = "LOW"%string)
  \/ (20 < score <= 40 /\ get_risk_level score = "MODERATE"%string)
  \/ (40 < score <= 60 /\ get_risk_level score = "MEDIUM"%string)
  \/ (60 < score <= 80 /\ get_risk_level score = "HIGH"%string)
  \/ (80 < score /\ get_risk_level score = "SEVERE"%string).
Proof.
  unfold get_risk_level. q_cases.
  - left. split; [lra | reflexivity].
  - right. left. split; [lra | reflexivity].
  - right. right. left. split; [lra | reflexivity].
  - right. right. right. left. split; [lra | reflexivity].
  - right. right. right. right. split; [lra | reflexivity].
Qed.

(** X3. The risk level never goes down when the score goes up, and the
    bounds are inclusive on the lower level: LOW up to 20, MODERATE up to
    40, MEDIUM up to 60, HIGH up to 80, SEVERE above 80. *)
Theorem get_risk_level_monotone :
  forall score score' : Q,
    score <= score' ->
    (risk_level_rank (get_risk_level score)
     <= risk_level_rank (get_risk_level score'))%Z /\
    (get_risk_level score = "LOW"%string <-> score <= 20) /\
    (get_risk_level score = "SEVERE"%string <-> 80 < score) /\
    (get_risk_level score = "HIGH"%string <-> 60 < score <= 80).
Proof.
  intros s s' Hle.
  destruct (get_risk_level_cases s)
    as [[H E] | [[H E] | [[H E] | [[H E] | [H E]]]]];
    rewrite E;
    (split; [
       destruct (get_risk_level_cases s')
         as [[H' E'] | [[H' E'] | [[H' E'] | [[H' E'] | [H' E']]]]];
       rewrite E'; try (vm_compute; discriminate); exfalso; lra
     | split; [ | split]; split; intro G;
       try reflexivity; try discriminate G; try lra ]).
Qed.

Lemma get_risk_level_monotone_witness :
  (risk_level_rank (get_risk_level 20)
   <= risk_level_rank (get_risk_level (2001 # 100)))%Z.
Proof.
  assert (H : 20 <= 2001 # 100) by (vm_compute; discriminate).
  destruct (get_risk_level_monotone 20 (2001 # 100) H) as [Hrank _].
  exact Hrank.
Defined.

End RiskCalculatorMore.

(** ** The alert engine: severities, cold waves, the shape of the result *)

Section AlertEngineMore.

Import Py Models Env AlertEngine.
Local Open Scope Q_scope.

(** X4. A higher reading never gives a lower severity: the heatwave, rain
    and wind severities do not decrease when the temperature, rainfall or
    wind speed grows, and the cold-wave severity does not decrease when
    the temperature drops. *)
Theorem severity_helpers_monotone :
  forall x y : Q,
    x <= y ->
    (severity_order (_get_heatwave_severity x)
     <= severity_order (_get_heatwave_severity y))%Z /\
    (severity_order (_get_rain_severity x)
     <= severity_order (_get_rain_severity y))%Z /\
    (severity_order (_get_wind_severity x)
     <= severity_order (_get_wind_severity y))%Z /\
    (severity_order (_get_cold_severity y)
     <= severity_order (_get_cold_severity x))%Z.
Proof.
  intros x y Hle.
  unfold _get_heatwave_severity, _get_rain_severity, _get_wind_severity,
         _get_cold_severity.
  repeat split; q_cases; cbn [severity_order];
    first [lia | exfalso; lra].
Qed.

Lemma severity_helpers_monotone_witness :
  (severity_order (_get_heatwave_severity 39)
   <= severity_order (_get_heatwave_severity 43))%Z /\
  (severity_order (_get_cold_severity 1)
   <= severity_order (_get_cold_severity (-6)))%Z.
Proof.
  assert (H1 : 39 <= 43) by (vm_compute; discriminate).
  assert (H2 : -6 <= 1) by (vm_compute; discriminate).
  destruct (severity_helpers_monotone 39 43 H1) as (Hh & _).
  destruct (severity_helpers_monotone (-6) 1 H2) as (_ & _ & _ & Hc).
  split; assumption.
Defined.

Lemma min_from_In (best : Q) (l : list Q) : In (min_from best l) (best :: l).
Proof.
  revert best. induction l as [| x r IH]; intro best; simpl.
  - left. reflexivity.
  - destruct (IH (if Qltb x best then x else best)) as [H | H].
    + destruct (Qltb x best); [right; left | left]; exact H.
    + right. right. exact H.
Qed.

Lemma min_from_lower (best : Q) (l : list Q) :
  Forall (fun x => min_from best l <= x) (best :: l).
Proof.
  revert best. induction l as [| x r IH]; intro best; simpl.
  - repeat constructor. lra.
  - specialize (IH (if Qltb x best then x else best)).
    apply Forall_cons_iff in IH. destruct IH as [Hb Hr].
    destruct (Qltb x best) eqn:E;
      [apply Qltb_lt in E | apply Qltb_ge in E];
      repeat constructor; try assumption; lra.
Qed.

Lemma _get_cold_severity_cases (t : Q) :
  (t < -5 -> _get_cold_severity t = SEVERE) /\
  (-5 <= t -> t < 0 -> _get_cold_severity t = HIGH) /\
  (0 <= t -> _get_cold_severity t = MODERATE).
Proof.
  unfold _get_cold_severity.
  repeat split; intros; q_cases; try reflexivity; lra.
Qed.

(** X5. The cold-wave detector keeps, among the first 24 forecast points,
    those colder than the threshold, at any hour of the day.  It yields an
    alert exactly when at least three are kept; the severity is SEVERE
    when the lowest kept temperature is below -5, HIGH when it is below 0,
    MODERATE otherwise, and the alert runs from the first kept point to
    the last. *)
Theorem check_cold_wave_spec :
  forall (forecast : list HourlyForecast) (threshold : Q) (w : World),
    let cold :=
      filter (fun item => Qltb (temperature item) threshold)
             (firstn 24 forecast) in
    (forall p, In p cold <->
               In p (firstn 24 forecast) /\ temperature p < threshold) /\
    ((List.length cold < 3)%nat ->
       result (_check_cold_wave forecast threshold w) = inr None) /\
    ((3 <= List.length cold)%nat ->
       exists a first_p min_temp,
         result (_check_cold_wave forecast threshold w) = inr (Some a) /\
         type a = COLD_WAVE /\
         hd_error cold = Some first_p /\
         In min_temp (map temperature cold) /\
         Forall (fun t => min_temp <= t) (map temperature cold) /\
         (min_temp < -5 -> severity a = SEVERE) /\
         (-5 <= min_temp -> min_temp < 0 -> severity a = HIGH) /\
         (0 <= min_temp -> severity a = MODERATE) /\
         start_time a = Some (timestamp first_p) /\
         end_time a = Some (timestamp (List.last cold first_p))).
Proof.
  intros forecast threshold w cold.
  split; [ | split].
  - intro p. unfold cold. rewrite filter_In, Qltb_lt. tauto.
  - intro Hlt. unfold _check_cold_wave. fold cold.
    apply Nat.leb_gt in Hlt. rewrite Hlt. reflexivity.
  - intro Hge. unfold _check_cold_wave. fold cold.
    apply Nat.leb_le in Hge. rewrite Hge.
    destruct cold as [| p1 rest] eqn:Ec; [simpl in Hge; discriminate | ].
    destruct (_get_cold_severity_cases
                (min_from (temperature p1) (map temperature rest)))
      as (Hsev & Hhigh & Hmod).
    eexists _, p1, (min_from (temperature p1) (map temperature rest)).
    split; [reflexivity | ].
    cbn [map hd_error severity type start_time end_time].
    repeat split; try assumption.
    + apply min_from_In.
    + apply min_from_lower.
    + destruct rest; reflexivity.
Qed.

Lemma check_cold_wave_spec_witness :
  exists a,
    result (_check_cold_wave
              [Examples.hourly_point 2 (-6) 0 0;
               Examples.hourly_point 3 1 0 0;
               Examples.hourly_point 23 4 0 0] 5 Examples.world_a)
    = inr (Some a) /\
    severity a = SEVERE /\
    start_time a = Some (mk_datetime 2024 6 1 2 0 0) /\
    end_time a = Some (mk_datetime 2024 6 1 23 0 0).
Proof.
  destruct (check_cold_wave_spec
              [Examples.hourly_point 2 (-6) 0 0;
               Examples.hourly_point 3 1 0 0;
               Examples.hourly_point 23 4 0 0] 5 Examples.world_a)
    as (_ & _ & H).
  destruct (H ltac:(vm_compute; lia))
    as (a & p & m & E & _ & Ep & Hin & Hlow & Hsev & _ & _ & Hst & Hen).
  exists a. split; [exact E | ].
  vm_compute in Ep. injection Ep as <-.
  split; [ | split; [exact Hst | exact Hen]].
  apply Hsev.
  vm_compute in Hlow. apply Forall_cons_iff in Hlow.
  destruct Hlow as [Hlow _]. 
  apply Qle_lt_trans with (y := -6); [exact Hlow | vm_compute; reflexivity].
Defined.

Lemma detector_order_NoDup (pre : list Alert) :
  StronglySorted detector_order pre -> NoDup (map type pre).
Proof.
  induction 1 as [| a r Hr IH Ha]; simpl; constructor; [ | exact IH].
  intro Hin. apply in_map_iff in Hin. destruct Hin as (b & Eb & Hb).
  pose proof (proj1 (Forall_forall _ _) Ha b Hb) as Hlt.
  unfold detector_order in Hlt. rewrite Eb in Hlt. lia.
Qed.

(** X6. [check_alerts] returns at most one alert of each type, hence at
    most five alerts. *)
Theorem check_alerts_one_per_type :
  forall (hourly_forecast : list HourlyForecast)
         (current_temp current_humidity current_wind : Q)
         (user_type : string) (custom_thresholds : option CustomThresholds)
         (w : World) (alerts : list Alert),
    result (check_alerts hourly_forecast current_temp current_humidity
                         current_wind user_type custom_thresholds w)
    = inr alerts ->
    NoDup (map type alerts) /\ (List.length alerts <= 5)%nat.
Proof.
  intros f ct ch cw ut th w alerts E.
  apply check_alerts_result in E.
  destruct E as (_ & pre & (Hord & _) & ->).
  assert (Hnd : NoDup (map type
                         (_prioritize_alerts (map (personalize ut) pre)))).
  { assert (Et : map type (map (personalize ut) pre) = map type pre).
    { rewrite map_map. apply map_ext. intro a. apply personalize_type. }
    apply (Permutation_NoDup (l := map type pre)).
    - rewrite <- Et. apply Permutation_sym, Permutation_map.
      unfold _prioritize_alerts. apply sorted_perm.
    - apply detector_order_NoDup, Hord. }
  split; [exact Hnd | ].
  rewrite <- (length_map type).
  apply (NoDup_incl_length Hnd
           (l' := [HEATWAVE; HEAVY_RAIN; STORM; COLD_WAVE; HIGH_HUMIDITY])).
  intros t _. destruct t; simpl; tauto.
Qed.

Lemma check_alerts_one_per_type_witness :
  NoDup (map type Examples.mixed_day_student) /\
  (List.length Examples.mixed_day_student <= 5)%nat.
Proof.
  apply (check_alerts_one_per_type Examples.mixed_day 30 90 10 "STUDENT"
           None Examples.world_a Examples.mixed_day_student
           run_mixed_day_student).
Defined.

End AlertEngineMore.

(** ** The alert engine: rain, storm, user types, prioritization *)

Section AlertEngineDetectors.

Import Py Models Env AlertEngine.
Local Open Scope Q_scope.

Lemma fold_left_Qplus_le (l : list Q) (a : Q) :
  Forall (fun x => x <= 0) l -> fold_left Qplus l a <= a.
Proof.
  revert a. induction l as [| x r IH]; intros a H; simpl.
  - lra.
  - apply Forall_cons_iff in H. destruct H as [Hx Hr].
    specialize (IH (a + x) Hr). lra.
Qed.

Lemma filter_nil_Forall {A} (f : A -> bool) (l : list A) :
  filter f l = [] -> Forall (fun x => f x = false) l.
Proof.
  induction l as [| x r IH]; simpl; intro H; [constructor | ].
  destruct (f x) eqn:E; [discriminate | ].
  constructor; [exact E | apply IH, H].
Qed.

Lemma _get_rain_severity_cases (t : Q) :
  (150 < t -> _get_rain_severity t = SEVERE) /\
  (100 < t -> t <= 150 -> _get_rain_severity t = HIGH) /\
  (t <= 100 -> _get_rain_severity t = MODERATE).
Proof.
  unfold _get_rain_severity.
  repeat split; intros; q_cases; try reflexivity; lra.
Qed.

Lemma _check_heavy_rain_run (forecast : list HourlyForecast)
    (threshold : Q) (w : World) (p : HourlyForecast)
    (l : list HourlyForecast) :
  firstn 8 forecast = p :: l ->
  let total := sum (map precipitation (p :: l)) in
  let peak := max_from (precipitation p) (map precipitation l) in
  let rainy := filter (fun item => Qltb 0 (precipitation item)) (p :: l) in
  if Qltb threshold total || Qltb 10 peak then
    exists a,
      result (_check_heavy_rain forecast threshold w) = inr (Some a) /\
      type a = HEAVY_RAIN /\
      severity a = _get_rain_severity total /\
      start_time a = option_map timestamp (hd_error rainy) /\
      end_time a = option_map timestamp (last_item rainy)
  else result (_check_heavy_rain forecast threshold w) = inr None.
Proof.
  intros El. cbv zeta. cbn [map].
  assert (Erun : forall c : bool,
    Qltb threshold (sum (precipitation p :: map precipitation l))
    || Qltb 10 (max_from (precipitation p) (map precipitation l)) = c ->
    _check_heavy_rain forecast threshold w
    = (if c
       then Env.bind new_alert_id (fun alert_id =>
              Env.bind
                (build_alert alert_id HEAVY_RAIN
                   (_get_rain_severity
                      (sum (precipitation p :: map precipitation l)))
                   "Heavy Rain Alert"
                   ("Expected rainfall: "
                    ++ format_fixed 1
                         (sum (precipitation p :: map precipitation l))
                    ++ "mm in next 24 hours")%string
                   heavy_rain_recommendations
                   (option_map timestamp
                      (first (filter
                                (fun item => Qltb 0 (precipitation item))
                                (p :: l))))
                   (option_map timestamp
                      (last_item (filter
                                    (fun item => Qltb 0 (precipitation item))
                                    (p :: l)))))
                (fun alert => ret (Some alert)))
       else ret None) w).
  { intros c Ec. unfold _check_heavy_rain. rewrite El.
    unfold bind at 1. cbn [map max_iter lift]. rewrite Ec. reflexivity. }
  match goal with |- if ?c then _ else _ =>
    rewrite (Erun c eq_refl); destruct c end.
  - eexists. split; [reflexivity | ]. repeat split.
  - reflexivity.
Qed.

Lemma fold_left_Qplus_Qeq (l : list Q) (a b : Q) :
  a == b -> fold_left Qplus l a == fold_left Qplus l b.
Proof.
  revert a b. induction l as [| x r IH]; intros a b H; simpl; [exact H | ].
  apply IH. rewrite H. reflexivity.
Qed.

Lemma exact_from_fsum (l : list Q) (a : Q) :
  PyFloat.exact_from a l = true ->
  fold_left (fun s x => PyFloat.fl (s + x)) l a == fold_left Qplus l a.
Proof.
  revert a. induction l as [| x r IH]; intros a H; simpl; [reflexivity | ].
  simpl in H. apply andb_true_iff in H. destruct H as [H Hr].
  apply andb_true_iff in H. destruct H as [_ Hx].
  apply Qeq_bool_iff in Hx.
  rewrite (IH _ Hr). apply fold_left_Qplus_Qeq, Hx.
Qed.

(** Where an addition rounds, the rounded total can pass a threshold that
    the exact total of the same doubles does not reach: the doubles
    nearest to 9.7, 7.5, 8.7, 6.7, 8.8 and 8.6 add up to less than 50, and
    to more than 50 when every addition is rounded. *)
Lemma fsum_rounding_passes_threshold :
  let amounts := map PyFloat.fl [9.7; 7.5; 8.7; 6.7; 8.8; 8.6] in
  PyFloat.exact_sum amounts = false /\
  Qltb 50 (sum amounts) = false /\
  Qltb 50 (PyFloat.fsum amounts) = true.
Proof. vm_compute. repeat split. Qed.

(** X7. On a non-empty forecast the heavy-rain detector looks at the first
    8 points.  Python adds their precipitation amounts as floats; when the
    amounts are doubles and no addition rounds, the total is their exact
    sum in every version of [sum()], and then: the detector yields an
    alert exactly when the total exceeds the threshold or one point
    exceeds 10 mm.  The severity comes from the total alone (SEVERE above
    150, HIGH above 100, else MODERATE), the window runs from the first to
    the last point with precipitation above 0, and with a threshold that
    is not negative an alert always has a window. *)
Theorem check_heavy_rain_spec :
  forall (forecast : list HourlyForecast) (threshold : Q) (w : World),
    forecast <> [] ->
    PyFloat.exact_sum (map precipitation (firstn 8 forecast)) = true ->
    let points := firstn 8 forecast in
    let total := PyFloat.fsum (map precipitation points) in
    let rainy :=
      filter (fun item => Qltb 0 (precipitation item)) points in
    total == sum (map precipitation points) /\
    exists peak,
      In peak (map precipitation points) /\
      Forall (fun x => x <= peak) (map precipitation points) /\
      (total <= threshold -> peak <= 10 ->
         result (_check_heavy_rain forecast threshold w) = inr None) /\
      (threshold < total \/ 10 < peak ->
         exists a,
           result (_check_heavy_rain forecast threshold w) = inr (Some a) /\
           type a = HEAVY_RAIN /\
           (150 < total -> severity a = SEVERE) /\
           (100 < total -> total <= 150 -> severity a = HIGH) /\
           (total <= 100 -> severity a = MODERATE) /\
           start_time a = option_map timestamp (hd_error rainy) /\
           end_time a = option_map timestamp (last_item rainy) /\
           (0 <= threshold ->
              start_time a <> None /\ end_time a <> None)).
Proof.
  intros forecast threshold w Hne Hexact points ftotal rainy.
  assert (Eq : ftotal == sum (map precipitation points)).
  { apply exact_from_fsum, Hexact. }
  split; [exact Eq | ].
  set (total := sum (map precipitation points)) in *.
  clearbody ftotal. clear Hexact.
  revert total Eq. subst points rainy.
  destruct (firstn 8 forecast) as [| p l] eqn:El.
  { destruct forecast; [contradiction | discriminate]. }
  intros total Eq.
  set (rainy := filter (fun item => Qltb 0 (precipitation item)) (p :: l)).
  pose proof (_check_heavy_rain_run forecast threshold w p l El) as Hrun.
  cbv zeta in Hrun. fold total in Hrun. fold rainy in Hrun.
  set (peak := max_from (precipitation p) (map precipitation l)) in *.
  exists peak.
  split; [apply max_from_In | ].
  split; [apply max_from_upper | ].
  split.
  - intros Ht Hp. rewrite Eq in Ht.
    assert (E : Qltb threshold total || Qltb 10 peak = false).
    { apply orb_false_iff. split; apply Qltb_ge; assumption. }
    rewrite E in Hrun. exact Hrun.
  - intro Hfire. rewrite Eq in Hfire.
    assert (E : Qltb threshold total || Qltb 10 peak = true).
    { apply orb_true_iff.
      destruct Hfire; [left | right]; apply Qltb_lt; assumption. }
    rewrite E in Hrun.
    destruct Hrun as (a & Ea & Ht & Hs & Hst & Hen).
    destruct (_get_rain_severity_cases total) as (Hsev & Hhigh & Hmod).
    exists a. rewrite Hs, Eq.
    repeat (split; [assumption | ]).
    intro Hth.
    assert (Hr : rainy <> []).
    { intro Enil. apply filter_nil_Forall in Enil.
      assert (Hdry : Forall (fun x => x <= 0) (map precipitation (p :: l))).
      { apply Forall_map. revert Enil. apply Forall_impl.
        intros item Hi. apply Qltb_ge in Hi. exact Hi. }
      destruct Hfire as [Hf | Hf].
      - pose proof (fold_left_Qplus_le _ 0 Hdry) as Hsum.
        fold (sum (map precipitation (p :: l))) in Hsum.
        fold total in Hsum. lra.
      - pose proof (max_from_In (precipitation p) (map precipitation l))
          as Hin.
        fold peak in Hin.
        pose proof (proj1 (Forall_forall _ _) Hdry peak Hin) as Hle.
        simpl in Hle. lra. }
    rewrite Hst, Hen.
    destruct rainy as [| r1 rs]; [contradiction | ].
    split; discriminate.
Qed.

Lemma check_heavy_rain_spec_witness :
  PyFloat.exact_sum (map precipitation (firstn 8 Examples.mixed_day))
  = true /\
  exists a,
    result (_check_heavy_rain Examples.mixed_day 50 Examples.world_a)
    = inr (Some a) /\
    severity a = HIGH /\
    start_time a = Some (mk_datetime 2024 6 1 10 0 0) /\
    end_time a = Some (mk_datetime 2024 6 1 12 0 0).
Proof.
  assert (Hexact :
    PyFloat.exact_sum (map precipitation (firstn 8 Examples.mixed_day))
    = true) by (vm_compute; reflexivity).
  split; [exact Hexact | ].
  destruct (check_heavy_rain_spec Examples.mixed_day 50 Examples.world_a
              ltac:(discriminate) Hexact)
    as (_ & peak & _ & _ & _ & H).
  destruct H as (a & E & _ & _ & Hhigh & _ & Hst & Hen & _).
  { left. vm_compute. reflexivity. }
  exists a. split; [exact E | ].
  split; [ | split; [exact Hst | exact Hen]].
  apply Hhigh; vm_compute; [reflexivity | discriminate].
Defined.

Lemma _get_wind_severity_cases (v : Q) :
  (100 < v -> _get_wind_severity v = SEVERE) /\
  (80 < v -> v <= 100 -> _get_wind_severity v = HIGH) /\
  (v <= 80 -> _get_wind_severity v = MODERATE).
Proof.
  unfold _get_wind_severity.
  repeat split; intros; q_cases; try reflexivity; lra.
Qed.

(** The wind speeds kept by [_check_storm] are the readings above the
    threshold, the current one first. *)
Lemma high_wind_periods_speeds (forecast : list HourlyForecast)
    (current_wind threshold : Q) :
  map snd
    ((if Qltb threshold current_wind
      then [(inl "current"%string, current_wind)] else [])
     ++ map (fun item => (@inr string datetime (timestamp item),
                          wind_speed item))
          (filter (fun item => Qltb threshold (wind_speed item))
                  (firstn 8 forecast)))
  = filter (Qltb threshold)
           (current_wind :: map wind_speed (firstn 8 forecast)).
Proof.
  rewrite map_app, map_map. cbn [filter snd].
  assert (E : map (fun item : HourlyForecast => wind_speed item)
                (filter (fun item => Qltb threshold (wind_speed item))
                        (firstn 8 forecast))
              = filter (Qltb threshold)
                       (map wind_speed (firstn 8 forecast))).
  { induction (firstn 8 forecast) as [| x r IH]; simpl; [reflexivity | ].
    destruct (Qltb threshold (wind_speed x)); simpl; rewrite IH;
      reflexivity. }
  cbn [snd]. rewrite E.
  destruct (Qltb threshold current_wind); reflexivity.
Qed.

(** X8. The storm detector compares the current wind and the wind of the
    first 8 forecast points with the threshold.  When none exceeds it
    there is no alert; when one does there is a STORM alert whose severity
    is that of the greatest of these readings (SEVERE above 100, HIGH
    above 80, else MODERATE), whose start is the clock reading taken when
    the alert is built, and which has no end time. *)
Theorem check_storm_spec :
  forall (forecast : list HourlyForecast) (current_wind threshold : Q)
         (w : World),
    let winds := current_wind :: map wind_speed (firstn 8 forecast) in
    (Forall (fun v => v <= threshold) winds ->
       result (_check_storm forecast current_wind threshold w) = inr None) /\
    (Exists (fun v => threshold < v) winds ->
       exists a peak,
         result (_check_storm forecast current_wind threshold w)
         = inr (Some a) /\
         type a = STORM /\
         In peak winds /\
         Forall (fun v => v <= peak) winds /\
         (100 < peak -> severity a = SEVERE) /\
         (80 < peak -> peak <= 100 -> severity a = HIGH) /\
         (peak <= 80 -> severity a = MODERATE) /\
         start_time a = Some (clock w (clock_reads w)) /\
         end_time a = None).
Proof.
  intros forecast current_wind threshold w winds.
  pose proof (high_wind_periods_speeds forecast current_wind threshold)
    as Espeeds.
  fold winds in Espeeds.
  unfold _check_storm.
  destruct ((if Qltb threshold current_wind
             then [(inl "current"%string, current_wind)] else [])
            ++ map (fun item => (inr (timestamp item), wind_speed item))
                 (filter (fun item => Qltb threshold (wind_speed item))
                         (firstn 8 forecast)))%list as [| hp rest].
  - split; [reflexivity | ].
    intro Hex. exfalso. apply Exists_exists in Hex.
    destruct Hex as (v & Hin & Hv).
    assert (Hf : In v (filter (Qltb threshold) winds)).
    { apply filter_In. split; [exact Hin | apply Qltb_lt, Hv]. }
    rewrite <- Espeeds in Hf. exact Hf.
  - cbn [map] in Espeeds. split.
    + intro Hall. exfalso.
      assert (Hin : In (snd hp) (filter (Qltb threshold) winds)).
      { rewrite <- Espeeds. left. reflexivity. }
      apply filter_In in Hin. destruct Hin as [Hin Hv].
      apply Qltb_lt in Hv.
      pose proof (proj1 (Forall_forall _ _) Hall _ Hin) as Hle.
      simpl in Hle. lra.
    + intros _.
      set (peak := max_from (snd hp) (map snd rest)).
      assert (Hpin : In peak (filter (Qltb threshold) winds)).
      { rewrite <- Espeeds. apply max_from_In. }
      apply filter_In in Hpin. destruct Hpin as [Hpin Hpv].
      apply Qltb_lt in Hpv.
      assert (Hup : Forall (fun v => v <= peak) winds).
      { apply Forall_forall. intros v Hv.
        destruct (Qltb threshold v) eqn:Ev.
        - assert (Hf : In v (filter (Qltb threshold) winds))
            by (apply filter_In; split; assumption).
          rewrite <- Espeeds in Hf.
          exact (proj1 (Forall_forall _ _)
                   (max_from_upper (snd hp) (map snd rest)) v Hf).
        - apply Qltb_ge in Ev. lra. }
      destruct (_get_wind_severity_cases peak) as (Hsev & Hhigh & Hmod).
      eexists _, peak. split; [reflexivity | ].
      cbn [type severity start_time end_time map].
      fold peak.
      repeat split; assumption.
Qed.

Lemma check_storm_spec_witness :
  exists a,
    result (_check_storm Examples.mixed_day 10 60 Examples.world_a)
    = inr (Some a) /\
    severity a = HIGH /\ end_time a = None.
Proof.
  destruct (check_storm_spec Examples.mixed_day 10 60 Examples.world_a)
    as (_ & H).
  destruct H as (a & peak & E & _ & Hin & Hup & _ & Hhigh & _ & _ & Hen).
  { apply Exists_exists. exists 90.
    split; [vm_compute; tauto | vm_compute; reflexivity]. }
  exists a. split; [exact E | split; [ | exact Hen]].
  apply Hhigh.
  - pose proof (proj1 (Forall_forall _ _) Hup 90
                  ltac:(vm_compute; tauto)) as H90.
    simpl in H90. lra.
  - vm_compute in Hin.
    destruct Hin as [<- | [<- | [<- | [<- | [<- | []]]]]];
      vm_compute; discriminate.
Defined.

End AlertEngineDetectors.

(** ** The alert engine: user types and prioritization *)

Section AlertEnginePersonalization.

Import Py Models Env AlertEngine.

Lemma insert_map {A B} (f : A -> B) (before : A -> A -> bool)
    (before' : B -> B -> bool) (x : A) (l : list A) :
  (forall y z, before' (f y) (f z) = before y z) ->
  insert before' (f x) (map f l) = map f (insert before x l).
Proof.
  intro H. induction l as [| y r IH]; simpl; [reflexivity | ].
  rewrite H. destruct (before y x); simpl; [rewrite IH | ]; reflexivity.
Qed.

Lemma sorted_map {A B} (f : A -> B) (before : A -> A -> bool)
    (before' : B -> B -> bool) (l : list A) :
  (forall y z, before' (f y) (f z) = before y z) ->
  sorted before' (map f l) = map f (sorted before l).
Proof.
  intro H. induction l as [| x r IH]; simpl; [reflexivity | ].
  rewrite IH. apply insert_map, H.
Qed.

Lemma _prioritize_alerts_personalize (user_type : string)
    (alerts : list Alert) :
  _prioritize_alerts (map (personalize user_type) alerts)
  = map (personalize user_type) (_prioritize_alerts alerts).
Proof.
  unfold _prioritize_alerts. apply sorted_map. reflexivity.
Qed.

(** X9. The user type decides nothing but the recommendations: for any
    user type the result of [check_alerts] is the result for a string that
    names no user type (the empty string), in the same order, with the
    recommendations of the (user type, alert type) pair appended to each
    alert; the two calls raise together. *)
Theorem check_alerts_user_type_only_recommendations :
  forall (hourly_forecast : list HourlyForecast)
         (current_temp current_humidity current_wind : Q)
         (user_type : string) (custom_thresholds : option CustomThresholds)
         (w : World),
    result (check_alerts hourly_forecast current_temp current_humidity
                         current_wind user_type custom_thresholds w)
    = match
        result (check_alerts hourly_forecast current_temp current_humidity
                             current_wind "" custom_thresholds w)
      with
      | inr alerts => inr (map (personalize user_type) alerts)
      | inl e => inl e
      end.
Proof.
  intros f ct ch cw ut th w. unfold check_alerts, bind.
  destruct (_check_heatwave f _ w) as [o1 w1 | e]; [ | reflexivity].
  destruct (_check_heavy_rain f _ w1) as [o2 w2 | e]; [ | reflexivity].
  destruct (_check_storm f cw _ w2) as [o3 w3 | e]; [ | reflexivity].
  destruct (_check_cold_wave f _ w3) as [o4 w4 | e]; [ | reflexivity].
  destruct (_check_high_humidity ct ch _ w4) as [o5 w5 | e];
    [ | reflexivity].
  cbn [ret result].
  rewrite (_personalize_alerts_undefined _ "" eq_refl).
  rewrite _personalize_alerts_map, _prioritize_alerts_personalize.
  reflexivity.
Qed.

Lemma _prioritize_alerts_sorted (alerts : list Alert) :
  StronglySorted
    (fun a b => (severity_order (severity b)
                 <= severity_order (severity a))%Z) alerts ->
  _prioritize_alerts alerts = alerts.
Proof.
  unfold _prioritize_alerts.
  induction 1 as [| a r Hr IH Ha]; simpl; [reflexivity | ].
  rewrite IH. destruct r as [| y r']; [reflexivity | ].
  apply Forall_cons_iff in Ha. destruct Ha as [Hy _].
  simpl. apply Z.ltb_ge in Hy. rewrite Hy. reflexivity.
Qed.

Lemma StronglySorted_True {A} (l : list A) :
  StronglySorted (fun _ _ => True) l.
Proof.
  induction l; constructor; [assumption | ].
  apply Forall_forall. intros; exact I.
Qed.

(** X10. Prioritization only reorders: its result is a permutation of the
    alerts it is given, a list already in non-increasing severity rank
    comes back unchanged, and prioritizing twice is prioritizing once. *)
Theorem prioritize_alerts_reorders :
  forall alerts : list Alert,
    Permutation (_prioritize_alerts alerts) alerts /\
    (StronglySorted
       (fun a b => (severity_order (severity b)
                    <= severity_order (severity a))%Z) alerts ->
     _prioritize_alerts alerts = alerts) /\
    _prioritize_alerts (_prioritize_alerts alerts)
    = _prioritize_alerts alerts.
Proof.
  intro alerts. split; [apply sorted_perm | ].
  split; [apply _prioritize_alerts_sorted | ].
  apply _prioritize_alerts_sorted.
  pose proof (sorted_key_then_tie
                (fun a : Alert => severity_order (severity a))
                (fun _ _ => True) alerts (StronglySorted_True alerts))
    as Hs.
  revert Hs. apply StronglySorted_weaken.
  intros x y [H | [H _]]; lia.
Qed.

Lemma prioritize_alerts_reorders_witness :
  _prioritize_alerts Examples.mixed_day_student = Examples.mixed_day_student.
Proof.
  destruct (prioritize_alerts_reorders Examples.mixed_day_student)
    as (_ & H & _).
  apply H.
  repeat constructor; vm_compute; discriminate.
Defined.

End AlertEnginePersonalization.

(** ** Distances, radii and severities of the seismic services *)

Section SeismicMore.

Import PyR.
Local Open Scope R_scope.

Lemma sin_half_diff_sqr (x y : R) :
  sin ((x - y) / 2) ^ 2 = sin ((y - x) / 2) ^ 2.
Proof.
  replace ((x - y) / 2) with (- ((y - x) / 2)) by field.
  rewrite sin_neg. ring.
Qed.

(** X11. The distance of [calculate_distance] is never negative, is 0
    between a point and itself, does not depend on the order of the two
    points, and never exceeds half the circumference, 6371 pi km, which is
    what it gives for two opposite points of the equator. *)
Theorem calculate_distance_metric :
  forall lat1 lon1 lat2 lon2 : R,
    0 <= EarthquakeMonitor.calculate_distance lat1 lon1 lat2 lon2
      <= 6371 * PI /\
    EarthquakeMonitor.calculate_distance lat1 lon1 lat1 lon1 = 0 /\
    EarthquakeMonitor.calculate_distance lat1 lon1 lat2 lon2
    = EarthquakeMonitor.calculate_distance lat2 lon2 lat1 lon1 /\
    EarthquakeMonitor.calculate_distance 0 0 0 180 = 6371 * PI.
Proof.
  intros lat1 lon1 lat2 lon2.
  split; [split | split; [ | split]].
  - apply calculate_distance_nonneg.
  - unfold EarthquakeMonitor.calculate_distance.
    match goal with |- 2 * asin ?x * 6371 <= _ =>
      pose proof (asin_bound x) as [_ Hb] end.
    lra.
  - unfold EarthquakeMonitor.calculate_distance.
    replace ((radians lat1 - radians lat1) / 2) with 0 by field.
    replace ((radians lon1 - radians lon1) / 2) with 0 by field.
    rewrite sin_0.
    replace (0 ^ 2 + cos (radians lat1) * cos (radians lat1) * 0 ^ 2)
      with 0 by ring.
    rewrite sqrt_0, asin_0. ring.
  - unfold EarthquakeMonitor.calculate_distance.
    rewrite (sin_half_diff_sqr (radians lat2) (radians lat1)).
    rewrite (sin_half_diff_sqr (radians lon2) (radians lon1)).
    rewrite (Rmult_comm (cos (radians lat1)) (cos (radians lat2))).
    reflexivity.
  - rewrite calculate_distance_equator by lra.
    unfold radians. field.
Qed.

Lemma get_impact_radius_mono (m m' : R) :
  m <= m' ->
  EarthquakeMonitor.get_impact_radius m
  <= EarthquakeMonitor.get_impact_radius m'.
Proof.
  intro H. unfold EarthquakeMonitor.get_impact_radius. r_cases; lra.
Qed.

Lemma get_impact_radius_range (m : R) :
  50 <= EarthquakeMonitor.get_impact_radius m <= 1000.
Proof.
  unfold EarthquakeMonitor.get_impact_radius. r_cases; lra.
Qed.

(** X12. The impact radius is between 50 and 1000 km and does not
    decrease with the magnitude.  So with a maximum distance of at least
    1000 km (the default) it never widens the search of the earthquake
    flow: an event gets an alert exactly when its distance is at most
    the maximum distance. *)
Theorem get_impact_radius_within_default_range :
  forall (magnitude magnitude' : R),
    magnitude <= magnitude' ->
    50 <= EarthquakeMonitor.get_impact_radius magnitude
       <= EarthquakeMonitor.get_impact_radius magnitude' /\
    EarthquakeMonitor.get_impact_radius magnitude' <= 1000 /\
    (forall float_repr fromtimestamp_isoformat user_type max_distance_km
            eq distance,
       1000 <= max_distance_km ->
       ((exists a,
           EarthquakeMonitor.earthquake_alert
             float_repr fromtimestamp_isoformat user_type max_distance_km
             eq distance = Some a)
        <-> distance <= max_distance_km)).
Proof.
  intros m m' Hle.
  pose proof (get_impact_radius_range m) as Hr.
  pose proof (get_impact_radius_range m') as Hr'.
  pose proof (get_impact_radius_mono m m' Hle) as Hm.
  split; [lra | split; [lra | ]].
  intros fr iso ut maxd eq d Hmax.
  pose proof (get_impact_radius_range (EarthquakeMonitor.eq_magnitude eq))
    as Hq.
  assert (Emax : max (EarthquakeMonitor.get_impact_radius
                        (EarthquakeMonitor.eq_magnitude eq)) maxd = maxd).
  { unfold max.
    destruct (Rltb _ maxd) eqn:E; [reflexivity | ].
    apply Rltb_ge in E. lra. }
  unfold EarthquakeMonitor.earthquake_alert. rewrite Emax.
  destruct (Rleb d maxd) eqn:E.
  - apply Rleb_le in E. split; [intros _; exact E | ].
    intros _. eexists. reflexivity.
  - apply Rleb_gt in E. split; [intros (a & Ha); discriminate | ].
    intro H. exfalso. lra.
Qed.

Lemma get_impact_radius_within_default_range_witness :
  (exists a,
     EarthquakeMonitor.earthquake_alert
       Examples.sample_float_repr Examples.sample_isoformat "GENERAL" 1000
       (Examples.equator_quake 1) 80 = Some a)
  <-> 80 <= 1000.
Proof.
  assert (H : 7.2 <= 8.0) by lra.
  destruct (get_impact_radius_within_default_range 7.2 8.0 H)
    as (_ & _ & Hflow).
  apply Hflow. lra.
Defined.

Lemma critical_range_mono (m m' d d' : R) :
  m <= m' -> d' <= d -> critical_range m d -> critical_range m' d'.
Proof.
  unfold critical_range. intros Hm Hd [[? ?] | [? ?]];
    [left | right]; split; lra.
Qed.

Lemma warning_range_mono (m m' d d' : R) :
  m <= m' -> d' <= d -> warning_range m d -> warning_range m' d'.
Proof.
  unfold warning_range. intros Hm Hd [[? ?] | [[? ?] | H]].
  - left. split; lra.
  - right. left. split; lra.
  - right. right. pose proof (get_impact_radius_mono m m' Hm). lra.
Qed.

(** X13. A stronger or a nearer earthquake is never classified lower:
    with critical above warning above info, the severity of
    [get_severity] does not decrease when the magnitude grows or the
    distance shrinks. *)
Theorem get_severity_monotone :
  forall magnitude magnitude' distance distance' : R,
    magnitude <= magnitude' -> distance' <= distance ->
    (TsunamiMonitor.severity_order
       (EarthquakeMonitor.get_severity magnitude distance)
     <= TsunamiMonitor.severity_order
          (EarthquakeMonitor.get_severity magnitude' distance'))%Z.
Proof.
  intros m m' d d' Hm Hd.
  destruct (get_severity_cases m d)
    as [[Hc E] | [(Hc & Hw & E) | (Hc & Hw & E)]];
    destruct (get_severity_cases m' d')
      as [[Hc' E'] | [(Hc' & Hw' & E') | (Hc' & Hw' & E')]];
    rewrite E, E';
    try (vm_compute; discriminate);
    exfalso;
    first [ apply Hc'; eapply critical_range_mono; eassumption
          | apply Hw'; eapply warning_range_mono; eassumption ].
Qed.

Lemma get_severity_monotone_witness :
  (TsunamiMonitor.severity_order (EarthquakeMonitor.get_severity 6.1 150)
   <= TsunamiMonitor.severity_order (EarthquakeMonitor.get_severity 7.2 80))%Z.
Proof.
  apply (get_severity_monotone 6.1 7.2 150 80); lra.
Defined.

Lemma calculate_tsunami_severity_cases (magnitude distance : R) :
  let critical :=
    (8.0 <= magnitude /\ distance < 500)
    \/ (7.5 <= magnitude /\ distance < 300) in
  let warning :=
    (7.0 <= magnitude /\ distance < 800)
    \/ (6.5 <= magnitude /\ distance < 500) in
  (critical
   /\ TsunamiMonitor.calculate_tsunami_severity magnitude distance true
      = "critical"%string)
  \/ (~ critical /\ warning
      /\ TsunamiMonitor.calculate_tsunami_severity magnitude distance true
         = "warning"%string)
  \/ (~ critical /\ ~ warning
      /\ TsunamiMonitor.calculate_tsunami_severity magnitude distance true
         = "info"%string).
Proof.
  cbv zeta. unfold TsunamiMonitor.calculate_tsunami_severity.
  cbn [negb].
  r_cases;
    first
      [ left; split; [ | reflexivity];
        solve [left; split; lra | right; split; lra]
      | right; left; split; [ | split; [ | reflexivity]];
        [ intros [[? ?] | [? ?]]; lra
        | solve [left; split; lra | right; split; lra] ]
      | right; right; split; [ | split; [ | reflexivity]];
        [ intros [[? ?] | [? ?]]; lra
        | intros [[? ?] | [? ?]]; lra ] ].
Qed.

(** X14. Away from the coast a tsunami is always "info".  On the coast it
    is "critical" exactly when (magnitude >= 8.0 and distance < 500) or
    (magnitude >= 7.5 and distance < 300); failing that, "warning"
    exactly when (magnitude >= 7.0 and distance < 800) or (magnitude >=
    6.5 and distance < 500); failing both, "info".  Every location counts
    as coastal, so the flow always classifies as on the coast. *)
Theorem calculate_tsunami_severity_spec :
  forall magnitude distance : R,
    let critical :=
      (8.0 <= magnitude /\ distance < 500)
      \/ (7.5 <= magnitude /\ distance < 300) in
    let warning :=
      (7.0 <= magnitude /\ distance < 800)
      \/ (6.5 <= magnitude /\ distance < 500) in
    TsunamiMonitor.calculate_tsunami_severity magnitude distance false
    = "info"%string /\
    (TsunamiMonitor.calculate_tsunami_severity magnitude distance true
     = "critical"%string <-> critical) /\
    (TsunamiMonitor.calculate_tsunami_severity magnitude distance true
     = "warning"%string <-> ~ critical /\ warning) /\
    (TsunamiMonitor.calculate_tsunami_severity magnitude distance true
     = "info"%string <-> ~ critical /\ ~ warning) /\
    (forall lat lon,
       TsunamiMonitor.calculate_tsunami_severity magnitude distance
         (TsunamiMonitor.is_coastal_location lat lon)
       = TsunamiMonitor.calculate_tsunami_severity magnitude distance true).
Proof.
  intros magnitude distance critical warning.
  split; [reflexivity | ].
  pose proof (calculate_tsunami_severity_cases magnitude distance) as H.
  cbv zeta in H. fold critical warning in H.
  split; [ | split; [ | split; [ | reflexivity]]];
    destruct H as [[Hc E] | [(Hc & Hw & E) | (Hc & Hw & E)]];
    rewrite E; split; intro G;
    try reflexivity; try discriminate G; tauto.
Qed.

Lemma user_advice_undefined (user_type : string) :
  ~ In user_type defined_user_types ->
  EarthquakeMonitor.user_advice user_type
  = EarthquakeMonitor.general_advice /\
  TsunamiMonitor.user_advice user_type = TsunamiMonitor.user_advice "GENERAL".
Proof.
  intro H.
  unfold EarthquakeMonitor.user_advice, TsunamiMonitor.user_advice.
  repeat match goal with
  | |- context [String.eqb user_type ?c] =>
      destruct (String.eqb_spec user_type c) as [-> | _];
      [exfalso; apply H; simpl; tauto | ]
  end.
  split; reflexivity.
Qed.

(** X15. A user type outside the five defined values gets the advice
    written for GENERAL, in the earthquake messages and in the tsunami
    messages alike. *)
Theorem seismic_messages_fall_back_to_general :
  forall (float_repr : R -> string) (magnitude distance : R)
         (place user_type severity : string)
         (estimated_arrival_minutes : option Z),
    ~ In user_type defined_user_types ->
    EarthquakeMonitor.generate_user_message
      float_repr magnitude distance place user_type severity
    = EarthquakeMonitor.generate_user_message
        float_repr magnitude distance place "GENERAL" severity /\
    TsunamiMonitor.generate_tsunami_message
      float_repr magnitude distance place user_type severity
      estimated_arrival_minutes
    = TsunamiMonitor.generate_tsunami_message
        float_repr magnitude distance place "GENERAL" severity
        estimated_arrival_minutes.
Proof.
  intros fr m d place ut sev est H.
  destruct (user_advice_undefined ut H) as [He Ht].
  unfold EarthquakeMonitor.generate_user_message,
         TsunamiMonitor.generate_tsunami_message.
  rewrite He, Ht. split; reflexivity.
Qed.

Lemma seismic_messages_fall_back_to_general_witness :
  EarthquakeMonitor.generate_user_message
    Examples.sample_float_repr 7.2 80 "off the coast" "PILOT" "critical"
  = EarthquakeMonitor.generate_user_message
      Examples.sample_float_repr 7.2 80 "off the coast" "GENERAL" "critical".
Proof.
  assert (Hpilot : ~ In "PILOT"%string defined_user_types).
  { simpl. intros [H | [H | [H | [H | [H | []]]]]]; discriminate. }
  destruct (seismic_messages_fall_back_to_general
              Examples.sample_float_repr 7.2 80 "off the coast" "PILOT"
              "critical" None Hpilot) as [He _].
  exact He.
Defined.

End SeismicMore.

(** ** The order and the size of what the seismic flows return *)

(** A sort by a total preorder: no item of the result sorts strictly
    before an earlier one. *)
Section SortedByPreorder.

Context {A : Type} (before : A -> A -> bool).
Hypothesis before_asym :
  forall x y, before x y = true -> before y x = false.
Hypothesis not_before_trans :
  forall x y z, before y x = false -> before z y = false ->
                before z x = false.



End SortedByPreorder.

Section SeismicFlowOrder.

Import PyR.
Local Open Scope R_scope.






End SeismicFlowOrder.

(** ** The in-memory stores: lists and dictionaries *)

Section PyStoreFacts.

Import PyStore.

Lemma last_slice_skipn {A} (n : Z) (l : list A) :
  (0 < n)%Z -> last_slice n l = skipn (List.length l - Z.to_nat n) l.
Proof.
  intro H. unfold last_slice.
  destruct (0 <? n)%Z eqn:E; [ | apply Z.ltb_ge in E; lia].
  f_equal. lia.
Qed.

Lemma last_slice_all {A} (n : Z) (l : list A) :
  (0 < n)%Z -> (List.length l <= Z.to_nat n)%nat -> last_slice n l = l.
Proof.
  intros H Hl. rewrite last_slice_skipn by exact H.
  replace (List.length l - Z.to_nat n)%nat with 0%nat by lia. reflexivity.
Qed.

Lemma last_slice_length {A} (n : Z) (l : list A) :
  (0 < n)%Z ->
  List.length (last_slice n l) = Nat.min (Z.to_nat n) (List.length l).
Proof.
  intro H. rewrite last_slice_skipn by exact H. rewrite length_skipn. lia.
Qed.

Lemma last_slice_app {A} (n : Z) (l k : list A) :
  (0 < n)%Z -> (List.length k <= Z.to_nat n)%nat ->
  exists kept, last_slice n (l ++ k) = (kept ++ k)%list.
Proof.
  intros H Hk. rewrite last_slice_skipn by exact H.
  rewrite skipn_app, length_app.
  replace (List.length l + List.length k - Z.to_nat n - List.length l)%nat
    with 0%nat by lia.
  eexists. reflexivity.
Qed.

Lemma rev_last_slice {A} (n : Z) (l : list A) :
  (0 < n)%Z -> rev (last_slice n l) = firstn (Z.to_nat n) (rev l).
Proof.
  intro H. rewrite last_slice_skipn by exact H. symmetry. apply firstn_rev.
Qed.

Lemma mem_In (x : string) (l : list string) : mem x l = true <-> In x l.
Proof.
  unfold mem. rewrite existsb_exists. split.
  - intros (y & Hy & E). apply String.eqb_eq in E. subst. exact Hy.
  - intro H. exists x. split; [exact H | apply String.eqb_refl].
Qed.

Lemma remove_NoDup (x : string) (l : list string) :
  NoDup l -> NoDup (remove x l) /\ ~ In x (remove x l) /\
             (forall y, In y (remove x l) -> In y l).
Proof.
  induction 1 as [| y r Hy Hr IH]; simpl.
  - split; [constructor | ]. split; [tauto | tauto].
  - destruct IH as (IH1 & IH2 & IH3).
    destruct (String.eqb_spec y x) as [-> | Hne].
    + split; [exact Hr | ]. split; [exact Hy | ]. intros z Hz. right. exact Hz.
    + split.
      * constructor; [ | exact IH1]. intro Hin. apply Hy, IH3, Hin.
      * split.
        -- simpl. intros [E | Hin]; [congruence | tauto].
        -- simpl. intros z [E | Hin]; [left; exact E | right; apply IH3, Hin].
Qed.

Context {V : Type}.

Lemma get_set (d : dict V) (k k' : string) (v : V) :
  get (set d k v) k' = if String.eqb k k' then Some v else get d k'.
Proof.
  induction d as [| [k0 v0] r IH]; simpl.
  - reflexivity.
  - destruct (String.eqb_spec k0 k) as [-> | Hne]; simpl.
    + destruct (String.eqb_spec k k'); reflexivity.
    + rewrite IH.
      destruct (String.eqb_spec k0 k') as [-> | Hne'];
        destruct (String.eqb_spec k k'); try reflexivity.
      subst. contradiction.
Qed.

Lemma get_del (d : dict V) (k k' : string) :
  get (del d k) k' = if String.eqb k k' then None else get d k'.
Proof.
  unfold del.
  induction d as [| [k0 v0] r IH]; simpl.
  - destruct (String.eqb k k'); reflexivity.
  - destruct (String.eqb_spec k0 k) as [-> | Hne]; simpl.
    + rewrite IH. destruct (String.eqb_spec k k'); reflexivity.
    + rewrite IH.
      destruct (String.eqb_spec k0 k') as [-> | Hne'];
        destruct (String.eqb_spec k k'); try reflexivity.
      subst. contradiction.
Qed.

End PyStoreFacts.

(** ** The alert endpoints and the alert history *)

Section AlertsApiFacts.

Import Py Models Env AlertEngine PyStore AlertsApi.

Lemma check_alerts_at_most_five (hourly_forecast : list HourlyForecast)
    (current_temp current_humidity current_wind : Q) (user_type : string)
    (custom_thresholds : option CustomThresholds) (w : World)
    (alerts : list Alert) :
  result (AlertEngine.check_alerts hourly_forecast current_temp
            current_humidity current_wind user_type custom_thresholds w)
  = inr alerts ->
  hourly_forecast <> [] /\ (List.length alerts <= 5)%nat.
Proof.
  intro E. apply check_alerts_result in E.
  destruct E as (Hne & pre & (Hord & _) & ->).
  split; [exact Hne | ].
  unfold _prioritize_alerts. rewrite sorted_length, length_map.
  rewrite <- (length_map type).
  apply (NoDup_incl_length (detector_order_NoDup pre Hord)
           (l' := [HEATWAVE; HEAVY_RAIN; STORM; COLD_WAVE; HIGH_HUMIDITY])).
  intros t _. destruct t; simpl; tauto.
Qed.

(** X18. For a limit of at least 1, as the endpoint requires,
    [get_alert_history] returns the most recent alerts newest first: the
    first [limit] entries of the reversed history, all of them when the
    history is shorter. *)
Theorem get_alert_history_newest_first :
  forall (limit : Z) (alert_history : list Alert),
    (1 <= limit)%Z ->
    get_alert_history limit alert_history
    = firstn (Z.to_nat limit) (rev alert_history) /\
    List.length (get_alert_history limit alert_history)
    = Nat.min (Z.to_nat limit) (List.length alert_history).
Proof.
  intros limit h H. unfold get_alert_history. split.
  - apply rev_last_slice. lia.
  - rewrite length_rev. apply last_slice_length. lia.
Qed.

Lemma get_alert_history_newest_first_witness :
  get_alert_history 2 Examples.mixed_day_student
  = firstn 2 (rev Examples.mixed_day_student).
Proof.
  exact (proj1 (get_alert_history_newest_first
                  2 Examples.mixed_day_student ltac:(lia))).
Defined.

(** X19. The alert endpoint either fails with status 500 and leaves the
    history as it was, or returns the alerts of the engine, at most five,
    computed on a non-empty forecast.  In that case the history is the
    last 100 entries of the old history followed by the new alerts, so it
    never holds more than 100 alerts, it ends with the new alerts, and a
    listing of the history starts with them, last one first. *)
Theorem check_alerts_endpoint_history :
  forall (E : Type) (str_raised : E -> string) (str : Py.exn -> string)
         (get_current_weather : E + WeatherData.t)
         (get_hourly_forecast : E + list HourlyForecast)
         (request_custom_thresholds : option (E + CustomThresholds))
         (user_type : string) (alert_history : list Alert) (w : World),
    match
      AlertsApi.check_alerts str_raised str get_current_weather
        get_hourly_forecast request_custom_thresholds user_type
        alert_history w
    with
    | (inl e, alert_history') =>
        status_code e = 500%Z /\ alert_history' = alert_history
    | (inr response, alert_history') =>
        (exists forecast,
            get_hourly_forecast = inr forecast /\ forecast <> []) /\
        (List.length (alerts response) <= 5)%nat /\
        alert_history'
        = last_slice 100 (alert_history ++ alerts response) /\
        List.length alert_history'
        = Nat.min 100 (List.length alert_history
                       + List.length (alerts response)) /\
        (exists kept,
            alert_history' = (kept ++ alerts response)%list) /\
        (exists older,
            get_alert_history 100 alert_history'
            = (rev (alerts response) ++ older)%list)
    end.
Proof.
  intros E sr s cw hf th ut h w. unfold AlertsApi.check_alerts.
  destruct cw as [e | cw]; [split; reflexivity | ].
  destruct hf as [e | forecast]; [split; reflexivity | ].
  destruct th as [[e | th] | ]; [split; reflexivity | | ].
  all: match goal with
       | |- context [result ?m] => destruct (result m) as [e | l] eqn:Er
       end; [split; reflexivity | ].
  all: apply check_alerts_at_most_five in Er; destruct Er as [Hne H5].
  all: cbv zeta; cbn [alerts].
  all: assert (Eh : (if (100 <? List.length (h ++ l))%nat
                     then last_slice 100 (h ++ l) else (h ++ l)%list)
                    = last_slice 100 (h ++ l))
         by (destruct (100 <? List.length (h ++ l))%nat eqn:E100;
             [reflexivity
             | apply Nat.ltb_ge in E100; symmetry;
               apply last_slice_all; [lia | exact E100]]).
  all: rewrite Eh.
  all: assert (H100 : (0 < 100)%Z) by lia.
  all: assert (Hl : (List.length l <= Z.to_nat 100)%nat) by lia.
  all: destruct (last_slice_app 100 h l H100 Hl) as [kept Ek].
  all: split; [exists forecast; split; [reflexivity | exact Hne] | ].
  all: split; [exact H5 | ].
  all: split; [reflexivity | ].
  all: split; [rewrite last_slice_length, length_app by lia; reflexivity | ].
  all: split; [exists kept; exact Ek | ].
  all: exists (rev kept); unfold get_alert_history.
  all: rewrite last_slice_all;
         [rewrite Ek; apply rev_app_distr | lia | ].
  all: rewrite last_slice_length by lia; lia.
Qed.

(** X20. An empty forecast makes the alert endpoint fail with status 500,
    whatever the current weather, the thresholds and the user type, and
    the history stays as it was. *)
Theorem check_alerts_endpoint_empty_forecast :
  forall (E : Type) (str_raised : E -> string) (str : Py.exn -> string)
         (get_current_weather : E + WeatherData.t)
         (request_custom_thresholds : option (E + CustomThresholds))
         (user_type : string) (alert_history : list Alert) (w : World),
  exists e,
    AlertsApi.check_alerts str_raised str get_current_weather (inr [])
      request_custom_thresholds user_type alert_history w
    = (inl e, alert_history) /\
    status_code e = 500%Z.
Proof.
  intros E sr s cw th ut h w. unfold AlertsApi.check_alerts.
  destruct cw as [e | cw]; [eexists; split; reflexivity | ].
  destruct th as [[e | th] | ]; [eexists; split; reflexivity | | ].
  all: rewrite check_alerts_raises; eexists; split; reflexivity.
Qed.

Lemma acknowledge_twice (a : Alert) :
  acknowledge (acknowledge a) = acknowledge a.
Proof. reflexivity. Qed.

Lemma dismiss_first_spec (alert_id : string) (h : list Alert) :
  match dismiss_first alert_id h with
  | None => Forall (fun a => id a <> alert_id) h
  | Some h' =>
      exists before alert after,
        h = (before ++ alert :: after)%list /\
        Forall (fun a => id a <> alert_id) before /\
        id alert = alert_id /\
        h' = (before ++ acknowledge alert :: after)%list
  end.
Proof.
  induction h as [| a r IH]; simpl.
  - constructor.
  - destruct (String.eqb_spec (id a) alert_id) as [Ea | Hne].
    + exists [], a, r. repeat split; [constructor | exact Ea].
    + destruct (dismiss_first alert_id r) as [r' | ]; simpl.
      * destruct IH as (before & alert & after & -> & Hb & Ei & ->).
        exists (a :: before), alert, after.
        repeat split; [constructor; assumption | exact Ei].
      * constructor; assumption.
Qed.

Lemma dismiss_first_at (alert_id : string) (before after : list Alert)
    (a : Alert) :
  Forall (fun a => id a <> alert_id) before -> id a = alert_id ->
  dismiss_first alert_id (before ++ a :: after)
  = Some (before ++ acknowledge a :: after)%list.
Proof.
  intros Hb Ea. induction Hb as [| b r Hne Hr IH]; simpl.
  - rewrite Ea, String.eqb_refl. reflexivity.
  - destruct (String.eqb_spec (id b) alert_id); [contradiction | ].
    rewrite IH. reflexivity.
Qed.

(** X21. [dismiss_alert] fails with status 404, changing nothing, exactly
    when no alert of the history has the id.  Otherwise it acknowledges
    the first alert with that id and nothing else: every other alert,
    also a later one with the same id, is left as it was, and no
    acknowledgement is ever withdrawn.  Dismissing again succeeds and
    changes nothing. *)
Theorem dismiss_alert_first_match :
  forall (alert_id : string) (alert_history : list Alert),
    match dismiss_alert alert_id alert_history with
    | (inl e, alert_history') =>
        status_code e = 404%Z /\ alert_history' = alert_history /\
        Forall (fun a => id a <> alert_id) alert_history
    | (inr response, alert_history') =>
        exists before alert after,
          alert_history = (before ++ alert :: after)%list /\
          Forall (fun a => id a <> alert_id) before /\
          id alert = alert_id /\
          alert_history' = (before ++ acknowledge alert :: after)%list /\
          dismiss_alert alert_id alert_history'
          = (inr response, alert_history')
    end.
Proof.
  intros alert_id h. unfold dismiss_alert.
  pose proof (dismiss_first_spec alert_id h) as Hs.
  destruct (dismiss_first alert_id h) as [h' | ].
  - destruct Hs as (before & alert & after & -> & Hb & Ei & ->).
    exists before, alert, after. repeat split; try assumption.
    rewrite (dismiss_first_at alert_id before after (acknowledge alert) Hb Ei).
    rewrite acknowledge_twice. reflexivity.
  - repeat split. exact Hs.
Qed.

End AlertsApiFacts.
(** ** The preference store *)

Section PreferencesFacts.

Import Models PyStore PreferencesApi.

Lemma preferences_after_snoc (requests : list PreferencesApi.request)
    (r : PreferencesApi.request) :
  PreferencesApi.store_after (requests ++ [r])
  = PreferencesApi.serve (PreferencesApi.store_after requests) r.
Proof.
  unfold PreferencesApi.store_after. rewrite fold_left_app. reflexivity.
Qed.

Lemma get_preferences_save (p : UserPreferences) (s : PreferencesApi.store)
    (u : string) :
  get_preferences u (snd (save_preferences p s))
  = if String.eqb (user_id p) u then p else get_preferences u s.
Proof.
  unfold get_preferences, save_preferences. cbn [snd]. rewrite get_set.
  destruct (String.eqb (user_id p) u); reflexivity.
Qed.

Lemma get_preferences_delete (u' : string) (s : PreferencesApi.store)
    (u : string) :
  get_preferences u (snd (delete_preferences u' s))
  = if String.eqb u' u then default_preferences u else get_preferences u s.
Proof.
  unfold delete_preferences, contains.
  destruct (get s u') as [p | ] eqn:G; cbn [snd].
  - unfold get_preferences. rewrite get_del.
    destruct (String.eqb u' u); reflexivity.
  - destruct (String.eqb_spec u' u) as [<- | Hne]; [ | reflexivity].
    unfold get_preferences. rewrite G. reflexivity.
Qed.

(** X22. Whatever requests the preference store has served,
    [get_preferences] never fails and answers with preferences of the
    user asked for: those of the last save for that user, unless a delete
    for that user came after it, and otherwise the defaults (STUDENT, the
    default thresholds, notifications on, celsius).  Requests for other
    users do not change the answer. *)
Theorem get_preferences_last_save :
  forall (requests : list PreferencesApi.request) (u : string),
    user_id (get_preferences u (PreferencesApi.store_after requests)) = u /\
    get_preferences u (PreferencesApi.store_after [])
    = default_preferences u /\
    (forall p,
        get_preferences u (PreferencesApi.store_after (requests ++ [Save p]))
        = if String.eqb (user_id p) u then p
          else get_preferences u (PreferencesApi.store_after requests)) /\
    (forall u',
        get_preferences u
          (PreferencesApi.store_after (requests ++ [Delete u']))
        = if String.eqb u' u then default_preferences u
          else get_preferences u (PreferencesApi.store_after requests)).
Proof.
  intros requests u.
  assert (Hsave : forall rs p,
    get_preferences u (PreferencesApi.store_after (rs ++ [Save p]))
    = if String.eqb (user_id p) u then p
      else get_preferences u (PreferencesApi.store_after rs)).
  { intros rs p. rewrite preferences_after_snoc.
    apply get_preferences_save. }
  assert (Hdel : forall rs u',
    get_preferences u (PreferencesApi.store_after (rs ++ [Delete u']))
    = if String.eqb u' u then default_preferences u
      else get_preferences u (PreferencesApi.store_after rs)).
  { intros rs u'. rewrite preferences_after_snoc.
    apply get_preferences_delete. }
  split; [ | split; [reflexivity | split; [apply Hsave | apply Hdel]]].
  induction requests as [| r rs IH] using rev_ind; [reflexivity | ].
  destruct r as [p | u'].
  - rewrite Hsave. destruct (String.eqb_spec (user_id p) u); assumption.
  - rewrite Hdel. destruct (String.eqb u' u); [reflexivity | assumption].
Qed.

(** X23. [delete_preferences] fails with status 404, changing nothing,
    exactly when nothing is stored for the user.  When it succeeds the
    user is back to the defaults, the other users keep their preferences,
    and a second delete fails with 404. *)
Theorem delete_preferences_once :
  forall (u : string) (s : PreferencesApi.store),
    match delete_preferences u s with
    | (inl e, s') =>
        AlertsApi.status_code e = 404%Z /\ s' = s /\ contains s u = false
    | (inr response, s') =>
        contains s u = true /\
        (forall u',
            get_preferences u' s'
            = if String.eqb u u' then default_preferences u'
              else get_preferences u' s) /\
        exists e,
          delete_preferences u s' = (inl e, s') /\
          AlertsApi.status_code e = 404%Z
    end.
Proof.
  intros u s.
  pose proof (fun u' => get_preferences_delete u s u') as Hget.
  unfold delete_preferences in *.
  destruct (contains s u) eqn:C; cbn [snd] in *.
  - split; [reflexivity | ]. split; [exact Hget | ].
    assert (C' : contains (del s u) u = false).
    { unfold contains. rewrite get_del, String.eqb_refl. reflexivity. }
    rewrite C'. eexists. split; reflexivity.
  - repeat split.
Qed.

End PreferencesFacts.

(** ** The device tokens *)

Section UsersRouterFacts.

Import PyStore UsersRouter.

Lemma device_tokens_after_snoc (requests : list UsersRouter.request)
    (r : UsersRouter.request) :
  UsersRouter.store_after (requests ++ [r])
  = UsersRouter.serve (UsersRouter.store_after requests) r.
Proof.
  unfold UsersRouter.store_after. rewrite fold_left_app. reflexivity.
Qed.

Lemma get_default_set {V} (d : dict V) (k k' : string) (v default : V) :
  get_default (set d k v) k' default
  = if String.eqb k k' then v else get_default d k' default.
Proof.
  unfold get_default. rewrite get_set.
  destruct (String.eqb k k'); reflexivity.
Qed.

Lemma register_device_token_tokens (u t : string) (s : UsersRouter.store)
    (u' : string) :
  get_default (snd (register_device_token u t s)) u' []
  = if String.eqb u u'
    then if mem t (get_default s u [])
         then get_default s u [] else (get_default s u [] ++ [t])%list
    else get_default s u' [].
Proof.
  unfold register_device_token. cbn [snd].
  set (s1 := if negb (contains s u) then set s u [] else s).
  assert (E1 : forall v, get_default s1 v [] = get_default s v []).
  { intro v. unfold s1, contains.
    destruct (get s u) as [l | ] eqn:G; cbn [negb]; [reflexivity | ].
    rewrite get_default_set.
    destruct (String.eqb_spec u v) as [<- | Hne]; [ | reflexivity].
    unfold get_default. rewrite G. reflexivity. }
  rewrite (E1 u).
  destruct (mem t (get_default s u [])) eqn:M; cbn [negb].
  - rewrite E1. destruct (String.eqb_spec u u') as [<- | ]; reflexivity.
  - rewrite get_default_set, E1. reflexivity.
Qed.

Lemma remove_device_token_tokens (u t : string) (s : UsersRouter.store)
    (u' : string) :
  get_default (snd (remove_device_token u t s)) u' []
  = if String.eqb u u' && mem t (get_default s u [])
    then remove t (get_default s u [])
    else get_default s u' [].
Proof.
  unfold remove_device_token.
  destruct (contains s u) eqn:C; cbn [andb].
  - destruct (mem t (get_default s u [])) eqn:M; cbn [snd].
    + rewrite get_default_set, andb_true_r. reflexivity.
    + rewrite andb_false_r. reflexivity.
  - cbn [snd].
    assert (E : get_default s u [] = []).
    { unfold contains in C. unfold get_default.
      destruct (get s u); [discriminate | reflexivity]. }
    rewrite E. cbn [mem existsb]. rewrite andb_false_r. reflexivity.
Qed.

(** X24. [register_device_token] always succeeds.  Afterwards the token is
    among the user's tokens: appended at the end when it was not there,
    and otherwise the list is as before.  The reported count is the length
    of that list, the other users keep their tokens, and registering the
    same token again changes nothing and reports the same count. *)
Theorem register_device_token_spec :
  forall (u t : string) (s : UsersRouter.store),
    let tokens := get_default s u [] in
    let response := fst (register_device_token u t s) in
    let s' := snd (register_device_token u t s) in
    success response = true /\
    fst (get_user_tokens u s')
    = (if mem t tokens then tokens else (tokens ++ [t])%list) /\
    In t (fst (get_user_tokens u s')) /\
    token_count response = snd (get_user_tokens u s') /\
    (forall u',
        fst (get_user_tokens u' s')
        = if String.eqb u u' then fst (get_user_tokens u s')
          else fst (get_user_tokens u' s)) /\
    register_device_token u t s' = (response, s').
Proof.
  intros u t s tokens response s'.
  assert (Et : get_default s' u []
               = if mem t tokens then tokens else (tokens ++ [t])%list).
  { unfold s'. rewrite register_device_token_tokens, String.eqb_refl.
    reflexivity. }
  assert (Hin : In t (get_default s' u [])).
  { rewrite Et. destruct (mem t tokens) eqn:M.
    - apply mem_In, M.
    - apply in_or_app. right. left. reflexivity. }
  split; [reflexivity | ].
  split; [exact Et | ].
  split; [exact Hin | ].
  split; [reflexivity | ].
  split.
  - intro u'. unfold get_user_tokens. cbn [fst]. unfold s'.
    rewrite register_device_token_tokens.
    destruct (String.eqb_spec u u') as [<- | ]; [ | reflexivity].
    fold s'. rewrite Et. reflexivity.
  - assert (C : contains s' u = true).
    { unfold contains, s', register_device_token. cbn [snd].
      unfold contains.
      destruct (get s u) as [l | ] eqn:G; cbn [negb].
      - destruct (mem t (get_default s u [])); cbn [negb].
        + rewrite G. reflexivity.
        + rewrite get_set, String.eqb_refl. reflexivity.
      - rewrite get_default_set, String.eqb_refl. cbn [mem existsb negb].
        rewrite get_set, String.eqb_refl. reflexivity. }
    apply mem_In in Hin.
    unfold register_device_token at 1.
    rewrite C. cbn [negb]. rewrite Hin. cbn [negb].
    reflexivity.
Qed.

Lemma device_tokens_NoDup (requests : list UsersRouter.request)
    (u : string) :
  NoDup (get_default (UsersRouter.store_after requests) u []).
Proof.
  revert u. induction requests as [| r rs IH] using rev_ind; intro u.
  - constructor.
  - rewrite device_tokens_after_snoc.
    destruct r as [u0 t | u0 t]; cbn [UsersRouter.serve].
    + rewrite register_device_token_tokens.
      destruct (String.eqb_spec u0 u) as [-> | ]; [ | apply IH].
      destruct (mem t (get_default (UsersRouter.store_after rs) u []))
        eqn:M; [apply IH | ].
      apply NoDup_app; [apply IH | repeat constructor; simpl; tauto | ].
      intros x Hx [<- | []].
      apply mem_In in Hx. congruence.
    + rewrite remove_device_token_tokens.
      destruct (String.eqb u0 u
                && mem t (get_default (UsersRouter.store_after rs) u0 []));
        [ | apply IH].
      apply remove_NoDup, IH.
Qed.

(** X25. Whatever registrations and removals the token store has served,
    no user holds a token twice.  So [remove_device_token] reports success
    exactly when the token was registered for the user, and after it the
    token is no longer among the user's tokens, while the other users keep
    theirs. *)
Theorem device_tokens_distinct :
  forall (requests : list UsersRouter.request) (u t : string),
    let s := UsersRouter.store_after requests in
    let s' := snd (remove_device_token u t s) in
    NoDup (fst (get_user_tokens u s)) /\
    fst (remove_device_token u t s) = mem t (fst (get_user_tokens u s)) /\
    ~ In t (fst (get_user_tokens u s')) /\
    (forall u',
        fst (get_user_tokens u' s')
        = if String.eqb u u' then fst (get_user_tokens u s')
          else fst (get_user_tokens u' s)).
Proof.
  intros requests u t s s'. unfold get_user_tokens. cbn [fst].
  pose proof (device_tokens_NoDup requests u) as Hnd. fold s in Hnd.
  split; [exact Hnd | ].
  split.
  - unfold remove_device_token.
    destruct (contains s u) eqn:C; cbn [andb].
    + destruct (mem t (get_default s u [])); reflexivity.
    + unfold contains in C. unfold get_default.
      destruct (get s u); [discriminate | reflexivity].
  - split.
    + unfold s'. rewrite remove_device_token_tokens, String.eqb_refl.
      cbn [andb].
      destruct (mem t (get_default s u [])) eqn:M.
      * apply remove_NoDup, Hnd.
      * intro Hin. apply mem_In in Hin. congruence.
    + intro u'. unfold s'. rewrite !remove_device_token_tokens.
      rewrite String.eqb_refl. cbn [andb].
      destruct (String.eqb_spec u u') as [<- | ]; reflexivity.
Qed.

End UsersRouterFacts.
(** ** The cache *)

Section CacheFacts.

Import PyStore.

Context {V : Type}.

(** X26. A value stored with [set] is served by [get] up to and including
    its expiry, [ttl] seconds after the time of the [set]; the cache is
    then left as it is.  A later [get] answers [None] and removes the
    entry.  The entries under other keys are answered as before the
    [set]. *)
Theorem cache_set_then_get :
  forall (key : string) (value : V) (ttl now : Z)
         (_cache _cache' : CacheService.cache V),
    CacheService.set key value ttl now _cache = inr _cache' ->
    forall (now' : Z),
      CacheService.get key now' _cache'
      = (if (now + ttl * 1000000 <? now')%Z
         then (None, del _cache' key)
         else (Some value, _cache')) /\
      (forall key',
          fst (CacheService.get key' now' _cache')
          = if String.eqb key key'
            then fst (CacheService.get key now' _cache')
            else fst (CacheService.get key' now' _cache)).
Proof.
  intros key value ttl now c c' Hset now'.
  unfold CacheService.set in Hset.
  destruct ((0 <=? now + ttl * 1000000)%Z
            && (now + ttl * 1000000 <? CacheService.datetime_max)%Z);
    [ | discriminate].
  injection Hset as <-.
  assert (Hkey : CacheService.get key now' (set c key (value, (now + ttl * 1000000)%Z))
          = (if (now + ttl * 1000000 <? now')%Z
             then (None, del (set c key (value, (now + ttl * 1000000)%Z)) key)
             else (Some value, set c key (value, (now + ttl * 1000000)%Z)))).
  { unfold CacheService.get. rewrite get_set, String.eqb_refl.
    reflexivity. }
  split; [exact Hkey | ].
  intro key'. destruct (String.eqb_spec key key') as [<- | Hne];
    [reflexivity | ].
  unfold CacheService.get. rewrite get_set.
  destruct (String.eqb_spec key key'); [contradiction | ].
  destruct (get c key') as [[v e] | ]; [ | reflexivity].
  destruct (e <? now')%Z; reflexivity.
Qed.

(** X27. [get] never serves a value whose expiry has passed: a value it
    returns is the one stored under the key, not yet expired, and the
    cache is left as it is.  When it returns [None] the key is absent
    afterwards, the entries under other keys are intact.  After
    [invalidate] the key is absent, and [clear] leaves nothing. *)
Theorem cache_get_fresh :
  forall (key : string) (now : Z) (_cache : CacheService.cache V),
    match CacheService.get key now _cache with
    | (Some value, _cache') =>
        _cache' = _cache /\
        exists expiry,
          get _cache key = Some (value, expiry) /\ (now <= expiry)%Z
    | (None, _cache') =>
        forall key',
          get _cache' key'
          = if String.eqb key key' then None else get _cache key'
    end /\
    (forall key',
        get (CacheService.invalidate key _cache) key'
        = if String.eqb key key' then None else get _cache key') /\
    (forall key', get (CacheService.clear _cache) key' = None).
Proof.
  intros key now c. split; [ | split].
  - unfold CacheService.get.
    destruct (get c key) as [[v e] | ] eqn:G.
    + destruct (e <? now)%Z eqn:L.
      * intro key'. apply get_del.
      * split; [reflexivity | ]. exists e. split; [reflexivity | ].
        apply Z.ltb_ge, L.
    + intro key'. destruct (String.eqb_spec key key') as [<- | ];
        [exact G | reflexivity].
  - intro key'. unfold CacheService.invalidate, contains.
    destruct (get c key) eqn:G; [apply get_del | ].
    destruct (String.eqb_spec key key') as [<- | ]; [exact G | reflexivity].
  - reflexivity.
Qed.

End CacheFacts.

Lemma cache_set_then_get_witness :
  CacheService.get "current_weather_12.9_77.6" 300000000
    [("current_weather_12.9_77.6"%string, (7%Z, 300000000%Z))]
  = (Some 7%Z,
     [("current_weather_12.9_77.6"%string, (7%Z, 300000000%Z))]).
Proof.
  exact (proj1 (cache_set_then_get
                  "current_weather_12.9_77.6" 7%Z 300 0 []
                  [("current_weather_12.9_77.6"%string,
                    (7%Z, 300000000%Z))]
                  eq_refl 300000000%Z)).
Defined.

(** ** The risk of the current weather *)

Section WeatherServiceFacts.

Import Py RiskCalculator WeatherService.
Local Open Scope Q_scope.

Lemma round_half_even_between (a b : Z) (x : Q) :
  inject_Z a <= x <= inject_Z b ->
  (a <= round_half_even x <= b)%Z.
Proof.
  intros [Ha Hb].
  assert (Hfa : (a <= Qfloor x)%Z).
  { rewrite <- (Qfloor_Z a). apply Qfloor_resp_le, Ha. }
  assert (Hfb : (Qfloor x <= b)%Z).
  { rewrite <- (Qfloor_Z b). apply Qfloor_resp_le, Hb. }
  pose proof (Qfloor_le x) as Hfl.
  assert (Hup : 0 < x - inject_Z (Qfloor x) -> (Qfloor x + 1 <= b)%Z).
  { intro Hr.
    assert (Hlt : inject_Z (Qfloor x) < inject_Z b) by lra.
    rewrite <- Zlt_Qlt in Hlt. lia. }
  unfold round_half_even. q_cases.
  - lia.
  - split; [lia | ]. apply Hup. lra.
  - destruct (Z.even (Qfloor x)); [lia | ].
    split; [lia | ]. apply Hup. lra.
Qed.

Lemma calculate_temperature_risk_le (t : Q) :
  calculate_temperature_risk t <= 100.
Proof. unfold calculate_temperature_risk, min. q_cases; q_norm; lra. Qed.

Lemma calculate_wind_risk_le (w : Q) : calculate_wind_risk w <= 100.
Proof. unfold calculate_wind_risk, min. q_cases; q_norm; lra. Qed.

Lemma calculate_humidity_risk_le (h t : Q) :
  calculate_humidity_risk h t <= 100.
Proof. unfold calculate_humidity_risk, min. q_cases; q_norm; lra. Qed.

Lemma calculate_visibility_risk_le (v : Q) :
  calculate_visibility_risk v <= 100.
Proof. unfold calculate_visibility_risk, min. q_cases; q_norm; lra. Qed.

Lemma calculate_risk_score_dry (t w h v : Q) :
  0 <= calculate_risk_score t 0 w h v <= 75.
Proof.
  pose proof (calculate_temperature_risk_le t) as Ht.
  pose proof (calculate_wind_risk_le w) as Hw.
  pose proof (calculate_humidity_risk_le h t) as Hh.
  pose proof (calculate_visibility_risk_le v) as Hv.
  assert (Hp : calculate_precipitation_risk 0 == 0)
    by (vm_compute; reflexivity).
  unfold calculate_risk_score. cbv zeta.
  revert Ht Hw Hh Hv Hp.
  generalize (calculate_temperature_risk t) (calculate_wind_risk w)
             (calculate_humidity_risk h t) (calculate_visibility_risk v)
             (calculate_precipitation_risk 0).
  intros a b c d p Ht Hw Hh Hv Hp.
  unfold min, max. q_cases; q_norm_all; lra.
Qed.

(** X28. The risk reported with the current weather is computed without
    precipitation, so whatever the readings the reported score lies
    between 0 and 75 and the reported level is LOW, MODERATE, MEDIUM or
    HIGH, never SEVERE. *)
Theorem current_risk_never_severe :
  forall (temperature wind_speed : Q) (humidity : Z) (visibility : Q),
    let risk_score :=
      fst (current_risk temperature wind_speed humidity visibility) in
    let risk_level :=
      snd (current_risk temperature wind_speed humidity visibility) in
    0 <= risk_score <= 75 /\
    risk_level <> "SEVERE"%string /\
    In risk_level ["LOW"; "MODERATE"; "MEDIUM"; "HIGH"]%string.
Proof.
  intros t w h v. unfold current_risk. cbn [fst snd].
  pose proof (calculate_risk_score_dry t w (inject_Z h) v) as Hs.
  set (s := calculate_risk_score t 0 w (inject_Z h) v) in *.
  split.
  - unfold round2.
    assert (Hr : (0 <= round_half_even (s * 100) <= 7500)%Z).
    { apply round_half_even_between.
      change (inject_Z 0) with 0. change (inject_Z 7500) with 7500. lra. }
    destruct Hr as [Hr0 Hr1].
    rewrite Zle_Qle in Hr0, Hr1.
    change (inject_Z 0) with 0 in Hr0.
    change (inject_Z 7500) with 7500 in Hr1.
    q_norm. lra.
  - destruct (get_risk_level_cases s)
      as [[H E] | [[H E] | [[H E] | [[H E] | [H E]]]]];
      try (exfalso; lra); rewrite E;
      (split; [discriminate | simpl; tauto]).
Qed.

End WeatherServiceFacts.

(** ** Which alerts are pushed *)

Section NotificationFacts.

Import PyStore NotificationService.

Lemma no_recent_id (i : string) (l : list notification) :
  existsb (option_eqb (Some i)) (map get_alert_id l) = false.
Proof. induction l as [| n r IH]; simpl; [reflexivity | exact IH]. Qed.

(** X29. For an alert that has an id the duplicate check of
    [should_send_notification] never fires, because no logged
    notification carries an alert id: the answer is yes exactly when the
    severity is critical or warning, whatever the history, also right
    after the very same alert was logged. *)
Theorem should_send_notification_ignores_history :
  forall (a : alert) (i : string) (now_isoformat : string)
         (notification_history : list notification),
    id a = Some i ->
    should_send_notification a notification_history
    = negb (not_pushed (severity a)) /\
    should_send_notification
      a (_log_notification now_isoformat a notification_history)
    = negb (not_pushed (severity a)).
Proof.
  intros a i ts h Hid. unfold should_send_notification. rewrite Hid.
  rewrite !no_recent_id. destruct (not_pushed (severity a)); split;
    reflexivity.
Qed.

Lemma should_send_notification_ignores_history_witness :
  should_send_notification
    (mk_alert (Some "eq_us7000sample"%string) (Some "earthquake"%string)
              (Some "critical"%string) None None)
    (_log_notification
       "2024-06-01T09:00:00"
       (mk_alert (Some "eq_us7000sample"%string) (Some "earthquake"%string)
                 (Some "critical"%string) None None)
       [])
  = true.
Proof.
  exact (proj2 (should_send_notification_ignores_history
                  (mk_alert (Some "eq_us7000sample"%string)
                            (Some "earthquake"%string)
                            (Some "critical"%string) None None)
                  "eq_us7000sample" "2024-06-01T09:00:00" [] eq_refl)).
Defined.

End NotificationFacts.
